(** * SDGScript: static resource analyzer, score calculator and runtime tracker

    A shallow embedding of
    - [ResourceAnalyzer] (packages/core, analyzer): [analyzeFunction],
      [detectViolations];
    - [SDGCompiler.calculateScore] (packages/core, compiler);
    - [ResourceTracker], the module function [trackResource],
      [withSDGContext] and [createSDGFetch] (packages/runtime/src/index.ts);
    - [SDGAnnotationParser] (packages/core/src/parser.ts) and
      [SDGCompiler.analyzeSourceFile];
    - the report summary (packages/cli/src/reporter.ts) and the lint rule
      avoid-inefficient-loops (packages/eslint-plugin/src/rules.ts).

    JavaScript numbers are modelled by exact rationals ([Q], compared with
    [==]); NaN and the infinities do not occur in the model.  Where the
    program rounds, the model does not: a sum or a product in a statement
    names the program's own operation on the same operands, and the
    statements on the tracker conclude nothing from identities of exact
    arithmetic that floating-point numbers do not share.  Optional
    properties ([energy?: number]) are [option] fields, and the JavaScript
    idioms [x || d] and [if (x)] are written with [truthy] and [or_else]. *)

From Stdlib Require Import QArith Qabs Qround Qminmax Qpower Lqa.
From stdpp Require Import base list strings pretty.

Open Scope Q_scope.

(** ** JavaScript numbers *)

Module JS.

(** [if (x)] on an optional number: [undefined] and [0] are falsy. *)
Definition truthy (x : option Q) : bool :=
  match x with
  | Some q => negb (Qeq_bool q 0)
  | None => false
  end.

(** [x || d] *)
Definition or_else (x : option Q) (d : Q) : Q :=
  match x with
  | Some q => if Qeq_bool q 0 then d else q
  | None => d
  end.

(** The number held by a property that a [truthy] guard has shown to be
    defined; [0] stands for a falsy property. *)
Definition the (x : option Q) : Q :=
  match x with
  | Some q => q
  | None => 0
  end.

(** [a > b] and [a < b] on numbers. *)
Definition gtb (a b : Q) : bool := negb (Qle_bool a b).
Definition ltb (a b : Q) : bool := negb (Qle_bool b a).

(** [a > b] where either side may be [undefined]: a comparison with
    [undefined] is false. *)
Definition gt (a b : option Q) : bool :=
  match a, b with
  | Some x, Some y => gtb x y
  | _, _ => false
  end.

(** [text.includes(pat)] *)
Fixpoint includes (text pat : string) : bool :=
  if String.prefix pat text then true
  else match text with
       | EmptyString => false
       | String _ rest => includes rest pat
       end.

(** [Math.max(a, b)] *)
Definition max (a b : Q) : Q := if Qle_bool a b then b else a.

(** [Math.pow(10, n)] for a loop counter [n]. *)
Definition pow10 (n : nat) : Q := inject_Z (10 ^ Z.of_nat n)%Z.

(** Decimal digits of a natural number, left-padded with zeros to
    [width] characters. *)
Fixpoint pad_zeros (n : nat) (s : string) : string :=
  match n with
  | O => s
  | S n' => "0" +:+ pad_zeros n' s
  end.

Definition digits_padded (width : nat) (z : Z) : string :=
  let s := pretty (Z.to_N z) in
  pad_zeros (width - String.length s)%nat s.

(** [x.toFixed(d)]: the integer [n] for which [n / 10^d - x] is closest
    to zero (the larger [n] on a tie), printed with exactly [d] fraction
    digits; the sign is handled first, as ECMAScript prescribes.  The
    rounding is that of the exact rational, and magnitudes stay below
    1e21, where JavaScript prints plain decimals. *)
Definition toFixed (d : nat) (x : Q) : string :=
  let neg := ltb x 0 in
  let a := Qabs x in
  let scale := (10 ^ Z.of_nat d)%Z in
  let n := Qfloor (a * inject_Z scale + (1 # 2)) in
  let body :=
    pretty (Z.to_N (n / scale)%Z) +:+
    match d with
    | O => EmptyString
    | _ => "." +:+ digits_padded d (n mod scale)%Z
    end in
  if neg then "-" +:+ body else body.

(** Fraction digits of [r / den] for [0 <= r < den], at most [fuel] of
    them, stopping as soon as the expansion terminates. *)
Fixpoint fraction_digits (fuel : nat) (r den : Z) : string :=
  match fuel with
  | O => EmptyString
  | S fuel' =>
      if (r =? 0)%Z then EmptyString
      else pretty (Z.to_N (10 * r / den)%Z) +:+
           fraction_digits fuel' ((10 * r) mod den)%Z den
  end.

(** [String(x)], as in a template literal [`${x}`], for magnitudes that
    JavaScript prints in plain decimal notation (from 1e-6 up to 1e21): the
    integer part, then the fraction digits without trailing zeros.  On
    rationals whose decimal expansion does not terminate the expansion is
    cut after 17 digits. *)
Definition toString (x : Q) : string :=
  let neg := ltb x 0 in
  let a := Qabs x in
  let num := Qnum a in
  let den := Z.pos (Qden a) in
  let frac := fraction_digits 17 (num mod den)%Z den in
  let body :=
    pretty (Z.to_N (num / den)%Z) +:+
    match frac with
    | EmptyString => EmptyString
    | _ => "." +:+ frac
    end in
  if neg then "-" +:+ body else body.

End JS.

(** ** The syntax tree handed over by ts-morph

    Only what the analyzer inspects is kept: the syntax kind of a node, the
    text of the callee of a call expression
    ([descendant.getExpression().getText()]) and the children. *)

Module TsMorph.

Inductive SyntaxKind : Set :=
| ForStatement | WhileStatement | ForInStatement | ForOfStatement
| DoStatement | CallExpression | Block | OtherKind.

#[local] Unset Elimination Schemes.
Inductive Node : Type :=
| mkNode (kind : SyntaxKind) (expressionText : string) (children : list Node).
#[local] Set Elimination Schemes.

Definition getKind (n : Node) : SyntaxKind :=
  match n with mkNode k _ _ => k end.
Definition getExpressionText (n : Node) : string :=
  match n with mkNode _ t _ => t end.
Definition getChildren (n : Node) : list Node :=
  match n with mkNode _ _ cs => cs end.

Definition isForStatement (n : Node) : bool :=
  match getKind n with ForStatement => true | _ => false end.
Definition isWhileStatement (n : Node) : bool :=
  match getKind n with WhileStatement => true | _ => false end.
Definition isForInStatement (n : Node) : bool :=
  match getKind n with ForInStatement => true | _ => false end.
Definition isForOfStatement (n : Node) : bool :=
  match getKind n with ForOfStatement => true | _ => false end.
Definition isCallExpression (n : Node) : bool :=
  match getKind n with CallExpression => true | _ => false end.

(** A node followed by its descendants, depth first, parents before
    children. *)
Fixpoint preorder (n : Node) : list Node :=
  match n with
  | mkNode _ _ cs => n :: flat_map preorder cs
  end.

(** The nodes [node.forEachDescendant] visits, in visiting order: every
    descendant, the node itself excluded. *)
Definition descendants (n : Node) : list Node :=
  flat_map preorder (getChildren n).

(** [node.forEachDescendant(cb)] where the callback updates captured
    state [S]. *)
Definition forEachDescendant {S : Type} (n : Node) (cb : S -> Node -> S) (s : S) : S :=
  fold_left cb (descendants n) s.

End TsMorph.

(** ** Core types (packages/core, types) *)

Module Core.

Inductive SDGGoal : Set :=
| Goal1_NoPoverty | Goal2_ZeroHunger | Goal3_GoodHealth
| Goal4_QualityEducation | Goal5_GenderEquality | Goal6_CleanWater
| Goal7_AffordableEnergy | Goal8_DecentWork | Goal9_Innovation
| Goal10_ReducedInequalities | Goal11_SustainableCities
| Goal12_ResponsibleConsumption | Goal13_ClimateAction
| Goal14_LifeBelowWater | Goal15_LifeOnLand | Goal16_Peace
| Goal17_Partnerships.

Inductive ImpactLevel : Set := LOW | MEDIUM | HIGH | CRITICAL.
Inductive ImpactCategory : Set := ENVIRONMENT | SOCIAL | ECONOMIC | GOVERNANCE.

Record SDGAnnotation : Type := {
  goal : SDGGoal;
  carbonBudget : option Q;
  impact : option (ImpactCategory * ImpactLevel);
  description : option string;
  tags : option (list string)
}.

Record ResourceMetrics : Type := {
  energy : option Q;
  emissions : option Q;
  memory : option Q;
  networkCalls : option Q;
  ioOperations : option Q;
  computeComplexity : option Q
}.

Definition set_energy (v : option Q) (m : ResourceMetrics) : ResourceMetrics :=
  {| energy := v; emissions := emissions m; memory := memory m;
     networkCalls := networkCalls m; ioOperations := ioOperations m;
     computeComplexity := computeComplexity m |}.
Definition set_emissions (v : option Q) (m : ResourceMetrics) : ResourceMetrics :=
  {| energy := energy m; emissions := v; memory := memory m;
     networkCalls := networkCalls m; ioOperations := ioOperations m;
     computeComplexity := computeComplexity m |}.
Definition set_memory (v : option Q) (m : ResourceMetrics) : ResourceMetrics :=
  {| energy := energy m; emissions := emissions m; memory := v;
     networkCalls := networkCalls m; ioOperations := ioOperations m;
     computeComplexity := computeComplexity m |}.
Definition set_networkCalls (v : option Q) (m : ResourceMetrics) : ResourceMetrics :=
  {| energy := energy m; emissions := emissions m; memory := memory m;
     networkCalls := v; ioOperations := ioOperations m;
     computeComplexity := computeComplexity m |}.
Definition set_ioOperations (v : option Q) (m : ResourceMetrics) : ResourceMetrics :=
  {| energy := energy m; emissions := emissions m; memory := memory m;
     networkCalls := networkCalls m; ioOperations := v;
     computeComplexity := computeComplexity m |}.
Definition set_computeComplexity (v : option Q) (m : ResourceMetrics) : ResourceMetrics :=
  {| energy := energy m; emissions := emissions m; memory := memory m;
     networkCalls := networkCalls m; ioOperations := ioOperations m;
     computeComplexity := v |}.

(** The object literal both [analyzeFunction] and [startContext] start
    from. *)
Definition initialMetrics : ResourceMetrics :=
  {| energy := Some 0; emissions := Some 0; memory := Some 0;
     networkCalls := Some 0; ioOperations := Some 0;
     computeComplexity := Some 1 |}.

Inductive ViolationType : Set :=
| carbon_budget_exceeded | inefficient_algorithm
| high_impact_no_annotation | missing_sdg_context.

Inductive Severity : Set := warning | error.

Record Violation : Type := {
  type : ViolationType;
  severity : Severity;
  message : string;
  suggestion : option string
}.

End Core.

(** ** ResourceAnalyzer (packages/core, analyzer) *)

Module ResourceAnalyzer.
Import TsMorph Core.

Definition countNetworkCalls (node : Node) (metrics : ResourceMetrics) : ResourceMetrics :=
  forEachDescendant node (fun metrics descendant =>
    if isCallExpression descendant then
      let text := getExpressionText descendant in
      if JS.includes text "fetch" ||
         JS.includes text "axios" ||
         JS.includes text "http.request" ||
         JS.includes text "$.ajax"
      then set_networkCalls (Some (JS.or_else (networkCalls metrics) 0 + 1)) metrics
      else metrics
    else metrics) metrics.

(** The callback of [analyzeLoops] on its two captured counters
    [(loopDepth, maxDepth)]. *)
Definition analyzeLoops_visit (st : nat * nat) (descendant : Node) : nat * nat :=
  let '(loopDepth, maxDepth) := st in
  if isForStatement descendant ||
     isWhileStatement descendant ||
     isForInStatement descendant ||
     isForOfStatement descendant
  then
    let loopDepth := S loopDepth in
    (loopDepth, Nat.max maxDepth loopDepth)
  else (loopDepth, maxDepth).

Definition analyzeLoops (node : Node) (metrics : ResourceMetrics) : ResourceMetrics :=
  let '(_, maxDepth) := forEachDescendant node analyzeLoops_visit (O, O) in
  set_computeComplexity (Some (JS.pow10 maxDepth)) metrics.

Definition countIOOperations (node : Node) (metrics : ResourceMetrics) : ResourceMetrics :=
  forEachDescendant node (fun metrics descendant =>
    if isCallExpression descendant then
      let text := getExpressionText descendant in
      if JS.includes text "readFile" ||
         JS.includes text "writeFile" ||
         JS.includes text "fs." ||
         JS.includes text "localStorage" ||
         JS.includes text "sessionStorage"
      then set_ioOperations (Some (JS.or_else (ioOperations metrics) 0 + 1)) metrics
      else metrics
    else metrics) metrics.

Definition detectAIModelUsage (node : Node) (metrics : ResourceMetrics) : ResourceMetrics :=
  forEachDescendant node (fun metrics descendant =>
    if isCallExpression descendant then
      let text := getExpressionText descendant in
      if JS.includes text "tensorflow" ||
         JS.includes text "torch" ||
         JS.includes text "openai" ||
         JS.includes text "huggingface" ||
         JS.includes text "predict" ||
         JS.includes text "inference"
      then
        let metrics := set_energy (Some (JS.or_else (energy metrics) 0 + 50)) metrics in
        set_computeComplexity
          (Some (JS.or_else (computeComplexity metrics) 1 * 1000)) metrics
      else metrics
    else metrics) metrics.

Section WithLog10.
(** [Math.log10], which ECMAScript leaves to the implementation. *)
Variable log10 : Q -> Q.

Definition estimateEnergyUsage (metrics : ResourceMetrics) : ResourceMetrics :=
  let baseEnergy := 1 # 100 in
  let baseEnergy := baseEnergy + JS.or_else (networkCalls metrics) 0 * (1 # 1000) in
  let baseEnergy := baseEnergy + JS.or_else (ioOperations metrics) 0 * (5 # 10000) in
  let baseEnergy :=
    baseEnergy + log10 (JS.or_else (computeComplexity metrics) 1) * (1 # 100) in
  let metrics := set_energy (Some (JS.or_else (energy metrics) 0 + baseEnergy)) metrics in
  set_emissions (Some (JS.or_else (energy metrics) 0 * 500)) metrics.

Definition analyzeFunction (node : Node) : ResourceMetrics :=
  let metrics := initialMetrics in
  let metrics := countNetworkCalls node metrics in
  let metrics := analyzeLoops node metrics in
  let metrics := countIOOperations node metrics in
  let metrics := detectAIModelUsage node metrics in
  estimateEnergyUsage metrics.
End WithLog10.

Definition budgetMessage (e b : Q) : string :=
  "Energy usage (" +:+ JS.toFixed 3 e +:+ "kWh) exceeds carbon budget (" +:+
  JS.toString b +:+ "kWh)".

Definition detectViolations
    (metrics : ResourceMetrics) (annotations : list SDGAnnotation) : list Violation :=
  let violations : list Violation := [] in
  let violations :=
    fold_left (fun violations annotation =>
      if JS.truthy (carbonBudget annotation) && JS.truthy (energy metrics) &&
         JS.gt (energy metrics) (carbonBudget annotation)
      then violations ++ [ {|
        type := carbon_budget_exceeded;
        severity := error;
        message := budgetMessage (JS.the (energy metrics))
                                 (JS.the (carbonBudget annotation));
        suggestion := Some "Consider optimizing algorithms or reducing network calls"
      |} ]
      else violations) annotations violations in
  let violations :=
    if JS.truthy (computeComplexity metrics) &&
       JS.gt (computeComplexity metrics) (Some 1000)
    then violations ++ [ {|
      type := inefficient_algorithm;
      severity := warning;
      message := "High computational complexity detected";
      suggestion := Some "Consider using more efficient algorithms or caching"
    |} ]
    else violations in
  let violations :=
    if JS.truthy (energy metrics) && JS.gt (energy metrics) (Some 10) &&
       (length annotations =? 0)%nat
    then violations ++ [ {|
      type := high_impact_no_annotation;
      severity := warning;
      message := "High energy consumption function lacks SDG annotations";
      suggestion := Some "Add @sdg annotation to document sustainability impact"
    |} ]
    else violations in
  violations.

End ResourceAnalyzer.

(** ** SDGCompiler.calculateScore (packages/core, compiler) *)

Module SDGCompiler.
Import Core.

Definition calculateScore
    (metrics : ResourceMetrics) (violations : list Violation)
    (annotations : list SDGAnnotation) : Z :=
  let score := 100%Z in
  let score :=
    fold_left (fun score violation =>
      (score - match severity violation with error => 20 | _ => 10 end)%Z)
      violations score in
  let score :=
    match energy metrics with
    | Some e =>
        if JS.ltb e (1 # 10) then (score + 10)%Z
        else if JS.gtb e 10 then (score - 15)%Z
        else score
    | None => score
    end in
  let score := (score + Z.of_nat (length annotations) * 5)%Z in
  Z.max 0 (Z.min 100 score).

End SDGCompiler.

(** ** JavaScript [Map<string, V>]

    A [Map] iterates in insertion order, and the broadcast [trackResource]
    emits its events in that order, so the registry is an association list
    kept in insertion order rather than an unordered finite map. *)

Module JSMap.

Definition t (V : Type) : Type := list (string * V).

Definition empty {V : Type} : t V := [].

Fixpoint get {V : Type} (k : string) (m : t V) : option V :=
  match m with
  | [] => None
  | (k', v) :: m' => if String.eqb k k' then Some v else get k m'
  end.

(** [m.set(k, v)]: an existing key keeps its position. *)
Fixpoint set {V : Type} (k : string) (v : V) (m : t V) : t V :=
  match m with
  | [] => [(k, v)]
  | (k', v') :: m' =>
      if String.eqb k k' then (k, v) :: m' else (k', v') :: set k v m'
  end.

Fixpoint delete {V : Type} (k : string) (m : t V) : t V :=
  match m with
  | [] => []
  | (k', v') :: m' =>
      if String.eqb k k' then delete k m' else (k', v') :: delete k m'
  end.

Definition keys {V : Type} (m : t V) : list string := map fst m.

End JSMap.

(** ** Runtime tracker (packages/runtime/src/index.ts)

    Context objects are supplied by the caller and kept by reference, so
    they live in an object store ([heap], addressed by [ref]).  The metrics
    accumulator of a context is created by [startContext] itself and is
    held by value in the [metrics] map.  Listeners are observers: what
    [emit] hands to them is recorded, in order, in [emitted].  [Date.now()]
    reads the next value of a clock. *)

Module Runtime.
Import Core.

(** A reference to a context object in the store. *)
Abbreviation ref := nat.

Record SDGContext : Type := {
  goal : string;
  carbonBudget : option Q;
  description : option string;
  startTime : option Q;
  maxDuration : option Q
}.

Definition set_startTime (v : option Q) (c : SDGContext) : SDGContext :=
  {| goal := goal c; carbonBudget := carbonBudget c;
     description := description c; startTime := v;
     maxDuration := maxDuration c |}.

Definition set_carbonBudget (v : option Q) (c : SDGContext) : SDGContext :=
  {| goal := goal c; carbonBudget := v;
     description := description c; startTime := startTime c;
     maxDuration := maxDuration c |}.

Inductive EventType : Set :=
| context_started | context_ended | resource_tracked | carbon_budget_exceeded.

Module TrackingEvent.
Record t : Type := {
  type : EventType;
  contextId : string;
  context : option ref;
  metrics : option ResourceMetrics;
  resourceType : option string;
  usage : option ResourceMetrics;
  totalMetrics : option ResourceMetrics;
  duration : option Q;
  timestamp : Q
}.
End TrackingEvent.

Record World : Type := {
  heap : list SDGContext;
  activeContexts : JSMap.t ref;
  metrics : JSMap.t ResourceMetrics;
  emitted : list TrackingEvent.t;
  console : list string;
  clock : nat -> Q;
  ticks : nat
}.

Definition set_heap (v : list SDGContext) (w : World) : World :=
  {| heap := v; activeContexts := activeContexts w; metrics := metrics w;
     emitted := emitted w; console := console w; clock := clock w;
     ticks := ticks w |}.
Definition set_activeContexts (v : JSMap.t ref) (w : World) : World :=
  {| heap := heap w; activeContexts := v; metrics := metrics w;
     emitted := emitted w; console := console w; clock := clock w;
     ticks := ticks w |}.
Definition set_metrics (v : JSMap.t ResourceMetrics) (w : World) : World :=
  {| heap := heap w; activeContexts := activeContexts w; metrics := v;
     emitted := emitted w; console := console w; clock := clock w;
     ticks := ticks w |}.
Definition set_emitted (v : list TrackingEvent.t) (w : World) : World :=
  {| heap := heap w; activeContexts := activeContexts w; metrics := metrics w;
     emitted := v; console := console w; clock := clock w;
     ticks := ticks w |}.
Definition set_console (v : list string) (w : World) : World :=
  {| heap := heap w; activeContexts := activeContexts w; metrics := metrics w;
     emitted := emitted w; console := v; clock := clock w;
     ticks := ticks w |}.
Definition set_ticks (v : nat) (w : World) : World :=
  {| heap := heap w; activeContexts := activeContexts w; metrics := metrics w;
     emitted := emitted w; console := console w; clock := clock w;
     ticks := v |}.

(** [Date.now()] *)
Definition Date_now (w : World) : Q * World :=
  (clock w (ticks w), set_ticks (S (ticks w)) w).

(** [console.warn(msg)] *)
Definition console_warn (msg : string) (w : World) : World :=
  set_console (console w ++ [msg]) w.

(** A caller evaluating an object literal [{goal: ..., ...}]. *)
Definition newContext (c : SDGContext) (w : World) : ref * World :=
  (length (heap w), set_heap (heap w ++ [c]) w).

(** A caller assigning to a property of a context object it holds. *)
Definition assignContext (r : ref) (f : SDGContext -> SDGContext) (w : World) : World :=
  set_heap (alter f r (heap w)) w.

Module ResourceTracker.

Definition emit (event : TrackingEvent.t) (w : World) : World :=
  set_emitted (emitted w ++ [event]) w.

Definition startContext (id : string) (context : ref) (w : World) : World :=
  let '(now, w) := Date_now w in
  let w := set_heap (alter (set_startTime (Some now)) context (heap w)) w in
  let w := set_activeContexts (JSMap.set id context (activeContexts w)) w in
  let w := set_metrics (JSMap.set id initialMetrics (metrics w)) w in
  let '(now, w) := Date_now w in
  emit {|
    TrackingEvent.type := context_started;
    TrackingEvent.contextId := id;
    TrackingEvent.context := Some context;
    TrackingEvent.metrics := None;
    TrackingEvent.resourceType := None;
    TrackingEvent.usage := None;
    TrackingEvent.totalMetrics := None;
    TrackingEvent.duration := None;
    TrackingEvent.timestamp := now
  |} w.

Definition endContext (id : string) (w : World) : option ResourceMetrics * World :=
  match JSMap.get id (activeContexts w), JSMap.get id (metrics w) with
  | Some context, Some metrics =>
      match heap w !! context with
      | None => (None, w)
      | Some ctx =>
          let '(now, w) := Date_now w in
          let duration := now - JS.or_else (startTime ctx) 0 in
          let w :=
            if JS.truthy (carbonBudget ctx) && JS.truthy (energy metrics) &&
               JS.gt (energy metrics) (carbonBudget ctx)
            then
              let '(now, w) := Date_now w in
              emit {|
                TrackingEvent.type := carbon_budget_exceeded;
                TrackingEvent.contextId := id;
                TrackingEvent.context := Some context;
                TrackingEvent.metrics := Some metrics;
                TrackingEvent.resourceType := None;
                TrackingEvent.usage := None;
                TrackingEvent.totalMetrics := None;
                TrackingEvent.duration := None;
                TrackingEvent.timestamp := now
              |} w
            else w in
          let '(now, w) := Date_now w in
          let w := emit {|
            TrackingEvent.type := context_ended;
            TrackingEvent.contextId := id;
            TrackingEvent.context := Some context;
            TrackingEvent.metrics := Some metrics;
            TrackingEvent.resourceType := None;
            TrackingEvent.usage := None;
            TrackingEvent.totalMetrics := None;
            TrackingEvent.duration := Some duration;
            TrackingEvent.timestamp := now
          |} w in
          let w := set_activeContexts (JSMap.delete id (activeContexts w)) w in
          let w := set_metrics (JSMap.delete id (Runtime.metrics w)) w in
          (Some metrics, w)
      end
  | _, _ => (None, w)
  end.

(** The five guarded assignments of [trackResource] on the accumulator. *)
Definition accumulate (metrics usage : ResourceMetrics) : ResourceMetrics :=
  let metrics :=
    if JS.truthy (energy usage)
    then set_energy (Some (JS.or_else (energy metrics) 0 + JS.the (energy usage))) metrics
    else metrics in
  let metrics :=
    if JS.truthy (emissions usage)
    then set_emissions
           (Some (JS.or_else (emissions metrics) 0 + JS.the (emissions usage))) metrics
    else metrics in
  let metrics :=
    if JS.truthy (memory usage)
    then set_memory
           (Some (JS.max (JS.or_else (memory metrics) 0) (JS.the (memory usage)))) metrics
    else metrics in
  let metrics :=
    if JS.truthy (networkCalls usage)
    then set_networkCalls
           (Some (JS.or_else (networkCalls metrics) 0 + JS.the (networkCalls usage))) metrics
    else metrics in
  let metrics :=
    if JS.truthy (ioOperations usage)
    then set_ioOperations
           (Some (JS.or_else (ioOperations metrics) 0 + JS.the (ioOperations usage))) metrics
    else metrics in
  metrics.

Definition trackResource
    (contextId resourceType : string) (usage : ResourceMetrics) (w : World) : World :=
  match JSMap.get contextId (metrics w) with
  | None => console_warn ("No active context found for ID: " +:+ contextId) w
  | Some metrics =>
      let metrics := accumulate metrics usage in
      let w := set_metrics (JSMap.set contextId metrics (Runtime.metrics w)) w in
      let '(now, w) := Date_now w in
      emit {|
        TrackingEvent.type := resource_tracked;
        TrackingEvent.contextId := contextId;
        TrackingEvent.context := None;
        TrackingEvent.metrics := None;
        TrackingEvent.resourceType := Some resourceType;
        TrackingEvent.usage := Some usage;
        TrackingEvent.totalMetrics := Some metrics;
        TrackingEvent.duration := None;
        TrackingEvent.timestamp := now
      |} w
  end.

(** [new Map(this.activeContexts)]: a copy, detached from the registry. *)
Definition getActiveContexts (w : World) : JSMap.t ref := activeContexts w.

Definition getCurrentMetrics (contextId : string) (w : World) : option ResourceMetrics :=
  JSMap.get contextId (metrics w).

End ResourceTracker.

(** The module function [trackResource(resourceType, usage)]. *)
Definition trackResource (resourceType : string) (usage : ResourceMetrics) (w : World) : World :=
  let activeContexts := ResourceTracker.getActiveContexts w in
  fold_left (fun w '(contextId, _) =>
               ResourceTracker.trackResource contextId resourceType usage w)
            activeContexts w.

(** What a program can do to the tracker and to the context objects it
    holds, for statements about whole runs. *)
Inductive Op : Type :=
| OpNew (c : SDGContext)
| OpAssign (r : ref) (f : SDGContext -> SDGContext)
| OpStart (id : string) (context : ref)
| OpTrack (contextId resourceType : string) (usage : ResourceMetrics)
| OpBroadcast (resourceType : string) (usage : ResourceMetrics)
| OpEnd (id : string).

Definition step (w : World) (op : Op) : World :=
  match op with
  | OpNew c => snd (newContext c w)
  | OpAssign r f => assignContext r f w
  | OpStart id context => ResourceTracker.startContext id context w
  | OpTrack contextId resourceType usage =>
      ResourceTracker.trackResource contextId resourceType usage w
  | OpBroadcast resourceType usage => trackResource resourceType usage w
  | OpEnd id => snd (ResourceTracker.endContext id w)
  end.

Definition run (ops : list Op) (w : World) : World := fold_left step ops w.

(** The operation starts or ends the context [id]. *)
Definition touches (id : string) (op : Op) : bool :=
  match op with
  | OpStart id' _ | OpEnd id' => String.eqb id id'
  | _ => false
  end.

End Runtime.

(** ** Notions the specification speaks of *)

Module Spec.
Import TsMorph Core.

(** The iteration constructs [analyzeLoops] recognises. *)
Definition isLoop (n : Node) : bool :=
  isForStatement n || isWhileStatement n || isForInStatement n || isForOfStatement n.

Definition isNetworkCall (n : Node) : bool :=
  isCallExpression n &&
  (JS.includes (getExpressionText n) "fetch" ||
   JS.includes (getExpressionText n) "axios" ||
   JS.includes (getExpressionText n) "http.request" ||
   JS.includes (getExpressionText n) "$.ajax").

Definition isIOCall (n : Node) : bool :=
  isCallExpression n &&
  (JS.includes (getExpressionText n) "readFile" ||
   JS.includes (getExpressionText n) "writeFile" ||
   JS.includes (getExpressionText n) "fs." ||
   JS.includes (getExpressionText n) "localStorage" ||
   JS.includes (getExpressionText n) "sessionStorage").

Definition isInferenceCall (n : Node) : bool :=
  isCallExpression n &&
  (JS.includes (getExpressionText n) "tensorflow" ||
   JS.includes (getExpressionText n) "torch" ||
   JS.includes (getExpressionText n) "openai" ||
   JS.includes (getExpressionText n) "huggingface" ||
   JS.includes (getExpressionText n) "predict" ||
   JS.includes (getExpressionText n) "inference").

(** How many descendants of a body satisfy a test. *)
Definition count (p : Node -> bool) (body : Node) : nat :=
  length (List.filter p (descendants body)).

(** Lexical nesting depth of loops in the subtree rooted at a node: a loop
    adds one to the deepest nesting found among its children. *)
Fixpoint nestingDepth (n : Node) : nat :=
  match n with
  | mkNode _ _ cs =>
      (if isLoop n then 1 else 0) + list_max (map nestingDepth cs)
  end.

(** The maximum lexical nesting depth D of loops anywhere in a body. *)
Definition maxNestingDepth (body : Node) : nat :=
  list_max (map nestingDepth (getChildren body)).

(** [emissions == energy * 500] on a metrics object. *)
Definition emissionsInvariant (m : ResourceMetrics) : Prop :=
  JS.the (emissions m) == JS.the (energy m) * 500.

(** The first rule of the violation detector as the specification words
    it: every annotation carrying a budget below the energy yields an
    error whose message prints both numbers with three decimals. *)
Definition budgetMessage_spec (e b : Q) : string :=
  "Energy usage (" +:+ JS.toFixed 3 e +:+ "kWh) exceeds carbon budget (" +:+
  JS.toFixed 3 b +:+ "kWh)".

Definition budgetViolations_spec
    (metrics : ResourceMetrics) (annotations : list SDGAnnotation) : list Violation :=
  flat_map (fun annotation =>
    match carbonBudget annotation with
    | Some b =>
        if JS.gt (energy metrics) (Some b)
        then [ {| type := carbon_budget_exceeded; severity := error;
                  message := budgetMessage_spec (JS.the (energy metrics)) b;
                  suggestion :=
                    Some "Consider optimizing algorithms or reducing network calls" |} ]
        else []
    | None => []
    end) annotations.

Definition inefficientAlgorithm : Violation :=
  {| type := inefficient_algorithm; severity := warning;
     message := "High computational complexity detected";
     suggestion := Some "Consider using more efficient algorithms or caching" |}.

Definition highImpactNoAnnotation : Violation :=
  {| type := high_impact_no_annotation; severity := warning;
     message := "High energy consumption function lacks SDG annotations";
     suggestion := Some "Add @sdg annotation to document sustainability impact" |}.

Definition detectViolations_spec
    (metrics : ResourceMetrics) (annotations : list SDGAnnotation) : list Violation :=
  budgetViolations_spec metrics annotations ++
  (if JS.gt (computeComplexity metrics) (Some 1000) then [inefficientAlgorithm] else []) ++
  (if JS.gt (energy metrics) (Some 10) && (length annotations =? 0)%nat
   then [highImpactNoAnnotation] else []).

(** The budget errors the code emits: the budget must be truthy (present
    and non-zero) and so must the energy; the message prints the energy
    with three decimals and the budget as [String] prints it. *)
Definition budgetExceeded (metrics : ResourceMetrics) (annotation : SDGAnnotation) : bool :=
  JS.truthy (carbonBudget annotation) && JS.truthy (energy metrics) &&
  JS.gt (energy metrics) (carbonBudget annotation).

Definition budgetViolation (metrics : ResourceMetrics) (annotation : SDGAnnotation) : Violation :=
  {| type := carbon_budget_exceeded; severity := error;
     message :=
       "Energy usage (" +:+ JS.toFixed 3 (JS.the (energy metrics)) +:+
       "kWh) exceeds carbon budget (" +:+
       JS.toString (JS.the (carbonBudget annotation)) +:+ "kWh)";
     suggestion := Some "Consider optimizing algorithms or reducing network calls" |}.

(** Score of the specification: the closed formula, clamped. *)
Definition adjustment (energy : option Q) : Z :=
  match energy with
  | Some e => if JS.ltb e (1 # 10) then 10
              else if JS.gtb e 10 then (-15) else 0
  | None => 0
  end.

Definition isError (v : Violation) : bool :=
  match severity v with error => true | warning => false end.
Definition isWarning (v : Violation) : bool :=
  match severity v with warning => true | error => false end.

Definition score_spec
    (metrics : ResourceMetrics) (violations : list Violation)
    (annotations : list SDGAnnotation) : Z :=
  let raw :=
    (100 - 20 * Z.of_nat (length (List.filter isError violations))
         - 10 * Z.of_nat (length (List.filter isWarning violations))
         + adjustment (energy metrics)
         + 5 * Z.of_nat (length annotations))%Z in
  Z.max 0 (Z.min 100 raw).

(** Sums and running maximum over a sequence of partial updates. *)
Definition total (field : ResourceMetrics -> option Q) (usages : list ResourceMetrics) : Q :=
  fold_left (fun acc u => acc + JS.the (field u)) usages 0.

Definition peak (field : ResourceMetrics -> option Q) (usages : list ResourceMetrics) : Q :=
  fold_left (fun acc u => JS.max acc (JS.the (field u))) usages 0.

(** The events of the tracker, as each operation builds them. *)
Definition startedEvent (id : string) (context : Runtime.ref) (now : Q)
    : Runtime.TrackingEvent.t :=
  {| Runtime.TrackingEvent.type := Runtime.context_started;
     Runtime.TrackingEvent.contextId := id;
     Runtime.TrackingEvent.context := Some context;
     Runtime.TrackingEvent.metrics := None;
     Runtime.TrackingEvent.resourceType := None;
     Runtime.TrackingEvent.usage := None;
     Runtime.TrackingEvent.totalMetrics := None;
     Runtime.TrackingEvent.duration := None;
     Runtime.TrackingEvent.timestamp := now |}.

Definition trackedEvent (contextId resourceType : string) (usage total : ResourceMetrics)
    (now : Q) : Runtime.TrackingEvent.t :=
  {| Runtime.TrackingEvent.type := Runtime.resource_tracked;
     Runtime.TrackingEvent.contextId := contextId;
     Runtime.TrackingEvent.context := None;
     Runtime.TrackingEvent.metrics := None;
     Runtime.TrackingEvent.resourceType := Some resourceType;
     Runtime.TrackingEvent.usage := Some usage;
     Runtime.TrackingEvent.totalMetrics := Some total;
     Runtime.TrackingEvent.duration := None;
     Runtime.TrackingEvent.timestamp := now |}.

Definition exceededEvent (id : string) (context : Runtime.ref) (metrics : ResourceMetrics)
    (now : Q) : Runtime.TrackingEvent.t :=
  {| Runtime.TrackingEvent.type := Runtime.carbon_budget_exceeded;
     Runtime.TrackingEvent.contextId := id;
     Runtime.TrackingEvent.context := Some context;
     Runtime.TrackingEvent.metrics := Some metrics;
     Runtime.TrackingEvent.resourceType := None;
     Runtime.TrackingEvent.usage := None;
     Runtime.TrackingEvent.totalMetrics := None;
     Runtime.TrackingEvent.duration := None;
     Runtime.TrackingEvent.timestamp := now |}.

Definition endedEvent (id : string) (context : Runtime.ref) (metrics : ResourceMetrics)
    (duration now : Q) : Runtime.TrackingEvent.t :=
  {| Runtime.TrackingEvent.type := Runtime.context_ended;
     Runtime.TrackingEvent.contextId := id;
     Runtime.TrackingEvent.context := Some context;
     Runtime.TrackingEvent.metrics := Some metrics;
     Runtime.TrackingEvent.resourceType := None;
     Runtime.TrackingEvent.usage := None;
     Runtime.TrackingEvent.totalMetrics := None;
     Runtime.TrackingEvent.duration := Some duration;
     Runtime.TrackingEvent.timestamp := now |}.

(** The budget test of [endContext]: the budget and the accumulated
    energy must both be truthy. *)
Definition contextBudgetExceeded (ctx : Runtime.SDGContext) (metrics : ResourceMetrics) : bool :=
  JS.truthy (Runtime.carbonBudget ctx) && JS.truthy (energy metrics) &&
  JS.gt (energy metrics) (Runtime.carbonBudget ctx).

(** The test as the specification words it: a budget is declared and the
    accumulated energy exceeds it. *)
Definition contextBudgetExceeded_spec (ctx : Runtime.SDGContext) (metrics : ResourceMetrics)
    : bool :=
  JS.gt (energy metrics) (Runtime.carbonBudget ctx).

(** The registry is well formed: no id is listed twice in either map, as
    in a [Map], which holds one entry per key. *)
Definition wellFormed (w : Runtime.World) : Prop :=
  NoDup (JSMap.keys (Runtime.activeContexts w)) /\
  NoDup (JSMap.keys (Runtime.metrics w)).

End Spec.

(** ** Sample inputs *)

Module Samples.
Import TsMorph Core.

Definition emptyLoop (k : SyntaxKind) : Node :=
  mkNode k EmptyString [mkNode Block EmptyString []].

(** [function f() { for (;;) {} for (;;) {} }] *)
Definition sequentialLoops : Node :=
  mkNode OtherKind EmptyString
    [mkNode Block EmptyString [emptyLoop ForStatement; emptyLoop ForStatement]].

(** [function f() { for (;;) { for (;;) {} } }] *)
Definition nestedLoops : Node :=
  mkNode OtherKind EmptyString
    [mkNode Block EmptyString
       [mkNode ForStatement EmptyString
          [mkNode Block EmptyString [emptyLoop ForStatement]]]].

(** [function f() { }] *)
Definition emptyBody : Node :=
  mkNode OtherKind EmptyString [mkNode Block EmptyString []].

(** [function f() { fetch(u); fs.readFile(p); model.predict(x); }] *)
Definition busyBody : Node :=
  mkNode OtherKind EmptyString
    [mkNode Block EmptyString
       [mkNode CallExpression "fetch" [];
        mkNode CallExpression "fs.readFile" [];
        mkNode CallExpression "model.predict" []]].

Definition annotation (budget : option Q) : SDGAnnotation :=
  {| goal := Goal13_ClimateAction; carbonBudget := budget; impact := None;
     description := None; tags := None |}.

Definition metricsWithEnergy (e : Q) : ResourceMetrics :=
  set_energy (Some e) initialMetrics.

(** A partial update [{energy: e}], [{networkCalls: n}], ... *)
Definition noUsage : ResourceMetrics :=
  {| energy := None; emissions := None; memory := None; networkCalls := None;
     ioOperations := None; computeComplexity := None |}.

(** An integer-valued logarithm that is exact on the powers of ten, the
    only values [analyzeLoops] and [detectAIModelUsage] produce. *)
Fixpoint log10_digits (fuel : nat) (z : Z) : Z :=
  match fuel with
  | O => 0
  | S fuel' => if (z <? 10)%Z then 0 else (1 + log10_digits fuel' (z / 10))%Z
  end.

Definition log10 (x : Q) : Q :=
  let z := Qfloor x in
  inject_Z (log10_digits (Z.to_nat (Z.log2 z)) z).

Definition context (budget : option Q) : Runtime.SDGContext :=
  {| Runtime.goal := "Goal13_ClimateAction"; Runtime.carbonBudget := budget;
     Runtime.description := None; Runtime.startTime := None;
     Runtime.maxDuration := None |}.

(** A fresh process: nothing allocated, empty registry, a clock that
    advances by one millisecond per reading. *)
Definition initialWorld : Runtime.World :=
  {| Runtime.heap := []; Runtime.activeContexts := JSMap.empty;
     Runtime.metrics := JSMap.empty; Runtime.emitted := [];
     Runtime.console := [];
     Runtime.clock := fun n => inject_Z (1000 + Z.of_nat n);
     Runtime.ticks := O |}.

End Samples.

(** ** Listeners of the tracker (packages/runtime/src/index.ts)

    A listener is a function object, known to the [Set] by its identity
    ([listenerRef]); calling it on an event either returns or throws
    ([throwsOn]).  The set keeps insertion order.  What the listeners
    receive is recorded call by call in [delivered]. *)

Module Listeners.
Import Runtime.

Abbreviation listenerRef := nat.

Record Bus : Type := {
  listeners : list listenerRef;
  delivered : list (listenerRef * TrackingEvent.t);
  warnings : list string
}.

Definition emptyBus : Bus :=
  {| listeners := []; delivered := []; warnings := [] |}.

(** [this.listeners.add(listener)] *)
Definition addEventListener (listener : listenerRef) (b : Bus) : Bus :=
  {| listeners :=
       if existsb (Nat.eqb listener) (listeners b)
       then listeners b
       else listeners b ++ [listener];
     delivered := delivered b;
     warnings := warnings b |}.

(** [this.listeners.delete(listener)] *)
Definition removeEventListener (listener : listenerRef) (b : Bus) : Bus :=
  {| listeners := List.filter (fun l => negb (Nat.eqb listener l)) (listeners b);
     delivered := delivered b;
     warnings := warnings b |}.

(** The events one listener has been called with, oldest first. *)
Definition inbox (listener : listenerRef) (b : Bus) : list TrackingEvent.t :=
  map snd (List.filter (fun d => Nat.eqb listener (fst d)) (delivered b)).

Section WithCode.
(** The behaviour of the listener functions: [true] when the call throws. *)
Variable throwsOn : listenerRef -> TrackingEvent.t -> bool.

(** The body of the [forEach] in [emit]: call the listener, catch and log. *)
Definition callListener (event : TrackingEvent.t) (b : Bus) (listener : listenerRef) : Bus :=
  let b := {| listeners := listeners b;
              delivered := delivered b ++ [(listener, event)];
              warnings := warnings b |} in
  if throwsOn listener event
  then {| listeners := listeners b;
          delivered := delivered b;
          warnings := warnings b ++ ["Error in tracking event listener:"] |}
  else b.

Definition emit (event : TrackingEvent.t) (b : Bus) : Bus :=
  fold_left (callListener event) (listeners b) b.

(** The events of a tracker trace, emitted one after the other. *)
Definition emitAll (events : list TrackingEvent.t) (b : Bus) : Bus :=
  fold_left (fun b event => emit event b) events b.

End WithCode.

End Listeners.

(** ** withSDGContext and createSDGFetch (packages/runtime/src/index.ts)

    The unit of work is any state transformer that returns a value or fails
    ([None] stands for a thrown error or a rejected promise); whatever else
    runs while it is awaited is part of that transformer.  The readings of
    [performance.now()] and of the heap size, and the random suffix of the
    generated id, are inputs. *)

Module Scoped.
Import Core Runtime.

Record Performance : Type := {
  nowBefore : Q;
  usedJSHeapSizeBefore : option Q;
  nowAfter : Q;
  usedJSHeapSizeAfter : option Q
}.

(** [`ctx_${Date.now()}_${Math.random().toString(36).substr(2, 9)}`] *)
Definition newContextId (random : string) (w : World) : string * World :=
  let '(now, w) := Date_now w in
  ("ctx_" +:+ JS.toString now +:+ "_" +:+ random, w).

(** The usage [withSDGContext] records after the work has returned. *)
Definition executionUsage (perf : Performance) : ResourceMetrics :=
  let startTime := nowBefore perf in
  let startMemory := JS.or_else (usedJSHeapSizeBefore perf) 0 in
  let endTime := nowAfter perf in
  let endMemory := JS.or_else (usedJSHeapSizeAfter perf) 0 in
  let duration := endTime - startTime in
  let memoryUsed := JS.max 0 (endMemory - startMemory) / (1024 * 1024) in
  {| energy := Some (duration * (1 # 1000000)); emissions := None;
     memory := Some memoryUsed; networkCalls := None; ioOperations := None;
     computeComplexity := None |}.

Definition withSDGContext {T : Type} (random : string) (perf : Performance)
    (context : ref) (fn : World -> option T * World) (w : World) : option T * World :=
  let '(contextId, w) := newContextId random w in
  let w := ResourceTracker.startContext contextId context w in
  let '(outcome, w) :=
    match fn w with
    | (Some result, w) =>
        let w := ResourceTracker.trackResource contextId "execution"
                   (executionUsage perf) w in
        (Some result, w)
    | (None, w) => (None, w)
    end in
  let '(_, w) := ResourceTracker.endContext contextId w in
  (outcome, w).

(** The two usages [sdgFetch] broadcasts. *)
Definition networkUsage (duration : Q) : ResourceMetrics :=
  let estimatedEnergy := duration * (1 # 100000) in
  {| energy := Some estimatedEnergy; emissions := Some (estimatedEnergy * 500);
     memory := None; networkCalls := Some 1; ioOperations := None;
     computeComplexity := None |}.

Definition networkErrorUsage (duration : Q) : ResourceMetrics :=
  {| energy := Some (duration * (1 # 100000)); emissions := None;
     memory := None; networkCalls := Some 1; ioOperations := None;
     computeComplexity := None |}.

(** The function [createSDGFetch(originalFetch)] returns. *)
Definition sdgFetch {Response : Type} (startTime endTime : Q)
    (originalFetch : World -> option Response * World) (w : World)
    : option Response * World :=
  match originalFetch w with
  | (Some response, w) =>
      let duration := endTime - startTime in
      (Some response, Runtime.trackResource "network" (networkUsage duration) w)
  | (None, w) =>
      let duration := endTime - startTime in
      (None, Runtime.trackResource "network_error" (networkErrorUsage duration) w)
  end.

End Scoped.

(** ** Invariants of the registry *)

Module Inv.

(** The two maps of the registry list the same ids in the same order. *)
Definition synced (w : Runtime.World) : Prop :=
  JSMap.keys (Runtime.activeContexts w) = JSMap.keys (Runtime.metrics w).

(** Every registered reference points into the object store. *)
Definition refsValid (w : Runtime.World) : Prop :=
  forall id c, JSMap.get id (Runtime.activeContexts w) = Some c ->
               is_Some (Runtime.heap w !! c).

(** An operation a program can issue in a given store: [startContext] is
    passed an object that exists. *)
Definition opOk (w : Runtime.World) (op : Runtime.Op) : bool :=
  match op with
  | Runtime.OpStart _ context => (context <? length (Runtime.heap w))%nat
  | _ => true
  end.

Fixpoint opsOk (ops : list Runtime.Op) (w : Runtime.World) : bool :=
  match ops with
  | [] => true
  | op :: ops' => opOk w op && opsOk ops' (Runtime.step w op)
  end.

End Inv.

(** ** Text matching for the annotation parser

    A string is the sequence of its code units, of which the model has
    those below 256: among them the digits, the word characters and the
    white space of a regular expression are the ones listed below.  The
    three regular
    expressions of the parser are matched the way a backtracking engine
    does: at the leftmost position where a match exists, with greedy
    repetitions.  For these patterns a shorter repetition never helps (the
    character after a shortened run is one the run accepts, and the pattern
    wants another one next), so trying the longest runs at each start
    position is the whole search. *)

Module Text.
Import Stdlib.Strings.Ascii.

Definition isDigit (c : ascii) : bool :=
  let n := nat_of_ascii c in (48 <=? n)%nat && (n <=? 57)%nat.

(** [\w]: letters, digits and the underscore. *)
Definition isWordChar (c : ascii) : bool :=
  let n := nat_of_ascii c in
  isDigit c || ((65 <=? n)%nat && (n <=? 90)%nat) ||
  ((97 <=? n)%nat && (n <=? 122)%nat) || (n =? 95)%nat.

(** [\s], and what [trim] removes: tab, line feed, vertical tab, form
    feed, carriage return, space and the no-break space U+00A0. *)
Definition isSpace (c : ascii) : bool :=
  let n := nat_of_ascii c in
  ((9 <=? n)%nat && (n <=? 13)%nat) || (n =? 32)%nat || (n =? 160)%nat.

Fixpoint takeWhile (p : ascii -> bool) (s : string) : string :=
  match s with
  | EmptyString => EmptyString
  | String c s' => if p c then String c (takeWhile p s') else EmptyString
  end.

Fixpoint dropWhile (p : ascii -> bool) (s : string) : string :=
  match s with
  | EmptyString => EmptyString
  | String c s' => if p c then dropWhile p s' else s
  end.

Fixpoint stripPrefix (pre s : string) : option string :=
  match pre, s with
  | EmptyString, _ => Some s
  | String a pre', String b s' => if Stdlib.Strings.Ascii.eqb a b then stripPrefix pre' s' else None
  | String _ _, EmptyString => None
  end.

Definition isEmpty (s : string) : bool :=
  match s with EmptyString => true | _ => false end.

(** The leftmost start position at which [matchAt] succeeds. *)
Fixpoint search {A : Type} (matchAt : string -> option A) (s : string) : option A :=
  match matchAt s with
  | Some a => Some a
  | None => match s with
            | EmptyString => None
            | String _ s' => search matchAt s'
            end
  end.

(** [/(Goal\d+)/] at one start position: the captured key. *)
Definition matchGoalAt (s : string) : option string :=
  match stripPrefix "Goal" s with
  | Some rest =>
      let digits := takeWhile isDigit rest in
      if isEmpty digits then None else Some ("Goal" +:+ digits)
  | None => None
  end.

(** [/(\d+(?:\.\d+)?)\s*kWh/] at one start position: the captured
    number text. *)
Definition matchBudgetAt (s : string) : option string :=
  let whole := takeWhile isDigit s in
  if isEmpty whole then None
  else
    let rest := dropWhile isDigit s in
    let '(number, rest) :=
      match rest with
      | String "."%char rest' =>
          let fraction := takeWhile isDigit rest' in
          if isEmpty fraction then (whole, rest)
          else (whole +:+ "." +:+ fraction, dropWhile isDigit rest')
      | _ => (whole, rest)
      end in
    match stripPrefix "kWh" (dropWhile isSpace rest) with
    | Some _ => Some number
    | None => None
    end.

(** [/(\w+)\s+(\w+)/] at one start position: the two captured words. *)
Definition matchImpactAt (s : string) : option (string * string) :=
  let first := takeWhile isWordChar s in
  if isEmpty first then None
  else
    let rest := dropWhile isWordChar s in
    let spaces := takeWhile isSpace rest in
    if isEmpty spaces then None
    else
      let second := takeWhile isWordChar (dropWhile isSpace rest) in
      if isEmpty second then None else Some (first, second).

(** The value of a run of decimal digits, most significant first. *)
Fixpoint digitsValue (acc : Z) (s : string) : Z :=
  match s with
  | EmptyString => acc
  | String c s' => digitsValue (10 * acc + (Z.of_nat (nat_of_ascii c) - 48))%Z s'
  end.

(** [parseFloat] on the texts the budget pattern captures: digits,
    optionally followed by a point and more digits.  This is the value the
    numeral denotes; [parseFloat] returns the double nearest to it, which
    is that value for a whole number up to 2^53 and for every numeral
    whose value is a double. *)
Definition parseFloat (s : string) : Q :=
  let whole := takeWhile isDigit s in
  match dropWhile isDigit s with
  | String "."%char rest =>
      let fraction := takeWhile isDigit rest in
      inject_Z (digitsValue 0 whole)
      + inject_Z (digitsValue 0 fraction)
        / inject_Z (10 ^ Z.of_nat (String.length fraction))%Z
  | _ => inject_Z (digitsValue 0 whole)
  end.

(** [s.split(',')]: the pieces between the commas, empty pieces kept. *)
Fixpoint split (s : string) : list string :=
  match s with
  | EmptyString => [EmptyString]
  | String c s' =>
      if Stdlib.Strings.Ascii.eqb c ","%char then EmptyString :: split s'
      else match split s' with
           | piece :: pieces => String c piece :: pieces
           | [] => [String c EmptyString]
           end
  end.

(** [s.trimEnd()] and [s.trim()] *)
Fixpoint trimEnd (s : string) : string :=
  match s with
  | EmptyString => EmptyString
  | String c s' =>
      let rest := trimEnd s' in
      if isSpace c && isEmpty rest then EmptyString else String c rest
  end.

Definition trim (s : string) : string := trimEnd (dropWhile isSpace s).

(** The number of commas in a text. *)
Fixpoint commas (s : string) : nat :=
  match s with
  | EmptyString => O
  | String c s' => ((if Stdlib.Strings.Ascii.eqb c ","%char then 1 else 0) + commas s')%nat
  end.

(** [pieces.join(',')] *)
Fixpoint join (pieces : list string) : string :=
  match pieces with
  | [] => EmptyString
  | [piece] => piece
  | piece :: pieces' => piece +:+ "," +:+ join pieces'
  end.

End Text.

(** ** SDGAnnotationParser (packages/core/src/parser.ts) *)

Module SDGAnnotationParser.
Import Core.

(** A JSDoc tag: [getTagName()] and [getCommentText()]. *)
Record JSDocTag : Type := {
  getTagName : string;
  getCommentText : option string
}.

(** A JSDoc block: [getTags()]. *)
Definition JSDoc : Type := list JSDocTag.

(** An annotation as the parser builds it.  The two words of an [impact]
    tag are stored as they are written. *)
Record Annotation : Type := {
  goal : SDGGoal;
  carbonBudget : option Q;
  impact : option (string * string);
  description : option string;
  tags : option (list string)
}.

(** [Partial<SDGAnnotation>], the block's annotation under construction. *)
Record PartialAnnotation : Type := {
  p_goal : option SDGGoal;
  p_carbonBudget : option Q;
  p_impact : option (string * string);
  p_description : option string;
  p_tags : option (list string)
}.

Definition emptyAnnotation : PartialAnnotation :=
  {| p_goal := None; p_carbonBudget := None; p_impact := None;
     p_description := None; p_tags := None |}.

(** [SDGGoal[goalKey]]: the enum member under a key, if there is one. *)
Definition goalOfKey (goalKey : string) : option SDGGoal :=
  if String.eqb goalKey "Goal1" then Some Goal1_NoPoverty
  else if String.eqb goalKey "Goal2" then Some Goal2_ZeroHunger
  else if String.eqb goalKey "Goal3" then Some Goal3_GoodHealth
  else if String.eqb goalKey "Goal4" then Some Goal4_QualityEducation
  else if String.eqb goalKey "Goal5" then Some Goal5_GenderEquality
  else if String.eqb goalKey "Goal6" then Some Goal6_CleanWater
  else if String.eqb goalKey "Goal7" then Some Goal7_AffordableEnergy
  else if String.eqb goalKey "Goal8" then Some Goal8_DecentWork
  else if String.eqb goalKey "Goal9" then Some Goal9_Innovation
  else if String.eqb goalKey "Goal10" then Some Goal10_ReducedInequalities
  else if String.eqb goalKey "Goal11" then Some Goal11_SustainableCities
  else if String.eqb goalKey "Goal12" then Some Goal12_ResponsibleConsumption
  else if String.eqb goalKey "Goal13" then Some Goal13_ClimateAction
  else if String.eqb goalKey "Goal14" then Some Goal14_LifeBelowWater
  else if String.eqb goalKey "Goal15" then Some Goal15_LifeOnLand
  else if String.eqb goalKey "Goal16" then Some Goal16_Peace
  else if String.eqb goalKey "Goal17" then Some Goal17_Partnerships
  else None.

(** [comment?.match(re)] for the three patterns. *)
Definition matchGoal (comment : option string) : option string :=
  match comment with
  | Some text => Text.search Text.matchGoalAt text
  | None => None
  end.

Definition matchBudget (comment : option string) : option string :=
  match comment with
  | Some text => Text.search Text.matchBudgetAt text
  | None => None
  end.

Definition matchImpact (comment : option string) : option (string * string) :=
  match comment with
  | Some text => Text.search Text.matchImpactAt text
  | None => None
  end.

(** The body of the loop over the tags: the [switch] on the tag name. *)
Definition parseTag (currentAnnotation : PartialAnnotation) (tag : JSDocTag)
    : PartialAnnotation :=
  let tagName := getTagName tag in
  let comment := getCommentText tag in
  if String.eqb tagName "sdg" then
    match matchGoal comment with
    | Some goalKey =>
        match goalOfKey goalKey with
        | Some g =>
            {| p_goal := Some g;
               p_carbonBudget := p_carbonBudget currentAnnotation;
               p_impact := p_impact currentAnnotation;
               p_description := p_description currentAnnotation;
               p_tags := p_tags currentAnnotation |}
        | None => currentAnnotation
        end
    | None => currentAnnotation
    end
  else if String.eqb tagName "carbonBudget" then
    match matchBudget comment with
    | Some number =>
        {| p_goal := p_goal currentAnnotation;
           p_carbonBudget := Some (Text.parseFloat number);
           p_impact := p_impact currentAnnotation;
           p_description := p_description currentAnnotation;
           p_tags := p_tags currentAnnotation |}
    | None => currentAnnotation
    end
  else if String.eqb tagName "impact" then
    match matchImpact comment with
    | Some (category, level) =>
        {| p_goal := p_goal currentAnnotation;
           p_carbonBudget := p_carbonBudget currentAnnotation;
           p_impact := Some (category, level);
           p_description := p_description currentAnnotation;
           p_tags := p_tags currentAnnotation |}
    | None => currentAnnotation
    end
  else if String.eqb tagName "description" then
    {| p_goal := p_goal currentAnnotation;
       p_carbonBudget := p_carbonBudget currentAnnotation;
       p_impact := p_impact currentAnnotation;
       p_description := Some (match comment with
                              | Some text => text
                              | None => EmptyString
                              end);
       p_tags := p_tags currentAnnotation |}
  else if String.eqb tagName "tags" then
    {| p_goal := p_goal currentAnnotation;
       p_carbonBudget := p_carbonBudget currentAnnotation;
       p_impact := p_impact currentAnnotation;
       p_description := p_description currentAnnotation;
       p_tags := Some (match comment with
                       | Some text => map Text.trim (Text.split text)
                       | None => []
                       end) |}
  else currentAnnotation.

(** One block: run over its tags, then [if (currentAnnotation.goal)]. *)
Definition parseJSDoc (jsDoc : JSDoc) : list Annotation :=
  let currentAnnotation := fold_left parseTag jsDoc emptyAnnotation in
  match p_goal currentAnnotation with
  | Some g =>
      [ {| goal := g;
           carbonBudget := p_carbonBudget currentAnnotation;
           impact := p_impact currentAnnotation;
           description := p_description currentAnnotation;
           tags := p_tags currentAnnotation |} ]
  | None => []
  end.

Definition parseSDGAnnotations (jsDocs : list JSDoc) : list Annotation :=
  fold_left (fun annotations jsDoc => annotations ++ parseJSDoc jsDoc) jsDocs [].

End SDGAnnotationParser.

Module ParserSpec.
Import SDGAnnotationParser.

(** The goal a tag names: an [sdg] tag whose comment holds a key of the
    enum. *)
Definition namesGoal (tag : JSDocTag) : option Core.SDGGoal :=
  if String.eqb (getTagName tag) "sdg" then
    match matchGoal (getCommentText tag) with
    | Some goalKey => goalOfKey goalKey
    | None => None
    end
  else None.

(** A tag [@name comment]. *)
Definition tag (name comment : string) : JSDocTag :=
  {| getTagName := name; getCommentText := Some comment |}.

End ParserSpec.

(** ** SDGCompiler.analyzeSourceFile (packages/core, compiler) and
    SDGAnnotationParser.extractFromSourceFile (packages/core/src/parser.ts)

    A source file is what ts-morph hands over: its functions, its classes
    with their methods, and its variable declarations, each with its name,
    its JSDoc blocks, its syntax node and its first line. *)

Module Analysis.
Import TsMorph Core SDGAnnotationParser.

Record FunctionDeclaration : Type := {
  getName : option string;
  getJsDocs : list JSDoc;
  getNode : Node;
  getStartLineNumber : nat
}.

Record MethodDeclaration : Type := {
  method_getName : string;
  method_getJsDocs : list JSDoc;
  method_getNode : Node;
  method_getStartLineNumber : nat
}.

Record ClassDeclaration : Type := {
  class_getName : option string;
  getMethods : list MethodDeclaration
}.

(** The initializer of a variable declaration: [Node.isArrowFunction] and,
    for an arrow function, its JSDoc blocks. *)
Record Initializer : Type := {
  isArrowFunction : bool;
  initializer_getJsDocs : list JSDoc
}.

Record VariableDeclaration : Type := {
  variable_getName : string;
  getInitializer : option Initializer
}.

Record SourceFile : Type := {
  getFilePath : string;
  getFunctions : list FunctionDeclaration;
  getClasses : list ClassDeclaration;
  getVariableDeclarations : list VariableDeclaration
}.

Record SDGAnalysisResult : Type := {
  functionName : string;
  filePath : string;
  line : nat;
  sdgAnnotations : list Annotation;
  estimatedMetrics : ResourceMetrics;
  violations : list Violation;
  score : Z
}.

(** [`${cls.getName()}.${method.getName()}`]: a class without a name
    prints as [undefined]. *)
Definition qualifiedName (cls : ClassDeclaration) (method : MethodDeclaration) : string :=
  match class_getName cls with
  | Some name => name
  | None => "undefined"
  end +:+ "." +:+ method_getName method.

(** [if (annotations.length > 0) annotationMap.set(name, annotations)] *)
Definition setIfAny (name : string) (annotations : list Annotation)
    (annotationMap : JSMap.t (list Annotation)) : JSMap.t (list Annotation) :=
  if (0 <? length annotations)%nat then JSMap.set name annotations annotationMap
  else annotationMap.

Definition extractFromSourceFile (sourceFile : SourceFile) : JSMap.t (list Annotation) :=
  let annotationMap : JSMap.t (list Annotation) := JSMap.empty in
  let annotationMap :=
    fold_left (fun annotationMap func =>
      match getName func with
      | Some name =>
          if Text.isEmpty name then annotationMap
          else setIfAny name (parseSDGAnnotations (getJsDocs func)) annotationMap
      | None => annotationMap
      end) (getFunctions sourceFile) annotationMap in
  let annotationMap :=
    fold_left (fun annotationMap cls =>
      fold_left (fun annotationMap method =>
        setIfAny (qualifiedName cls method)
                 (parseSDGAnnotations (method_getJsDocs method)) annotationMap)
        (getMethods cls) annotationMap) (getClasses sourceFile) annotationMap in
  let annotationMap :=
    fold_left (fun annotationMap varDecl =>
      match getInitializer varDecl with
      | Some initializer =>
          if isArrowFunction initializer
          then setIfAny (variable_getName varDecl)
                 (parseSDGAnnotations (initializer_getJsDocs initializer)) annotationMap
          else annotationMap
      | None => annotationMap
      end) (getVariableDeclarations sourceFile) annotationMap in
  annotationMap.

(** The analyzer's view of a parsed annotation.  The analysis reads the
    budget and the number of annotations only; the two words of an impact
    are kept when they are members of the enums. *)
Definition categoryOfWord (word : string) : option ImpactCategory :=
  if String.eqb word "environment" then Some ENVIRONMENT
  else if String.eqb word "social" then Some SOCIAL
  else if String.eqb word "economic" then Some ECONOMIC
  else if String.eqb word "governance" then Some GOVERNANCE
  else None.

Definition levelOfWord (word : string) : option ImpactLevel :=
  if String.eqb word "low" then Some LOW
  else if String.eqb word "medium" then Some MEDIUM
  else if String.eqb word "high" then Some HIGH
  else if String.eqb word "critical" then Some CRITICAL
  else None.

Definition toCore (a : Annotation) : Core.SDGAnnotation :=
  {| Core.goal := goal a;
     Core.carbonBudget := carbonBudget a;
     Core.impact :=
       match impact a with
       | Some (category, level) =>
           match categoryOfWord category, levelOfWord level with
           | Some c, Some l => Some (c, l)
           | _, _ => None
           end
       | None => None
       end;
     Core.description := description a;
     Core.tags := tags a |}.

Section WithLog10.
Variable log10 : Q -> Q.

(** The object both loops of [analyzeSourceFile] push. *)
Definition analyzeDeclaration (annotationMap : JSMap.t (list Annotation))
    (name path : string) (node : Node) (startLine : nat) : SDGAnalysisResult :=
  let annotations :=
    match JSMap.get name annotationMap with
    | Some annotations => annotations
    | None => []
    end in
  let metrics := ResourceAnalyzer.analyzeFunction log10 node in
  let violations := ResourceAnalyzer.detectViolations metrics (map toCore annotations) in
  {| functionName := name;
     filePath := path;
     line := startLine;
     sdgAnnotations := annotations;
     estimatedMetrics := metrics;
     violations := violations;
     score := SDGCompiler.calculateScore metrics violations (map toCore annotations) |}.

Definition analyzeSourceFile (sourceFile : SourceFile) : list SDGAnalysisResult :=
  let results : list SDGAnalysisResult := [] in
  let annotationMap := extractFromSourceFile sourceFile in
  let results :=
    fold_left (fun results func =>
      match getName func with
      | Some name =>
          if Text.isEmpty name then results
          else results ++ [analyzeDeclaration annotationMap name (getFilePath sourceFile)
                             (getNode func) (getStartLineNumber func)]
      | None => results
      end) (getFunctions sourceFile) results in
  let results :=
    fold_left (fun results cls =>
      fold_left (fun results method =>
        results ++ [analyzeDeclaration annotationMap (qualifiedName cls method)
                      (getFilePath sourceFile) (method_getNode method)
                      (method_getStartLineNumber method)])
        (getMethods cls) results) (getClasses sourceFile) results in
  results.

(** [analyzeAll] over the source files of the project. *)
Definition analyzeAll (sourceFiles : list SourceFile) : list SDGAnalysisResult :=
  fold_left (fun results sourceFile => results ++ analyzeSourceFile sourceFile)
            sourceFiles [].

(** The two loops of [analyzeSourceFile] as one list of results. *)
Definition functionResults (annotationMap : JSMap.t (list Annotation))
    (sourceFile : SourceFile) : list SDGAnalysisResult :=
  flat_map (fun func =>
    match getName func with
    | Some name =>
        if Text.isEmpty name then []
        else [analyzeDeclaration annotationMap name (getFilePath sourceFile)
                (getNode func) (getStartLineNumber func)]
    | None => []
    end) (getFunctions sourceFile).

Definition methodResults (annotationMap : JSMap.t (list Annotation))
    (sourceFile : SourceFile) : list SDGAnalysisResult :=
  flat_map (fun cls =>
    map (fun method =>
      analyzeDeclaration annotationMap (qualifiedName cls method)
        (getFilePath sourceFile) (method_getNode method)
        (method_getStartLineNumber method)) (getMethods cls))
    (getClasses sourceFile).

End WithLog10.

(** What a result says beyond its name and its annotations. *)
Definition sound (path : string) (r : SDGAnalysisResult) : Prop :=
  filePath r = path /\
  (0 <= score r <= 100)%Z /\
  Spec.emissionsInvariant (estimatedMetrics r) /\
  violations r =
    ResourceAnalyzer.detectViolations (estimatedMetrics r) (map toCore (sdgAnnotations r)).

(** The names under which [analyzeSourceFile] reports, in order. *)
Definition functionNames (sourceFile : SourceFile) : list string :=
  flat_map (fun func =>
    match getName func with
    | Some name => if Text.isEmpty name then [] else [name]
    | None => []
    end) (getFunctions sourceFile).

Definition methodNames (sourceFile : SourceFile) : list string :=
  flat_map (fun cls => map (qualifiedName cls) (getMethods cls)) (getClasses sourceFile).

Definition arrowNames (sourceFile : SourceFile) : list string :=
  flat_map (fun varDecl =>
    match getInitializer varDecl with
    | Some initializer =>
        if isArrowFunction initializer then [variable_getName varDecl] else []
    | None => []
    end) (getVariableDeclarations sourceFile).

(** The declarations [extractFromSourceFile] looks at, with the
    annotations of each, in the order of its three loops. *)
Definition functionEntries (sourceFile : SourceFile) : list (string * list Annotation) :=
  flat_map (fun func =>
    match getName func with
    | Some name =>
        if Text.isEmpty name then []
        else [(name, parseSDGAnnotations (getJsDocs func))]
    | None => []
    end) (getFunctions sourceFile).

Definition methodEntries (sourceFile : SourceFile) : list (string * list Annotation) :=
  flat_map (fun cls =>
    map (fun method =>
      (qualifiedName cls method, parseSDGAnnotations (method_getJsDocs method)))
      (getMethods cls)) (getClasses sourceFile).

Definition arrowEntries (sourceFile : SourceFile) : list (string * list Annotation) :=
  flat_map (fun varDecl =>
    match getInitializer varDecl with
    | Some initializer =>
        if isArrowFunction initializer
        then [(variable_getName varDecl,
               parseSDGAnnotations (initializer_getJsDocs initializer))]
        else []
    | None => []
    end) (getVariableDeclarations sourceFile).

Definition declared (sourceFile : SourceFile) : list (string * list Annotation) :=
  functionEntries sourceFile ++ methodEntries sourceFile ++ arrowEntries sourceFile.

End Analysis.

(** A file with an annotated function, a class with one method without
    annotation, and an annotated arrow function. *)
Module AnalysisSamples.
Import Analysis.

Definition climateDoc : SDGAnnotationParser.JSDoc :=
  [ParserSpec.tag "sdg" "Goal13 ClimateAction"; ParserSpec.tag "carbonBudget" "2kWh"].

Definition fetchData : FunctionDeclaration :=
  {| getName := Some "fetchData";
     getJsDocs := [climateDoc];
     getNode := Samples.emptyBody;
     getStartLineNumber := 5 |}.

Definition save : MethodDeclaration :=
  {| method_getName := "save";
     method_getJsDocs := [];
     method_getNode := Samples.emptyBody;
     method_getStartLineNumber := 12 |}.

Definition store : ClassDeclaration :=
  {| class_getName := Some "Store"; getMethods := [save] |}.

Definition render : VariableDeclaration :=
  {| variable_getName := "render";
     getInitializer :=
       Some {| isArrowFunction := true; initializer_getJsDocs := [climateDoc] |} |}.

Definition file : SourceFile :=
  {| getFilePath := "src/app.ts";
     getFunctions := [fetchData];
     getClasses := [store];
     getVariableDeclarations := [render] |}.

End AnalysisSamples.

(** ** Report summary (packages/cli/src/reporter.ts) *)

Module Reporter.
Import Analysis.

Record Summary : Type := {
  totalFunctions : nat;
  annotatedFunctions : nat;
  totalViolations : nat;
  averageScore : Q
}.

(** [sum / count] for the sum and the count of one list: over no element
    both are 0 and [0 / 0] is [NaN], here [None]. *)
Definition divide (sum : Z) (count : nat) : option Q :=
  match count with
  | O => None
  | S _ => Some (inject_Z sum / inject_Z (Z.of_nat count))
  end.

Definition generateSummary (results : list SDGAnalysisResult) : Summary :=
  {| totalFunctions := length results;
     annotatedFunctions :=
       length (List.filter (fun r => (0 <? length (sdgAnnotations r))%nat) results);
     totalViolations :=
       fold_left (fun sum r => (sum + length (violations r))%nat) results O;
     averageScore :=
       JS.or_else
         (divide (fold_left (fun sum r => (sum + score r)%Z) results 0%Z) (length results))
         0 |}.

Definition getScoreClass (score : Z) : string :=
  if (80 <=? score)%Z then "high"
  else if (60 <=? score)%Z then "medium"
  else "low".

End Reporter.

(** ** The lint rule avoid-inefficient-loops
    (packages/eslint-plugin/src/rules.ts)

    The linter walks the tree of a file: at each node it calls the handler
    registered for the node's type, walks the children, then calls the
    handler registered for the type's exit.  A node carries its type and
    its source text ([sourceCode.getText(node)]). *)

Module LoopRule.

#[local] Unset Elimination Schemes.
Inductive ESNode : Type :=
| mkESNode (type : string) (text : string) (children : list ESNode).
#[local] Set Elimination Schemes.

Definition getType (n : ESNode) : string := match n with mkESNode t _ _ => t end.
Definition getText (n : ESNode) : string := match n with mkESNode _ t _ => t end.

Inductive MessageId : Set := nestedLoops | arrayInLoop | objectInLoop.

Record RuleState : Type := {
  loopDepth : Z;
  reports : list (ESNode * MessageId)
}.

(** The node types the rule registers handlers for. *)
Definition isLoopType (type : string) : bool :=
  String.eqb type "ForStatement" || String.eqb type "WhileStatement" ||
  String.eqb type "ForInStatement" || String.eqb type "ForOfStatement".

Section WithTests.
(** The regular expressions [checkLoop] tests the text of the loop with:
    a call of an array method, a property access, a [const] declaration. *)
Variables arrayMethodCall propertyAccess constDeclaration : string -> bool.

Definition report (node : ESNode) (messageId : MessageId) (st : RuleState) : RuleState :=
  {| loopDepth := loopDepth st; reports := reports st ++ [(node, messageId)] |}.

Definition enterLoop (st : RuleState) : RuleState :=
  {| loopDepth := (loopDepth st + 1)%Z; reports := reports st |}.

Definition exitLoop (st : RuleState) : RuleState :=
  {| loopDepth := (loopDepth st - 1)%Z; reports := reports st |}.

Definition checkLoop (node : ESNode) (st : RuleState) : RuleState :=
  let st := if (1 <? loopDepth st)%Z then report node nestedLoops st else st in
  let loopBody := getText node in
  let st := if arrayMethodCall loopBody then report node arrayInLoop st else st in
  let st :=
    if propertyAccess loopBody && negb (constDeclaration loopBody)
    then report node objectInLoop st else st in
  st.

(** The handler of a loop type: [enterLoop(); checkLoop(node)]. *)
Definition onEnter (node : ESNode) (st : RuleState) : RuleState :=
  if isLoopType (getType node) then checkLoop node (enterLoop st) else st.

Definition onExit (node : ESNode) (st : RuleState) : RuleState :=
  if isLoopType (getType node) then exitLoop st else st.

(** The walk of the linter over a tree. *)
Fixpoint traverse (node : ESNode) (st : RuleState) : RuleState :=
  match node with
  | mkESNode _ _ children =>
      let st := onEnter node st in
      let st := fold_left (fun st child => traverse child st) children st in
      onExit node st
  end.

End WithTests.

(** The loops of a tree that have a loop around them, in the order of the
    walk, for a tree that itself lies inside [enclosing] loops. *)
Fixpoint nestedLoopsFrom (enclosing : nat) (node : ESNode) : list ESNode :=
  match node with
  | mkESNode type _ children =>
      if isLoopType type
      then (if (0 <? enclosing)%nat then [node] else [])
           ++ flat_map (nestedLoopsFrom (S enclosing)) children
      else flat_map (nestedLoopsFrom enclosing) children
  end.

Definition nestedLoopsOf (node : ESNode) : list ESNode := nestedLoopsFrom 0 node.

Definition isNestedLoopsReport (r : ESNode * MessageId) : bool :=
  match snd r with nestedLoops => true | _ => false end.

End LoopRule.

(** * Properties *)

(** ** JavaScript numbers *)

Lemma Qeq_bool_false (a b : Q) : Qeq_bool a b = false <-> ~ a == b.
Proof.
  split.
  - intros H E. apply Qeq_bool_iff in E. congruence.
  - intros H. destruct (Qeq_bool a b) eqn:E; [|reflexivity].
    apply Qeq_bool_iff in E. contradiction.
Qed.

Lemma gtb_true (a b : Q) : JS.gtb a b = true <-> b < a.
Proof.
  unfold JS.gtb. rewrite negb_true_iff. split.
  - intros H. apply Qnot_le_lt. intros L. apply Qle_bool_iff in L. congruence.
  - intros H. destruct (Qle_bool a b) eqn:E; [|reflexivity].
    apply Qle_bool_iff in E. lra.
Qed.

Lemma gtb_false (a b : Q) : JS.gtb a b = false <-> a <= b.
Proof.
  unfold JS.gtb. rewrite negb_false_iff. apply Qle_bool_iff.
Qed.

Lemma ltb_true (a b : Q) : JS.ltb a b = true <-> a < b.
Proof. unfold JS.ltb. apply (gtb_true b a). Qed.

Lemma truthy_Some (q : Q) : JS.truthy (Some q) = true <-> ~ q == 0.
Proof. simpl. rewrite negb_true_iff. apply Qeq_bool_false. Qed.

Lemma truthy_the (x : option Q) : JS.truthy x = false -> JS.the x == 0.
Proof.
  destruct x as [q|]; simpl; [|reflexivity].
  rewrite negb_false_iff. apply Qeq_bool_iff.
Qed.

Lemma truthy_the_nonzero (x : option Q) : JS.truthy x = true -> ~ JS.the x == 0.
Proof.
  destruct x as [q|]; simpl; [|discriminate].
  rewrite negb_true_iff. apply Qeq_bool_false.
Qed.

(** [x || 0] is numerically [x]. *)
Lemma or_else_0 (x : option Q) : JS.or_else x 0 == JS.the x.
Proof.
  destruct x as [q|]; simpl; [|reflexivity].
  destruct (Qeq_bool q 0) eqn:E; [|reflexivity].
  apply Qeq_bool_iff in E. symmetry. exact E.
Qed.

(** [x || d] is [x] itself when [x] is a non-zero number. *)
Lemma or_else_nonzero (q d : Q) : ~ q == 0 -> JS.or_else (Some q) d = q.
Proof. intros H. simpl. apply Qeq_bool_false in H. rewrite H. reflexivity. Qed.

Lemma max_spec (a b : Q) : JS.max a b == Qmax a b.
Proof.
  unfold JS.max. destruct (Qle_bool a b) eqn:E.
  - apply Qle_bool_iff in E. symmetry. apply Q.max_r. exact E.
  - symmetry. apply Q.max_l.
    destruct (Qlt_le_dec b a) as [L|L]; [lra|].
    apply Qle_bool_iff in L. congruence.
Qed.

Lemma pow10_pos (n : nat) : 0 < JS.pow10 n.
Proof.
  unfold JS.pow10. change 0 with (inject_Z 0). rewrite <- Zlt_Qlt.
  apply Z.pow_pos_nonneg; lia.
Qed.

Lemma pow10_S (n : nat) : JS.pow10 (S n) == 10 * JS.pow10 n.
Proof.
  unfold JS.pow10. rewrite Nat2Z.inj_succ, Z.pow_succ_r by lia.
  rewrite inject_Z_mult. reflexivity.
Qed.

(** ** The loop pass *)

Section LoopPass.
Import TsMorph Core ResourceAnalyzer.

(** Both counters only ever grow together: the pass never decrements
    [loopDepth], so after the walk they hold the number of loops seen. *)
Lemma analyzeLoops_visit_fold (l : list Node) (d : nat) :
  fold_left analyzeLoops_visit l (d, d) =
  ((d + length (List.filter Spec.isLoop l))%nat,
   (d + length (List.filter Spec.isLoop l))%nat).
Proof.
  revert d. induction l as [|x l IH]; intros d; simpl.
  - rewrite Nat.add_0_r. reflexivity.
  - change (isForStatement x || isWhileStatement x ||
            isForInStatement x || isForOfStatement x) with (Spec.isLoop x).
    destruct (Spec.isLoop x) eqn:E; simpl.
    + replace (Nat.max d (S d)) with (S d) by lia.
      rewrite IH. f_equal; lia.
    + apply IH.
Qed.

Lemma analyzeLoops_complexity (body : Node) (m : ResourceMetrics) :
  computeComplexity (analyzeLoops body m) =
  Some (JS.pow10 (Spec.count Spec.isLoop body)).
Proof.
  unfold analyzeLoops, forEachDescendant, Spec.count.
  rewrite (analyzeLoops_visit_fold (descendants body) 0). reflexivity.
Qed.

Lemma analyzeLoops_frame (body : Node) (m : ResourceMetrics) :
  energy (analyzeLoops body m) = energy m /\
  emissions (analyzeLoops body m) = emissions m /\
  memory (analyzeLoops body m) = memory m /\
  networkCalls (analyzeLoops body m) = networkCalls m /\
  ioOperations (analyzeLoops body m) = ioOperations m.
Proof.
  unfold analyzeLoops.
  destruct (forEachDescendant body analyzeLoops_visit (0%nat, 0%nat)).
  simpl. repeat split.
Qed.
End LoopPass.

(** C2 (the code departs from the claim).  On a body with two loops side by
    side, whose maximum lexical nesting depth is 1, [analyzeLoops] sets
    [computeComplexity] to 100 and not to 10^1 = 10: the second loop, which
    does not deepen the nesting, multiplies the complexity by ten.  On the
    body with the same two loops nested (depth 2) it also yields 100. *)
Theorem analyzeLoops_sequential_loops :
  Spec.maxNestingDepth Samples.sequentialLoops = 1%nat /\
  Core.computeComplexity
    (ResourceAnalyzer.analyzeLoops Samples.sequentialLoops Core.initialMetrics)
    = Some 100 /\
  ~ 100 == JS.pow10 (Spec.maxNestingDepth Samples.sequentialLoops) /\
  Spec.maxNestingDepth Samples.nestedLoops = 2%nat /\
  Core.computeComplexity
    (ResourceAnalyzer.analyzeLoops Samples.nestedLoops Core.initialMetrics)
    = Some 100.
Proof.
  repeat split; try reflexivity.
  vm_compute. discriminate.
Qed.

(** ** The call-counting passes *)

Section CallPasses.
Import TsMorph Core ResourceAnalyzer.

Local Abbreviation Qn n := (inject_Z (Z.of_nat n)).

Lemma inject_nat_S (n : nat) : Qn (S n) == Qn n + 1.
Proof. rewrite Nat2Z.inj_succ. unfold Z.succ. rewrite inject_Z_plus. reflexivity. Qed.

(** Name the callback of the pass in the goal and restate it as one test
    on the visited node. *)
Ltac name_callback F p :=
  match goal with |- context [fold_left ?f _ _] => set (F := f) end;
  match goal with |- context [fold_left F _ ?m0] =>
    assert (forall m1 d1, F m1 d1 = if p d1 then F m1 d1 else m1) as HF
      by (intros m1 d1; unfold F, p; destruct (isCallExpression d1); simpl;
          [match goal with |- context [if ?c then _ else _] => destruct c end|];
          reflexivity)
  end.

Lemma countNetworkCalls_spec (body : Node) (m : ResourceMetrics) (q : Q) :
  networkCalls m = Some q ->
  exists n,
    networkCalls (countNetworkCalls body m) = Some n /\
    n == q + Qn (Spec.count Spec.isNetworkCall body) /\
    energy (countNetworkCalls body m) = energy m /\
    ioOperations (countNetworkCalls body m) = ioOperations m /\
    computeComplexity (countNetworkCalls body m) = computeComplexity m.
Proof.
  unfold countNetworkCalls, forEachDescendant, Spec.count.
  generalize (descendants body) as l. intros l.
  name_callback F Spec.isNetworkCall. revert m q.
  induction l as [|d l IH]; intros m q Hq; cbn [fold_left List.filter length].
  - exists q. repeat split; [assumption|]. change (Qn 0) with 0. ring.
  - rewrite HF.
    destruct (Spec.isNetworkCall d) eqn:E; [|apply IH; assumption].
    assert (Hd : F m d =
                 set_networkCalls (Some (JS.or_else (networkCalls m) 0 + 1)) m).
    { unfold F. unfold Spec.isNetworkCall in E.
      destruct (isCallExpression d); [|discriminate]. simpl in E. rewrite E.
      reflexivity. }
    rewrite Hd.
    destruct (IH (set_networkCalls (Some (JS.or_else (networkCalls m) 0 + 1)) m)
                _ eq_refl) as (n & Hn & Hn' & He & Hio & Hc).
    exists n. rewrite Hn. repeat split; try assumption.
    cbn [length]. rewrite Hn', Hq, or_else_0, inject_nat_S. simpl JS.the. ring.
Qed.

Lemma countIOOperations_spec (body : Node) (m : ResourceMetrics) (q : Q) :
  ioOperations m = Some q ->
  exists n,
    ioOperations (countIOOperations body m) = Some n /\
    n == q + Qn (Spec.count Spec.isIOCall body) /\
    energy (countIOOperations body m) = energy m /\
    networkCalls (countIOOperations body m) = networkCalls m /\
    computeComplexity (countIOOperations body m) = computeComplexity m.
Proof.
  unfold countIOOperations, forEachDescendant, Spec.count.
  generalize (descendants body) as l. intros l.
  name_callback F Spec.isIOCall. revert m q.
  induction l as [|d l IH]; intros m q Hq; cbn [fold_left List.filter length].
  - exists q. repeat split; [assumption|]. change (Qn 0) with 0. ring.
  - rewrite HF.
    destruct (Spec.isIOCall d) eqn:E; [|apply IH; assumption].
    assert (Hd : F m d =
                 set_ioOperations (Some (JS.or_else (ioOperations m) 0 + 1)) m).
    { unfold F. unfold Spec.isIOCall in E.
      destruct (isCallExpression d); [|discriminate]. simpl in E. rewrite E.
      reflexivity. }
    rewrite Hd.
    destruct (IH (set_ioOperations (Some (JS.or_else (ioOperations m) 0 + 1)) m)
                _ eq_refl) as (n & Hn & Hn' & He & Hio & Hc).
    exists n. rewrite Hn. repeat split; try assumption.
    cbn [length]. rewrite Hn', Hq, or_else_0, inject_nat_S. simpl JS.the. ring.
Qed.

(** Every heavy-inference call adds 50 to the energy and multiplies the
    complexity by 1000. *)
Lemma detectAIModelUsage_spec (body : Node) (m : ResourceMetrics) (e c : Q) :
  energy m = Some e -> computeComplexity m = Some c -> 0 < c ->
  exists e' c',
    energy (detectAIModelUsage body m) = Some e' /\
    computeComplexity (detectAIModelUsage body m) = Some c' /\
    e' == e + 50 * Qn (Spec.count Spec.isInferenceCall body) /\
    c' == c * 1000 ^ Z.of_nat (Spec.count Spec.isInferenceCall body) /\
    0 < c' /\
    (Spec.count Spec.isInferenceCall body = O -> e' = e /\ c' = c) /\
    networkCalls (detectAIModelUsage body m) = networkCalls m /\
    ioOperations (detectAIModelUsage body m) = ioOperations m.
Proof.
  unfold detectAIModelUsage, forEachDescendant, Spec.count.
  generalize (descendants body) as l. intros l.
  name_callback F Spec.isInferenceCall. revert m e c.
  induction l as [|d l IH]; intros m e c He Hc Hpos; cbn [fold_left List.filter length].
  - exists e, c. repeat split; try assumption.
    + change (Qn 0) with 0. ring.
    + simpl. ring.
  - rewrite HF.
    destruct (Spec.isInferenceCall d) eqn:E; [|apply IH; assumption].
    assert (Hc1 : JS.or_else (Some c) 1 = c) by (apply or_else_nonzero; lra).
    assert (Hd : F m d =
                 set_computeComplexity (Some (c * 1000))
                   (set_energy (Some (JS.or_else (Some e) 0 + 50)) m)).
    { unfold F. unfold Spec.isInferenceCall in E.
      destruct (isCallExpression d); [|discriminate]. simpl in E. rewrite E.
      simpl. rewrite Hc, He, Hc1. reflexivity. }
    rewrite Hd.
    destruct (IH (set_computeComplexity (Some (c * 1000))
                    (set_energy (Some (JS.or_else (Some e) 0 + 50)) m))
                _ _ eq_refl eq_refl) as
      (e' & c' & He' & Hc' & Hev & Hcv & Hp & _ & Hn & Hio); [lra|].
    exists e', c'. rewrite He', Hc'.
    repeat split; try assumption; try discriminate.
    + cbn [length]. rewrite Hev, or_else_0, inject_nat_S. simpl JS.the. ring.
    + rewrite Hcv. cbn [length]. rewrite Nat2Z.inj_succ. unfold Z.succ.
      rewrite Qpower_plus by (intros H0; discriminate H0). simpl (1000 ^ 1). ring.
Qed.
End CallPasses.

(** ** The estimator as a whole *)

Section Estimator.
Import TsMorph Core ResourceAnalyzer.
Variable log10 : Q -> Q.

Local Abbreviation Qn n := (inject_Z (Z.of_nat n)).

Lemma pow1000_ge_1 (k : nat) : 1 <= 1000 ^ Z.of_nat k.
Proof.
  induction k as [|k IH]; [simpl; lra|].
  rewrite Nat2Z.inj_succ. unfold Z.succ.
  rewrite Qpower_plus by (intros H0; discriminate H0).
  simpl (1000 ^ 1). lra.
Qed.

Lemma pow10_ge_1 (n : nat) : 1 <= JS.pow10 n.
Proof.
  induction n as [|n IH]; [vm_compute; discriminate|].
  rewrite pow10_S. lra.
Qed.

(** A complexity of 1 means no loop and no heavy-inference call. *)
Lemma complexity_one (L k : nat) :
  JS.pow10 L * 1000 ^ Z.of_nat k == 1 -> L = O /\ k = O.
Proof.
  intros H. pose proof (pow10_ge_1 L) as HL. pose proof (pow1000_ge_1 k) as Hk.
  destruct L as [|L].
  - split; [reflexivity|]. destruct k as [|k]; [reflexivity|exfalso].
    revert H. rewrite Nat2Z.inj_succ. unfold Z.succ.
    rewrite Qpower_plus by (intros H0; discriminate H0).
    simpl (1000 ^ 1). pose proof (pow1000_ge_1 k).
    change (JS.pow10 0) with 1. lra.
  - exfalso. revert H. rewrite pow10_S. pose proof (pow10_ge_1 L). nra.
Qed.

(** What [analyzeFunction] returns, field by field. *)
Lemma analyzeFunction_fields (body : Node) :
  let L := Spec.count Spec.isLoop body in
  let k := Spec.count Spec.isInferenceCall body in
  exists e em n io c,
    energy (analyzeFunction log10 body) = Some e /\
    emissions (analyzeFunction log10 body) = Some em /\
    networkCalls (analyzeFunction log10 body) = Some n /\
    ioOperations (analyzeFunction log10 body) = Some io /\
    computeComplexity (analyzeFunction log10 body) = Some c /\
    n == Qn (Spec.count Spec.isNetworkCall body) /\
    io == Qn (Spec.count Spec.isIOCall body) /\
    c == JS.pow10 L * 1000 ^ Z.of_nat k /\
    (k = O -> c = JS.pow10 L) /\
    e == (1 # 100) + n * (1 # 1000) + io * (5 # 10000)
         + log10 c * (1 # 100) + 50 * Qn k /\
    em == e * 500.
Proof.
  intros L k. unfold analyzeFunction.
  destruct (countNetworkCalls_spec body initialMetrics 0 eq_refl)
    as (n & Hn & Hnv & He1 & Hio1 & Hc1).
  set (m1 := countNetworkCalls body initialMetrics) in *.
  destruct (analyzeLoops_frame body m1) as (He2 & _ & _ & Hn2 & Hio2).
  pose proof (analyzeLoops_complexity body m1) as Hc2.
  set (m2 := analyzeLoops body m1) in *.
  destruct (countIOOperations_spec body m2 0) as (io & Hio & Hiov & He3 & Hn3 & Hc3).
  { rewrite Hio2, Hio1. reflexivity. }
  set (m3 := countIOOperations body m2) in *.
  destruct (detectAIModelUsage_spec body m3 0 (JS.pow10 L))
    as (e4 & c4 & He4 & Hc4 & He4v & Hc4v & Hpos & Hzero & Hn4 & Hio4).
  { rewrite He3, He2, He1. reflexivity. }
  { rewrite Hc3, Hc2. reflexivity. }
  { apply pow10_pos. }
  set (m4 := detectAIModelUsage body m3) in *.
  assert (Hn' : networkCalls m4 = Some n) by (rewrite Hn4, Hn3, Hn2; exact Hn).
  assert (Hio' : ioOperations m4 = Some io) by (rewrite Hio4; exact Hio).
  assert (Hor : JS.or_else (Some c4) 1 = c4) by (apply or_else_nonzero; lra).
  unfold estimateEnergyUsage. cbn [energy emissions networkCalls ioOperations
    computeComplexity set_energy set_emissions].
  rewrite Hn', Hio', Hc4, He4, Hor.
  do 5 eexists. repeat split; try reflexivity.
  - rewrite Hnv. ring.
  - rewrite Hiov. ring.
  - exact Hc4v.
  - intros Hk. apply Hzero. exact Hk.
  - rewrite !or_else_0. simpl JS.the. rewrite He4v. fold k. ring.
  - rewrite or_else_0. simpl JS.the. reflexivity.
Qed.
End Estimator.

(** C5.  The energy [analyzeFunction] returns is
    0.01 + networkCalls * 0.001 + ioOperations * 0.0005
    + log10(computeComplexity) * 0.01 plus 50 for every heavy-inference call,
    over the counts and the complexity of the returned metrics, and the
    emissions are that energy times 500.  When [Math.log10(1)] is 0, a body
    whose complexity is 1 and whose call counts are zero gets energy 0.01. *)
Theorem analyzeFunction_energy_formula (log10 : Q -> Q) (body : TsMorph.Node) :
  let m := ResourceAnalyzer.analyzeFunction log10 body in
  exists e em n io c,
    Core.energy m = Some e /\
    Core.emissions m = Some em /\
    Core.networkCalls m = Some n /\
    Core.ioOperations m = Some io /\
    Core.computeComplexity m = Some c /\
    n == inject_Z (Z.of_nat (Spec.count Spec.isNetworkCall body)) /\
    io == inject_Z (Z.of_nat (Spec.count Spec.isIOCall body)) /\
    e == (1 # 100) + n * (1 # 1000) + io * (5 # 10000) + log10 c * (1 # 100)
         + 50 * inject_Z (Z.of_nat (Spec.count Spec.isInferenceCall body)) /\
    em == e * 500 /\
    (log10 1 == 0 -> c == 1 -> n == 0 -> io == 0 -> e == 1 # 100).
Proof.
  intros m.
  destruct (analyzeFunction_fields log10 body)
    as (e & em & n & io & c & He & Hem & Hn & Hio & Hc & Hnv & Hiov & Hcv & Hk & Hev & Hemv).
  exists e, em, n, io, c. subst m.
  repeat split; try assumption.
  intros Hlog Hc1 Hn0 Hio0.
  rewrite Hcv in Hc1. apply complexity_one in Hc1 as [HL Hk0].
  specialize (Hk Hk0). rewrite HL in Hk. change (JS.pow10 0) with 1 in Hk.
  rewrite Hev, Hk, Hk0, Hlog, Hn0, Hio0. change (inject_Z (Z.of_nat 0)) with 0. ring.
Qed.

Lemma analyzeFunction_energy_formula_witness :
  exists e,
    Core.energy (ResourceAnalyzer.analyzeFunction Samples.log10 Samples.emptyBody) = Some e /\
    e == 1 # 100.
Proof.
  destruct (analyzeFunction_energy_formula Samples.log10 Samples.emptyBody)
    as (e & em & n & io & c & He & _ & Hn & Hio & Hc & Hnv & Hiov & _ & _ & Hpart).
  exists e. split; [exact He|].
  apply Hpart.
  - reflexivity.
  - vm_compute in Hc. injection Hc as <-. reflexivity.
  - rewrite Hnv. reflexivity.
  - rewrite Hiov. reflexivity.
Defined.

Example analyzeFunction_busyBody :
  let m := ResourceAnalyzer.analyzeFunction Samples.log10 Samples.busyBody in
  Core.networkCalls m = Some 1 /\ Core.ioOperations m = Some 1 /\
  Core.computeComplexity m = Some 1000 /\
  (exists e, Core.energy m = Some e /\ e == 50 + (1 # 100) + (1 # 1000) + (5 # 10000) + (3 # 100)).
Proof.
  vm_compute. repeat split. eexists. split; reflexivity.
Qed.

(** ** The violation detector *)

Section Violations.
Import Core ResourceAnalyzer.

(** A number above a non-negative bound is truthy, so the guard
    [x && x > bound] is the comparison alone. *)
Lemma gt_truthy (x : option Q) (b : Q) :
  0 <= b -> JS.gt x (Some b) = true -> JS.truthy x = true.
Proof.
  intros Hb H. destruct x as [q|]; simpl in *; [|discriminate].
  apply gtb_true in H. apply negb_true_iff, Qeq_bool_false. lra.
Qed.

Lemma guarded_gt (x : option Q) (b : Q) :
  0 <= b -> JS.truthy x && JS.gt x (Some b) = JS.gt x (Some b).
Proof.
  intros Hb. destruct (JS.gt x (Some b)) eqn:E.
  - rewrite (gt_truthy x b Hb E). reflexivity.
  - apply andb_false_r.
Qed.

(** The loop over the annotations appends, in order, one error for every
    annotation whose budget test succeeds. *)
Lemma budget_loop (metrics : ResourceMetrics) (annotations : list SDGAnnotation)
    (acc : list Violation) :
  fold_left (fun violations annotation =>
    if JS.truthy (carbonBudget annotation) && JS.truthy (energy metrics) &&
       JS.gt (energy metrics) (carbonBudget annotation)
    then violations ++ [ {|
      type := carbon_budget_exceeded;
      severity := error;
      message := budgetMessage (JS.the (energy metrics))
                               (JS.the (carbonBudget annotation));
      suggestion := Some "Consider optimizing algorithms or reducing network calls"
    |} ]
    else violations) annotations acc =
  acc ++ map (Spec.budgetViolation metrics)
             (List.filter (Spec.budgetExceeded metrics) annotations).
Proof.
  revert acc. induction annotations as [|a l IH]; intros acc; simpl.
  - rewrite app_nil_r. reflexivity.
  - rewrite IH. unfold Spec.budgetExceeded at 2.
    destruct (JS.truthy (carbonBudget a) && JS.truthy (energy metrics) &&
              JS.gt (energy metrics) (carbonBudget a)); simpl.
    + rewrite <- app_assoc. reflexivity.
    + reflexivity.
Qed.

Lemma detectViolations_unfold (metrics : ResourceMetrics) (annotations : list SDGAnnotation) :
  detectViolations metrics annotations =
  map (Spec.budgetViolation metrics)
      (List.filter (Spec.budgetExceeded metrics) annotations) ++
  (if JS.gt (computeComplexity metrics) (Some 1000)
   then [Spec.inefficientAlgorithm] else []) ++
  (if JS.gt (energy metrics) (Some 10) && (length annotations =? 0)%nat
   then [Spec.highImpactNoAnnotation] else []).
Proof.
  unfold detectViolations. rewrite budget_loop. simpl app at 1.
  rewrite (guarded_gt (computeComplexity metrics) 1000) by lra.
  rewrite (guarded_gt (energy metrics) 10) by lra.
  destruct (JS.gt (computeComplexity metrics) (Some 1000));
    destruct (JS.gt (energy metrics) (Some 10) && (length annotations =? 0)%nat);
    simpl; rewrite ?app_nil_r, <- ?app_assoc; reflexivity.
Qed.

(** For a positive budget the three-part test is the comparison alone. *)
Lemma budgetExceeded_positive (metrics : ResourceMetrics) (a : SDGAnnotation) (b : Q) :
  carbonBudget a = Some b -> 0 < b ->
  Spec.budgetExceeded metrics a = JS.gt (energy metrics) (Some b).
Proof.
  intros Ha Hb. unfold Spec.budgetExceeded. rewrite Ha.
  assert (Ht : JS.truthy (Some b) = true) by (apply truthy_Some; lra).
  rewrite Ht. simpl andb. apply guarded_gt. lra.
Qed.

(** A zero budget never triggers the rule. *)
Lemma budgetExceeded_zero (metrics : ResourceMetrics) (a : SDGAnnotation) (b : Q) :
  carbonBudget a = Some b -> b == 0 -> Spec.budgetExceeded metrics a = false.
Proof.
  intros Ha Hb. unfold Spec.budgetExceeded. rewrite Ha. simpl.
  apply Qeq_bool_iff in Hb. rewrite Hb. reflexivity.
Qed.

End Violations.

(** C3, as the code has it.  [detectViolations] returns, in this order:
    for each annotation in annotation order whose [carbonBudget] is present
    and non-zero, a [carbon_budget_exceeded] error when the energy is
    non-zero and above the budget (for a positive budget: exactly when the
    energy is above it), whose message prints the energy with three decimals
    and the budget as [String] prints it; then an [inefficient_algorithm]
    warning iff [computeComplexity > 1000]; then a
    [high_impact_no_annotation] warning iff [energy > 10] and there is no
    annotation. *)
Theorem detectViolations_order
    (metrics : Core.ResourceMetrics) (annotations : list Core.SDGAnnotation) :
  ResourceAnalyzer.detectViolations metrics annotations =
    map (Spec.budgetViolation metrics)
        (List.filter (Spec.budgetExceeded metrics) annotations) ++
    (if JS.gt (Core.computeComplexity metrics) (Some 1000)
     then [Spec.inefficientAlgorithm] else []) ++
    (if JS.gt (Core.energy metrics) (Some 10) && (length annotations =? 0)%nat
     then [Spec.highImpactNoAnnotation] else []) /\
  (forall a b, Core.carbonBudget a = Some b -> 0 < b ->
     Spec.budgetExceeded metrics a = JS.gt (Core.energy metrics) (Some b)) /\
  (forall a b, Core.carbonBudget a = Some b -> b == 0 ->
     Spec.budgetExceeded metrics a = false) /\
  (forall a, Core.carbonBudget a = None -> Spec.budgetExceeded metrics a = false) /\
  (forall a e b, Core.energy metrics = Some e -> Core.carbonBudget a = Some b ->
     Core.message (Spec.budgetViolation metrics a) =
     "Energy usage (" +:+ JS.toFixed 3 e +:+ "kWh) exceeds carbon budget (" +:+
     JS.toString b +:+ "kWh)").
Proof.
  split; [apply detectViolations_unfold|].
  split; [apply budgetExceeded_positive|].
  split; [apply budgetExceeded_zero|].
  split.
  - intros a Ha. unfold Spec.budgetExceeded. rewrite Ha. reflexivity.
  - intros a e b He Hb. unfold Spec.budgetViolation. simpl. rewrite He, Hb. reflexivity.
Qed.

(** C3 as stated fails twice on the input of Scenario A and its neighbour:
    with energy 1.5 and a budget of 1 the message prints the budget as
    [1], not [1.000]; with a budget of 0 no error is emitted although
    1.5 > 0. *)
Lemma detectViolations_not_spec :
  map Core.message
      (ResourceAnalyzer.detectViolations (Samples.metricsWithEnergy (15 # 10))
         [Samples.annotation (Some 1)])
    = ["Energy usage (1.500kWh) exceeds carbon budget (1kWh)"%string] /\
  map Core.message
      (Spec.detectViolations_spec (Samples.metricsWithEnergy (15 # 10))
         [Samples.annotation (Some 1)])
    = ["Energy usage (1.500kWh) exceeds carbon budget (1.000kWh)"%string] /\
  ResourceAnalyzer.detectViolations (Samples.metricsWithEnergy (15 # 10))
    [Samples.annotation (Some 0)] = [] /\
  map Core.type
      (Spec.detectViolations_spec (Samples.metricsWithEnergy (15 # 10))
         [Samples.annotation (Some 0)])
    = [Core.carbon_budget_exceeded] /\
  ResourceAnalyzer.detectViolations (Samples.metricsWithEnergy (15 # 10))
    [Samples.annotation (Some 1)]
  <> Spec.detectViolations_spec (Samples.metricsWithEnergy (15 # 10))
       [Samples.annotation (Some 1)].
Proof.
  repeat split; try (vm_compute; reflexivity).
  vm_compute. intros H. discriminate H.
Qed.

Lemma detectViolations_order_witness :
  ResourceAnalyzer.detectViolations (Samples.metricsWithEnergy (15 # 10))
    [Samples.annotation (Some 1)]
  = [Spec.budgetViolation (Samples.metricsWithEnergy (15 # 10))
       (Samples.annotation (Some 1))] /\
  Spec.budgetExceeded (Samples.metricsWithEnergy (15 # 10))
    (Samples.annotation (Some 1)) = true.
Proof.
  destruct (detectViolations_order (Samples.metricsWithEnergy (15 # 10))
              [Samples.annotation (Some 1)]) as (H & Hpos & _).
  split.
  - rewrite H. reflexivity.
  - rewrite (Hpos (Samples.annotation (Some 1)) 1); [reflexivity|reflexivity|lra].
Defined.

(** ** The score *)

Section Score.
Import Core SDGCompiler.

Lemma penalty_loop (violations : list Violation) (score : Z) :
  fold_left (fun score violation =>
    (score - match severity violation with error => 20 | _ => 10 end)%Z)
    violations score =
  (score - 20 * Z.of_nat (length (List.filter Spec.isError violations))
         - 10 * Z.of_nat (length (List.filter Spec.isWarning violations)))%Z.
Proof.
  revert score. induction violations as [|v l IH]; intros score; simpl.
  - lia.
  - rewrite IH. unfold Spec.isError at 2, Spec.isWarning at 2.
    destruct (severity v); simpl length; lia.
Qed.

Lemma calculateScore_formula
    (metrics : ResourceMetrics) (violations : list Violation)
    (annotations : list SDGAnnotation) :
  calculateScore metrics violations annotations =
  Spec.score_spec metrics violations annotations.
Proof.
  unfold calculateScore, Spec.score_spec. rewrite penalty_loop.
  f_equal. f_equal. unfold Spec.adjustment.
  destruct (energy metrics) as [e|]; [|lia].
  destruct (JS.ltb e (1 # 10)); [lia|].
  destruct (JS.gtb e 10); lia.
Qed.

End Score.

(** C4.  [calculateScore] is 100 - 20 * errors - 10 * warnings
    + adjustment(energy) + 5 * annotations clamped into [0, 100], where the
    adjustment is +10 below 0.1, -15 above 10 and 0 otherwise; so the score
    always lies in [0, 100]. *)
Theorem calculateScore_clamped_formula
    (metrics : Core.ResourceMetrics) (violations : list Core.Violation)
    (annotations : list Core.SDGAnnotation) :
  SDGCompiler.calculateScore metrics violations annotations =
    Z.max 0 (Z.min 100
      (100 - 20 * Z.of_nat (length (List.filter Spec.isError violations))
           - 10 * Z.of_nat (length (List.filter Spec.isWarning violations))
           + Spec.adjustment (Core.energy metrics)
           + 5 * Z.of_nat (length annotations)))%Z /\
  (forall e, Core.energy metrics = Some e ->
     (e < 1 # 10 -> Spec.adjustment (Core.energy metrics) = 10%Z) /\
     (10 < e -> Spec.adjustment (Core.energy metrics) = (-15)%Z) /\
     (1 # 10 <= e <= 10 -> Spec.adjustment (Core.energy metrics) = 0%Z)) /\
  (0 <= SDGCompiler.calculateScore metrics violations annotations <= 100)%Z.
Proof.
  split; [apply calculateScore_formula|]. split.
  - intros e He. rewrite He. unfold Spec.adjustment. repeat split.
    + intros H. apply ltb_true in H. rewrite H. reflexivity.
    + intros H. destruct (JS.ltb e (1 # 10)) eqn:E1.
      * apply ltb_true in E1. lra.
      * apply gtb_true in H. rewrite H. reflexivity.
    + intros [H1 H2]. destruct (JS.ltb e (1 # 10)) eqn:E1.
      * apply ltb_true in E1. lra.
      * destruct (JS.gtb e 10) eqn:E2; [|reflexivity].
        apply gtb_true in E2. lra.
  - unfold SDGCompiler.calculateScore. lia.
Qed.

Lemma calculateScore_clamped_formula_witness :
  Spec.adjustment (Some (15 # 10)) = 0%Z /\
  SDGCompiler.calculateScore (Samples.metricsWithEnergy (15 # 10))
    (ResourceAnalyzer.detectViolations (Samples.metricsWithEnergy (15 # 10))
       [Samples.annotation (Some 1)])
    [Samples.annotation (Some 1)] = 85%Z.
Proof.
  destruct (calculateScore_clamped_formula (Samples.metricsWithEnergy (15 # 10))
              (ResourceAnalyzer.detectViolations (Samples.metricsWithEnergy (15 # 10))
                 [Samples.annotation (Some 1)])
              [Samples.annotation (Some 1)]) as (H & Hadj & _).
  destruct (Hadj (15 # 10) eq_refl) as (_ & _ & H0).
  split.
  - apply H0. split; [vm_compute; discriminate | vm_compute; discriminate].
  - rewrite H. reflexivity.
Defined.

(** Scenario B: no annotation, energy 15, complexity 1. *)
Example scenario_B :
  map Core.type (ResourceAnalyzer.detectViolations (Samples.metricsWithEnergy 15) [])
    = [Core.high_impact_no_annotation] /\
  SDGCompiler.calculateScore (Samples.metricsWithEnergy 15)
    (ResourceAnalyzer.detectViolations (Samples.metricsWithEnergy 15) []) [] = 75%Z.
Proof. split; reflexivity. Qed.

(** ** The registry maps *)

Section MapFacts.
Context {V : Type}.
Implicit Types (m : JSMap.t V) (k : string) (v : V).

Lemma get_set_eq m k v : JSMap.get k (JSMap.set k v m) = Some v.
Proof.
  induction m as [|[k' v'] m IH]; simpl.
  - rewrite String.eqb_refl. reflexivity.
  - destruct (String.eqb k k') eqn:E; simpl.
    + rewrite String.eqb_refl. reflexivity.
    + rewrite E. exact IH.
Qed.

Lemma get_set_ne m k k' v : k <> k' -> JSMap.get k' (JSMap.set k v m) = JSMap.get k' m.
Proof.
  intros Hne. induction m as [|[k0 v0] m IH]; simpl.
  - destruct (String.eqb_spec k' k); [congruence|reflexivity].
  - destruct (String.eqb_spec k k0) as [->|Hk]; simpl.
    + destruct (String.eqb_spec k' k0); [congruence|reflexivity].
    + destruct (String.eqb k' k0); [reflexivity|exact IH].
Qed.

Lemma get_delete_eq m k : JSMap.get k (JSMap.delete k m) = None.
Proof.
  induction m as [|[k' v'] m IH]; simpl; [reflexivity|].
  destruct (String.eqb k k') eqn:E; simpl; [exact IH|].
  rewrite E. exact IH.
Qed.

Lemma get_delete_ne m k k' : k <> k' -> JSMap.get k' (JSMap.delete k m) = JSMap.get k' m.
Proof.
  intros Hne. induction m as [|[k0 v0] m IH]; simpl; [reflexivity|].
  destruct (String.eqb_spec k k0) as [->|Hk]; simpl.
  - destruct (String.eqb_spec k' k0); [congruence|exact IH].
  - destruct (String.eqb k' k0); [reflexivity|exact IH].
Qed.

Lemma get_None_keys m k : JSMap.get k m = None <-> ~ In k (JSMap.keys m).
Proof.
  induction m as [|[k' v'] m IH]; simpl.
  - split; [intros _ []|reflexivity].
  - destruct (String.eqb_spec k k') as [->|Hk].
    + split; [discriminate|]. intros H. exfalso. apply H. left. reflexivity.
    + rewrite IH. split.
      * intros H [E|I]; [congruence|contradiction].
      * intros H I. apply H. right. exact I.
Qed.

(** Overwriting a key that is present keeps the iteration order. *)
Lemma keys_set_present m k v :
  In k (JSMap.keys m) -> JSMap.keys (JSMap.set k v m) = JSMap.keys m.
Proof.
  induction m as [|[k' v'] m IH]; simpl; [intros []|].
  destruct (String.eqb_spec k k') as [->|Hk]; simpl; [reflexivity|].
  intros [E|I]; [congruence|]. rewrite IH by exact I. reflexivity.
Qed.

(** A new key goes to the end. *)
Lemma keys_set_absent m k v :
  ~ In k (JSMap.keys m) -> JSMap.keys (JSMap.set k v m) = JSMap.keys m ++ [k].
Proof.
  induction m as [|[k' v'] m IH]; simpl; [reflexivity|].
  destruct (String.eqb_spec k k') as [->|Hk]; simpl.
  - intros H. exfalso. apply H. left. reflexivity.
  - intros H. rewrite IH; [reflexivity|]. intros I. apply H. right. exact I.
Qed.

Lemma keys_set_NoDup m k v : NoDup (JSMap.keys m) -> NoDup (JSMap.keys (JSMap.set k v m)).
Proof.
  intros Hnd. destruct (in_dec String.string_dec k (JSMap.keys m)) as [I|I].
  - rewrite keys_set_present by exact I. exact Hnd.
  - rewrite keys_set_absent by exact I.
    apply NoDup_app. split; [exact Hnd|]. split.
    + intros x Hx Hx'. apply list_elem_of_In in Hx. apply list_elem_of_In in Hx'.
      destruct Hx' as [<-|[]]. contradiction.
    + apply NoDup_singleton.
Qed.

End MapFacts.

(** ** The accumulator *)

Section Accumulate.
Import Core Runtime.ResourceTracker.

Ltac split_guards :=
  unfold accumulate;
  repeat match goal with
         | |- context [if JS.truthy ?x then _ else _] => destruct (JS.truthy x) eqn:?
         end;
  cbn [energy emissions memory networkCalls ioOperations computeComplexity
       set_energy set_emissions set_memory set_networkCalls set_ioOperations JS.the].

Ltac by_guard :=
  repeat match goal with
         | H : JS.truthy _ = false |- _ => apply truthy_the in H
         end;
  rewrite ?or_else_0; lra.

Lemma accumulate_energy (m u : ResourceMetrics) :
  JS.the (energy (accumulate m u)) == JS.the (energy m) + JS.the (energy u).
Proof. split_guards; by_guard. Qed.

Lemma accumulate_emissions (m u : ResourceMetrics) :
  JS.the (emissions (accumulate m u)) == JS.the (emissions m) + JS.the (emissions u).
Proof. split_guards; by_guard. Qed.

Lemma accumulate_networkCalls (m u : ResourceMetrics) :
  JS.the (networkCalls (accumulate m u))
  == JS.the (networkCalls m) + JS.the (networkCalls u).
Proof. split_guards; by_guard. Qed.

Lemma accumulate_ioOperations (m u : ResourceMetrics) :
  JS.the (ioOperations (accumulate m u))
  == JS.the (ioOperations m) + JS.the (ioOperations u).
Proof. split_guards; by_guard. Qed.

Lemma accumulate_computeComplexity (m u : ResourceMetrics) :
  computeComplexity (accumulate m u) = computeComplexity m.
Proof. split_guards; reflexivity. Qed.

Lemma max_proper (a a' b b' : Q) : a == a' -> b == b' -> JS.max a b == JS.max a' b'.
Proof. intros Ha Hb. rewrite !max_spec, Ha, Hb. reflexivity. Qed.

(** The memory of an accumulator never goes below zero, and each update
    takes the maximum with the reported figure. *)
Lemma accumulate_memory (m u : ResourceMetrics) :
  0 <= JS.the (memory m) ->
  JS.the (memory (accumulate m u)) == JS.max (JS.the (memory m)) (JS.the (memory u)) /\
  0 <= JS.the (memory (accumulate m u)).
Proof.
  intros Hm.
  assert (H : JS.the (memory (accumulate m u))
              == JS.max (JS.the (memory m)) (JS.the (memory u))).
  { split_guards.
    all: try (apply max_proper; [apply or_else_0|reflexivity]).
    all: match goal with H : JS.truthy (memory _) = false |- _ =>
           apply truthy_the in H; rewrite max_spec, H; symmetry; apply Q.max_l; exact Hm
         end. }
  split; [exact H|]. rewrite H, max_spec.
  apply Q.max_le_iff. left. exact Hm.
Qed.

End Accumulate.

(** ** The tracker's operations *)

Section Tracker.
Import Core Runtime.

Lemma trackResource_unknown (w : World) (id rt : string) (u : ResourceMetrics) :
  JSMap.get id (metrics w) = None ->
  ResourceTracker.trackResource id rt u w
  = console_warn ("No active context found for ID: " +:+ id) w.
Proof. intros H. unfold ResourceTracker.trackResource. rewrite H. reflexivity. Qed.

Lemma trackResource_known (w : World) (id rt : string) (u m : ResourceMetrics) :
  JSMap.get id (metrics w) = Some m ->
  let w' := ResourceTracker.trackResource id rt u w in
  metrics w' = JSMap.set id (ResourceTracker.accumulate m u) (metrics w) /\
  emitted w' = emitted w ++
    [Spec.trackedEvent id rt u (ResourceTracker.accumulate m u) (clock w (ticks w))] /\
  console w' = console w /\ ticks w' = S (ticks w).
Proof.
  intros H. unfold ResourceTracker.trackResource. rewrite H. simpl. repeat split.
Qed.

(** [trackResource] never touches the contexts, the object store or the
    clock. *)
Lemma trackResource_frame (w : World) (id rt : string) (u : ResourceMetrics) :
  let w' := ResourceTracker.trackResource id rt u w in
  activeContexts w' = activeContexts w /\ heap w' = heap w /\ clock w' = clock w.
Proof.
  unfold ResourceTracker.trackResource.
  destruct (JSMap.get id (metrics w)); simpl; repeat split.
Qed.

Lemma trackResource_other (w : World) (id id' rt : string) (u : ResourceMetrics) :
  id <> id' ->
  JSMap.get id' (metrics (ResourceTracker.trackResource id rt u w))
  = JSMap.get id' (metrics w).
Proof.
  intros Hne. unfold ResourceTracker.trackResource.
  destruct (JSMap.get id (metrics w)) eqn:E; simpl; [|reflexivity].
  apply get_set_ne. exact Hne.
Qed.

Lemma trackResource_same (w : World) (id rt : string) (u m : ResourceMetrics) :
  JSMap.get id (metrics w) = Some m ->
  JSMap.get id (metrics (ResourceTracker.trackResource id rt u w))
  = Some (ResourceTracker.accumulate m u).
Proof.
  intros H. destruct (trackResource_known w id rt u m H) as (Hm & _).
  rewrite Hm. apply get_set_eq.
Qed.

End Tracker.

(** C8.  For an id with no entry in the registry, [trackResource] returns
    normally: it appends one warning to the console and leaves the metrics,
    the contexts, the object store, the emitted events and the clock as they
    were, so a lookup of the id afterwards still finds nothing. *)
Theorem trackResource_unknown_is_noop
    (w : Runtime.World) (id resourceType : string) (usage : Core.ResourceMetrics) :
  Runtime.ResourceTracker.getCurrentMetrics id w = None ->
  let w' := Runtime.ResourceTracker.trackResource id resourceType usage w in
  Runtime.metrics w' = Runtime.metrics w /\
  Runtime.activeContexts w' = Runtime.activeContexts w /\
  Runtime.heap w' = Runtime.heap w /\
  Runtime.emitted w' = Runtime.emitted w /\
  Runtime.ticks w' = Runtime.ticks w /\
  Runtime.console w' =
    Runtime.console w ++ ["No active context found for ID: " +:+ id] /\
  Runtime.ResourceTracker.getCurrentMetrics id w' = None.
Proof.
  intros H w'. subst w'. unfold Runtime.ResourceTracker.getCurrentMetrics in *.
  rewrite (trackResource_unknown w id resourceType usage H).
  simpl. repeat split. exact H.
Qed.

Lemma trackResource_unknown_is_noop_witness :
  let w' := Runtime.ResourceTracker.trackResource "unknown" "manual"
              (Core.set_energy (Some 1) Samples.noUsage) Samples.initialWorld in
  Runtime.metrics w' = [] /\
  Runtime.console w' = ["No active context found for ID: unknown"%string] /\
  Runtime.ResourceTracker.getCurrentMetrics "unknown" w' = None.
Proof.
  destruct (trackResource_unknown_is_noop Samples.initialWorld "unknown" "manual"
              (Core.set_energy (Some 1) Samples.noUsage) eq_refl)
    as (Hm & _ & _ & _ & _ & Hc & Hg).
  cbv zeta. rewrite Hm, Hc, Hg. repeat split.
Defined.

(** ** Starting, accumulating, ending *)

Section Lifecycle.
Import Core Runtime.

Lemma startContext_effect (w : World) (id : string) (c : ref) :
  let w' := ResourceTracker.startContext id c w in
  heap w' = alter (set_startTime (Some (clock w (ticks w)))) c (heap w) /\
  activeContexts w' = JSMap.set id c (activeContexts w) /\
  metrics w' = JSMap.set id initialMetrics (metrics w) /\
  emitted w' = emitted w ++ [Spec.startedEvent id c (clock w (S (ticks w)))] /\
  console w' = console w /\ clock w' = clock w /\ ticks w' = S (S (ticks w)).
Proof. unfold ResourceTracker.startContext. simpl. repeat split. Qed.

Lemma endContext_unknown (w : World) (id : string) :
  JSMap.get id (activeContexts w) = None \/ JSMap.get id (metrics w) = None ->
  ResourceTracker.endContext id w = (None, w).
Proof.
  intros [H|H]; unfold ResourceTracker.endContext; rewrite H.
  - reflexivity.
  - destruct (JSMap.get id (activeContexts w)); reflexivity.
Qed.

Lemma endContext_known (w : World) (id : string) (c : ref) (m : ResourceMetrics)
    (ctx : SDGContext) :
  JSMap.get id (activeContexts w) = Some c ->
  JSMap.get id (metrics w) = Some m ->
  heap w !! c = Some ctx ->
  let t0 := ticks w in
  let duration := clock w t0 - JS.or_else (startTime ctx) 0 in
  let exceeded := Spec.contextBudgetExceeded ctx m in
  let w' := snd (ResourceTracker.endContext id w) in
  fst (ResourceTracker.endContext id w) = Some m /\
  emitted w' = emitted w ++
    (if exceeded then [Spec.exceededEvent id c m (clock w (S t0))] else []) ++
    [Spec.endedEvent id c m duration
       (clock w (if exceeded then S (S t0) else S t0))] /\
  activeContexts w' = JSMap.delete id (activeContexts w) /\
  metrics w' = JSMap.delete id (metrics w) /\
  heap w' = heap w /\ console w' = console w.
Proof.
  intros Ha Hm Hh. unfold ResourceTracker.endContext. rewrite Ha, Hm, Hh.
  cbv zeta. unfold Spec.contextBudgetExceeded.
  destruct (JS.truthy (carbonBudget ctx) && JS.truthy (energy m) &&
            JS.gt (energy m) (carbonBudget ctx)); simpl.
  - repeat split. rewrite <- app_assoc. reflexivity.
  - repeat split.
Qed.

Lemma add_fold_proper (f : ResourceMetrics -> Q) (l : list ResourceMetrics) (a b : Q) :
  a == b ->
  fold_left (fun acc u => acc + f u) l a == fold_left (fun acc u => acc + f u) l b.
Proof.
  revert a b. induction l as [|u l IH]; intros a b H; simpl; [exact H|].
  apply IH. rewrite H. reflexivity.
Qed.

Lemma max_fold_proper (f : ResourceMetrics -> Q) (l : list ResourceMetrics) (a b : Q) :
  a == b ->
  fold_left (fun acc u => JS.max acc (f u)) l a
  == fold_left (fun acc u => JS.max acc (f u)) l b.
Proof.
  revert a b. induction l as [|u l IH]; intros a b H; simpl; [exact H|].
  apply IH. apply max_proper; [exact H|reflexivity].
Qed.

(** A run of [trackResource] calls on one id, from an accumulator [m]. *)
Lemma trackResource_run (id : string) (us : list (string * ResourceMetrics))
    (w : World) (m : ResourceMetrics) :
  JSMap.get id (metrics w) = Some m ->
  0 <= JS.the (memory m) ->
  let w' := fold_left (fun w '(rt, u) => ResourceTracker.trackResource id rt u w) us w in
  exists m',
    JSMap.get id (metrics w') = Some m' /\
    JS.the (energy m')
      == fold_left (fun acc u => acc + JS.the (energy u)) (map snd us) (JS.the (energy m)) /\
    JS.the (emissions m')
      == fold_left (fun acc u => acc + JS.the (emissions u)) (map snd us)
           (JS.the (emissions m)) /\
    JS.the (networkCalls m')
      == fold_left (fun acc u => acc + JS.the (networkCalls u)) (map snd us)
           (JS.the (networkCalls m)) /\
    JS.the (ioOperations m')
      == fold_left (fun acc u => acc + JS.the (ioOperations u)) (map snd us)
           (JS.the (ioOperations m)) /\
    JS.the (memory m')
      == fold_left (fun acc u => JS.max acc (JS.the (memory u))) (map snd us)
           (JS.the (memory m)) /\
    activeContexts w' = activeContexts w /\ heap w' = heap w.
Proof.
  revert w m. induction us as [|[rt u] us IH]; intros w m Hm Hmem; simpl.
  - exists m. repeat split; try reflexivity. exact Hm.
  - destruct (accumulate_memory m u Hmem) as [Hmax Hpos].
    destruct (trackResource_frame w id rt u) as (Ha & Hh & _).
    destruct (IH (ResourceTracker.trackResource id rt u w)
                 (ResourceTracker.accumulate m u)
                 (trackResource_same w id rt u m Hm) Hpos)
      as (m' & Hget & He & Hem & Hn & Hio & Hme & Ha' & Hh').
    exists m'. split; [exact Hget|].
    split; [rewrite He; apply add_fold_proper, accumulate_energy|].
    split; [rewrite Hem; apply add_fold_proper, accumulate_emissions|].
    split; [rewrite Hn; apply add_fold_proper, accumulate_networkCalls|].
    split; [rewrite Hio; apply add_fold_proper, accumulate_ioOperations|].
    split; [rewrite Hme; apply max_fold_proper; exact Hmax|].
    split; [rewrite Ha'; exact Ha | rewrite Hh'; exact Hh].
Qed.

End Lifecycle.

(** C6.  One [trackResource] on a known id replaces its accumulator by the
    old one with [energy], [emissions], [networkCalls] and [ioOperations]
    summed and [memory] raised to the maximum.  After [startContext], any
    sequence of [trackResource] calls on the id leaves an accumulator whose
    additive fields are the sums over the sequence and whose memory is the
    running maximum, and [endContext] returns that accumulator. *)
Theorem trackResource_sums_and_endContext_returns_total
    (w : Runtime.World) (id : string) (c : Runtime.ref) (ctx : Runtime.SDGContext)
    (us : list (string * Core.ResourceMetrics)) :
  Runtime.heap w !! c = Some ctx ->
  let w1 := Runtime.ResourceTracker.startContext id c w in
  let w2 := fold_left (fun w '(rt, u) => Runtime.ResourceTracker.trackResource id rt u w)
                      us w1 in
  (forall w0 rt u m,
     Runtime.ResourceTracker.getCurrentMetrics id w0 = Some m ->
     Runtime.ResourceTracker.getCurrentMetrics id
       (Runtime.ResourceTracker.trackResource id rt u w0)
       = Some (Runtime.ResourceTracker.accumulate m u) /\
     JS.the (Core.energy (Runtime.ResourceTracker.accumulate m u))
       == JS.the (Core.energy m) + JS.the (Core.energy u) /\
     JS.the (Core.emissions (Runtime.ResourceTracker.accumulate m u))
       == JS.the (Core.emissions m) + JS.the (Core.emissions u) /\
     JS.the (Core.networkCalls (Runtime.ResourceTracker.accumulate m u))
       == JS.the (Core.networkCalls m) + JS.the (Core.networkCalls u) /\
     JS.the (Core.ioOperations (Runtime.ResourceTracker.accumulate m u))
       == JS.the (Core.ioOperations m) + JS.the (Core.ioOperations u) /\
     (0 <= JS.the (Core.memory m) ->
      JS.the (Core.memory (Runtime.ResourceTracker.accumulate m u))
        == JS.max (JS.the (Core.memory m)) (JS.the (Core.memory u)))) /\
  exists m,
    fst (Runtime.ResourceTracker.endContext id w2) = Some m /\
    Runtime.ResourceTracker.getCurrentMetrics id w2 = Some m /\
    JS.the (Core.energy m) == Spec.total Core.energy (map snd us) /\
    JS.the (Core.emissions m) == Spec.total Core.emissions (map snd us) /\
    JS.the (Core.networkCalls m) == Spec.total Core.networkCalls (map snd us) /\
    JS.the (Core.ioOperations m) == Spec.total Core.ioOperations (map snd us) /\
    JS.the (Core.memory m) == Spec.peak Core.memory (map snd us).
Proof.
  intros Hc w1 w2. split.
  - intros w0 rt u m Hm. unfold Runtime.ResourceTracker.getCurrentMetrics in *.
    split; [apply trackResource_same; exact Hm|].
    split; [apply accumulate_energy|].
    split; [apply accumulate_emissions|].
    split; [apply accumulate_networkCalls|].
    split; [apply accumulate_ioOperations|].
    intros Hpos. apply accumulate_memory. exact Hpos.
  - destruct (startContext_effect w id c) as (Hh1 & Ha1 & Hm1 & _).
    fold w1 in Hh1, Ha1, Hm1.
    assert (Hget : JSMap.get id (Runtime.metrics w1) = Some Core.initialMetrics)
      by (rewrite Hm1; apply get_set_eq).
    destruct (trackResource_run id us w1 Core.initialMetrics Hget)
      as (m & Hm & He & Hem & Hn & Hio & Hmem & Ha2 & Hh2); [simpl; lra|].
    fold w2 in Hm, Ha2, Hh2.
    assert (Hactive : JSMap.get id (Runtime.activeContexts w2) = Some c)
      by (rewrite Ha2, Ha1; apply get_set_eq).
    assert (Hheap : Runtime.heap w2 !! c
                    = Some (Runtime.set_startTime
                              (Some (Runtime.clock w (Runtime.ticks w))) ctx))
      by (rewrite Hh2, Hh1, list_lookup_alter_eq, Hc; reflexivity).
    destruct (endContext_known w2 id c m _ Hactive Hm Hheap) as (Hret & _).
    exists m. repeat split; assumption.
Qed.

(** Scenario C: start, two updates of 0.2 and 0.3 kWh, end. *)
Lemma trackResource_sums_and_endContext_returns_total_witness :
  let w := snd (Runtime.newContext (Samples.context None) Samples.initialWorld) in
  let w1 := Runtime.ResourceTracker.startContext "c1" O w in
  let w3 := fold_left (fun w '(rt, u) => Runtime.ResourceTracker.trackResource "c1" rt u w)
              [("work"%string, Core.set_energy (Some (2 # 10)) Samples.noUsage);
               ("work"%string, Core.set_energy (Some (3 # 10)) Samples.noUsage)] w1 in
  exists m,
    fst (Runtime.ResourceTracker.endContext "c1" w3) = Some m /\
    JS.the (Core.energy m) == 5 # 10.
Proof.
  intros w w1 w3.
  destruct (trackResource_sums_and_endContext_returns_total
              w "c1" O (Samples.context None)
              [("work"%string, Core.set_energy (Some (2 # 10)) Samples.noUsage);
               ("work"%string, Core.set_energy (Some (3 # 10)) Samples.noUsage)]
              eq_refl)
    as (_ & m & Hret & _ & He & _).
  exists m. split; [exact Hret|].
  rewrite He. reflexivity.
Defined.

(** ** Ending a context *)

Section EndContext.
Import Core Runtime.

Lemma contextBudgetExceeded_positive (ctx : SDGContext) (m : ResourceMetrics) (b : Q) :
  carbonBudget ctx = Some b -> 0 < b ->
  Spec.contextBudgetExceeded ctx m = JS.gt (energy m) (Some b).
Proof.
  intros Hb Hpos. unfold Spec.contextBudgetExceeded. rewrite Hb.
  assert (Ht : JS.truthy (Some b) = true) by (apply truthy_Some; lra).
  rewrite Ht. simpl andb. apply guarded_gt. lra.
Qed.

Lemma contextBudgetExceeded_zero (ctx : SDGContext) (m : ResourceMetrics) (b : Q) :
  carbonBudget ctx = Some b -> b == 0 -> Spec.contextBudgetExceeded ctx m = false.
Proof.
  intros Hb Hz. unfold Spec.contextBudgetExceeded. rewrite Hb. simpl.
  apply Qeq_bool_iff in Hz. rewrite Hz. reflexivity.
Qed.

End EndContext.

(** C7, as the code has it.  For an id held by the registry, [endContext]
    reads the clock for the duration; when the context's [carbonBudget] is
    present and non-zero and the accumulated energy is non-zero and above it
    (for a positive budget: exactly when the energy is above it), it emits
    [carbon_budget_exceeded] first; it then emits [context_ended] with the
    metrics and the duration, deletes the id from both maps, so that a
    lookup of the id finds nothing while other ids are untouched, and
    returns the accumulated metrics. *)
Theorem endContext_events_then_removal
    (w : Runtime.World) (id : string) (c : Runtime.ref) (m : Core.ResourceMetrics)
    (ctx : Runtime.SDGContext) :
  JSMap.get id (Runtime.activeContexts w) = Some c ->
  JSMap.get id (Runtime.metrics w) = Some m ->
  Runtime.heap w !! c = Some ctx ->
  let t0 := Runtime.ticks w in
  let duration := Runtime.clock w t0 - JS.or_else (Runtime.startTime ctx) 0 in
  let exceeded := Spec.contextBudgetExceeded ctx m in
  let w' := snd (Runtime.ResourceTracker.endContext id w) in
  fst (Runtime.ResourceTracker.endContext id w) = Some m /\
  Runtime.emitted w' = Runtime.emitted w ++
    (if exceeded then [Spec.exceededEvent id c m (Runtime.clock w (S t0))] else []) ++
    [Spec.endedEvent id c m duration
       (Runtime.clock w (if exceeded then S (S t0) else S t0))] /\
  Runtime.ResourceTracker.getCurrentMetrics id w' = None /\
  JSMap.get id (Runtime.activeContexts w') = None /\
  (forall id', id' <> id ->
     Runtime.ResourceTracker.getCurrentMetrics id' w'
       = Runtime.ResourceTracker.getCurrentMetrics id' w /\
     JSMap.get id' (Runtime.activeContexts w') = JSMap.get id' (Runtime.activeContexts w)) /\
  (forall b, Runtime.carbonBudget ctx = Some b -> 0 < b ->
     exceeded = JS.gt (Core.energy m) (Some b)) /\
  (forall b, Runtime.carbonBudget ctx = Some b -> b == 0 -> exceeded = false) /\
  (Runtime.carbonBudget ctx = None -> exceeded = false).
Proof.
  intros Ha Hm Hh t0 duration exceeded w'.
  destruct (endContext_known w id c m ctx Ha Hm Hh) as (Hret & Hev & Hac & Hme & _).
  fold w' in Hev, Hac, Hme. unfold Runtime.ResourceTracker.getCurrentMetrics.
  split; [exact Hret|]. split; [exact Hev|].
  split; [rewrite Hme; apply get_delete_eq|].
  split; [rewrite Hac; apply get_delete_eq|].
  split.
  { intros id' Hne. rewrite Hme, Hac. split; apply get_delete_ne; congruence. }
  split; [intros b; apply contextBudgetExceeded_positive|].
  split; [intros b; apply contextBudgetExceeded_zero|].
  intros Hnone. unfold exceeded, Spec.contextBudgetExceeded. rewrite Hnone. reflexivity.
Qed.

(** A context with a budget of 1 kWh that has used 1.5 kWh: both events, the
    budget event first, and the id is gone afterwards. *)
Lemma endContext_events_then_removal_witness :
  let w := snd (Runtime.newContext (Samples.context (Some 1)) Samples.initialWorld) in
  let w1 := Runtime.ResourceTracker.startContext "c1" O w in
  let w2 := Runtime.ResourceTracker.trackResource "c1" "work"
              (Core.set_energy (Some (15 # 10)) Samples.noUsage) w1 in
  let w3 := snd (Runtime.ResourceTracker.endContext "c1" w2) in
  map Runtime.TrackingEvent.type (Runtime.emitted w3)
    = [Runtime.context_started; Runtime.resource_tracked;
       Runtime.carbon_budget_exceeded; Runtime.context_ended] /\
  Runtime.ResourceTracker.getCurrentMetrics "c1" w3 = None.
Proof.
  intros w w1 w2 w3.
  assert (Ha : JSMap.get "c1" (Runtime.activeContexts w2) = Some O) by reflexivity.
  assert (Hh : Runtime.heap w2 !! O
               = Some (Runtime.set_startTime (Some (inject_Z 1000))
                         (Samples.context (Some 1)))) by reflexivity.
  destruct (Runtime.ResourceTracker.getCurrentMetrics "c1" w2) as [m|] eqn:Hm;
    [|vm_compute in Hm; discriminate Hm].
  destruct (endContext_events_then_removal w2 "c1" O m _ Ha Hm Hh)
    as (_ & Hev & Hgone & _).
  fold w3 in Hev, Hgone. split; [|exact Hgone].
  rewrite Hev. vm_compute in Hm. injection Hm as <-. vm_compute. reflexivity.
Defined.

(** C7 as stated fails for a declared budget of 0: the accumulated energy
    0.5 exceeds it, yet [endContext] emits [context_ended] alone. *)
Lemma endContext_zero_budget_no_event :
  let w := snd (Runtime.newContext (Samples.context (Some 0)) Samples.initialWorld) in
  let w1 := Runtime.ResourceTracker.startContext "c1" O w in
  let w2 := Runtime.ResourceTracker.trackResource "c1" "work"
              (Core.set_energy (Some (5 # 10)) Samples.noUsage) w1 in
  let w3 := snd (Runtime.ResourceTracker.endContext "c1" w2) in
  (exists ctx m,
     Runtime.heap w2 !! O = Some ctx /\
     Runtime.ResourceTracker.getCurrentMetrics "c1" w2 = Some m /\
     Runtime.carbonBudget ctx = Some 0 /\
     Spec.contextBudgetExceeded_spec ctx m = true) /\
  map Runtime.TrackingEvent.type (Runtime.emitted w3)
    = [Runtime.context_started; Runtime.resource_tracked; Runtime.context_ended].
Proof.
  cbv zeta. split.
  - eexists _, _. repeat split; vm_compute; reflexivity.
  - vm_compute. reflexivity.
Qed.

(** ** The broadcast *)

Section Broadcast.
Import Core Runtime.

Lemma broadcast_fold (l : list (string * ref)) (rt : string) (u : ResourceMetrics)
    (w : World) :
  NoDup (map fst l) ->
  let w' := fold_left (fun w '(contextId, _) =>
                         ResourceTracker.trackResource contextId rt u w) l w in
  (forall id m, In id (map fst l) -> JSMap.get id (metrics w) = Some m ->
     JSMap.get id (metrics w') = Some (ResourceTracker.accumulate m u)) /\
  (forall id, ~ In id (map fst l) -> JSMap.get id (metrics w') = JSMap.get id (metrics w)) /\
  activeContexts w' = activeContexts w /\ heap w' = heap w.
Proof.
  revert w. induction l as [|[k r] l IH]; intros w Hnd; simpl.
  - repeat split. intros id m [].
  - apply NoDup_cons in Hnd as [Hk Hnd]. rewrite list_elem_of_In in Hk.
    destruct (IH (ResourceTracker.trackResource k rt u w) Hnd)
      as (Hin & Hout & Ha & Hh).
    destruct (trackResource_frame w k rt u) as (Ha0 & Hh0 & _).
    repeat split.
    + intros id m [<-|Hid] Hm.
      * rewrite (Hout k Hk). apply trackResource_same. exact Hm.
      * apply Hin; [exact Hid|].
        rewrite trackResource_other; [exact Hm|].
        intros ->. contradiction.
    + intros id Hid. rewrite Hout by (intros I; apply Hid; right; exact I).
      apply trackResource_other. intros ->. apply Hid. left. reflexivity.
    + rewrite Ha. exact Ha0.
    + rewrite Hh. exact Hh0.
Qed.

Lemma trackResource_keeps_accumulators (w : World) (k id rt : string) (u : ResourceMetrics) :
  is_Some (JSMap.get id (metrics w)) ->
  is_Some (JSMap.get id (metrics (ResourceTracker.trackResource k rt u w))).
Proof.
  intros [m Hm]. destruct (String.eqb_spec k id) as [->|Hne].
  - exists (ResourceTracker.accumulate m u). apply trackResource_same. exact Hm.
  - exists m. rewrite trackResource_other; [exact Hm | exact Hne].
Qed.

(** One [resource_tracked] event per listed id, in the order of the list. *)
Lemma broadcast_events (l : list (string * ref)) (rt : string) (u : ResourceMetrics)
    (w : World) :
  (forall id, In id (map fst l) -> is_Some (JSMap.get id (metrics w))) ->
  map TrackingEvent.contextId
      (emitted (fold_left (fun w '(contextId, _) =>
                             ResourceTracker.trackResource contextId rt u w) l w))
  = map TrackingEvent.contextId (emitted w) ++ map fst l.
Proof.
  revert w. induction l as [|[k r] l IH]; intros w Hall; simpl.
  - rewrite app_nil_r. reflexivity.
  - rewrite IH.
    + destruct (Hall k (or_introl eq_refl)) as [m Hm].
      destruct (trackResource_known w k rt u m Hm) as (_ & Hev & _).
      rewrite Hev, map_app, <- app_assoc. reflexivity.
    + intros id Hid. apply trackResource_keeps_accumulators.
      apply Hall. right. exact Hid.
Qed.

End Broadcast.

(** C9.  The module function [trackResource] runs the per-id
    [trackResource] once for every id in the copy of [activeContexts] taken
    at the call, in insertion order: every active id with an accumulator
    gets the usage merged in exactly once, ids that are not active keep
    their accumulator, the set of active contexts is unchanged, and the
    [resource_tracked] events come out in the order of the copy. *)
Theorem broadcast_trackResource_reaches_every_active_context
    (w : Runtime.World) (resourceType : string) (usage : Core.ResourceMetrics) :
  NoDup (JSMap.keys (Runtime.activeContexts w)) ->
  let w' := Runtime.trackResource resourceType usage w in
  w' = fold_left (fun w id => Runtime.ResourceTracker.trackResource id resourceType usage w)
                 (JSMap.keys (Runtime.ResourceTracker.getActiveContexts w)) w /\
  (forall id m,
     In id (JSMap.keys (Runtime.ResourceTracker.getActiveContexts w)) ->
     Runtime.ResourceTracker.getCurrentMetrics id w = Some m ->
     Runtime.ResourceTracker.getCurrentMetrics id w'
       = Some (Runtime.ResourceTracker.accumulate m usage) /\
     JS.the (Core.networkCalls (Runtime.ResourceTracker.accumulate m usage))
       == JS.the (Core.networkCalls m) + JS.the (Core.networkCalls usage)) /\
  (forall id,
     ~ In id (JSMap.keys (Runtime.ResourceTracker.getActiveContexts w)) ->
     Runtime.ResourceTracker.getCurrentMetrics id w'
       = Runtime.ResourceTracker.getCurrentMetrics id w) /\
  Runtime.ResourceTracker.getActiveContexts w'
    = Runtime.ResourceTracker.getActiveContexts w /\
  ((forall id, In id (JSMap.keys (Runtime.ResourceTracker.getActiveContexts w)) ->
               is_Some (Runtime.ResourceTracker.getCurrentMetrics id w)) ->
   map Runtime.TrackingEvent.contextId (Runtime.emitted w')
   = map Runtime.TrackingEvent.contextId (Runtime.emitted w)
     ++ JSMap.keys (Runtime.ResourceTracker.getActiveContexts w)).
Proof.
  intros Hnd w'. unfold Runtime.ResourceTracker.getCurrentMetrics,
    Runtime.ResourceTracker.getActiveContexts, JSMap.keys in *.
  destruct (broadcast_fold (Runtime.activeContexts w) resourceType usage w Hnd)
    as (Hin & Hout & Ha & _).
  split.
  { subst w'. unfold Runtime.trackResource, Runtime.ResourceTracker.getActiveContexts.
    generalize (Runtime.activeContexts w) as l. generalize w as w0.
    intros w0 l. revert w0. induction l as [|[k r] l IH]; intros w0; simpl.
    - reflexivity.
    - apply IH. }
  split.
  { intros id m Hid Hm. split; [apply Hin; assumption|].
    apply accumulate_networkCalls. }
  split; [exact Hout|]. split; [exact Ha|].
  intros Hall. apply broadcast_events. exact Hall.
Qed.

(** Scenario E: contexts a and b active, one broadcast of one network
    call. *)
Lemma broadcast_trackResource_reaches_every_active_context_witness :
  let w0 := snd (Runtime.newContext (Samples.context None)
              (snd (Runtime.newContext (Samples.context None) Samples.initialWorld))) in
  let w := Runtime.ResourceTracker.startContext "b" 1%nat
             (Runtime.ResourceTracker.startContext "a" 0%nat w0) in
  let w' := Runtime.trackResource "network"
              (Core.set_networkCalls (Some 1) Samples.noUsage) w in
  (exists ma, Runtime.ResourceTracker.getCurrentMetrics "a" w' = Some ma /\
              JS.the (Core.networkCalls ma) == 0 + 1) /\
  (exists mb, Runtime.ResourceTracker.getCurrentMetrics "b" w' = Some mb /\
              JS.the (Core.networkCalls mb) == 0 + 1).
Proof.
  intros w0 w w'.
  assert (Hnd : NoDup (JSMap.keys (Runtime.activeContexts w))).
  { change (NoDup ["a"%string; "b"%string]).
    apply NoDup_cons. split; [|apply NoDup_singleton].
    intros H. apply list_elem_of_In in H. destruct H as [H|[]]. discriminate H. }
  destruct (broadcast_trackResource_reaches_every_active_context w "network"
              (Core.set_networkCalls (Some 1) Samples.noUsage) Hnd)
    as (_ & Hin & _).
  fold w' in Hin. split.
  - destruct (Hin "a"%string Core.initialMetrics) as [Hget Hsum];
      [left; reflexivity | reflexivity |].
    eexists. split; [exact Hget|]. rewrite Hsum. reflexivity.
  - destruct (Hin "b"%string Core.initialMetrics) as [Hget Hsum];
      [right; left; reflexivity | reflexivity |].
    eexists. split; [exact Hget|]. rewrite Hsum. reflexivity.
Defined.

(** ** The caller's context object *)

Section Aliasing.
Import Core Runtime.

Lemma broadcast_frame (rt : string) (u : ResourceMetrics) (w : World) :
  activeContexts (Runtime.trackResource rt u w) = activeContexts w /\
  heap (Runtime.trackResource rt u w) = heap w.
Proof.
  unfold Runtime.trackResource, ResourceTracker.getActiveContexts.
  generalize (activeContexts w) at 1 3 as l. intros l. revert w.
  induction l as [|[k r] l IH]; intros w; simpl; [split; reflexivity|].
  destruct (IH (ResourceTracker.trackResource k rt u w)) as [Ha Hh].
  destruct (trackResource_frame w k rt u) as (Ha0 & Hh0 & _).
  split; [rewrite Ha; exact Ha0 | rewrite Hh; exact Hh0].
Qed.

Lemma endContext_frame (id : string) (w : World) :
  (activeContexts (snd (ResourceTracker.endContext id w)) = activeContexts w \/
   activeContexts (snd (ResourceTracker.endContext id w))
     = JSMap.delete id (activeContexts w)) /\
  heap (snd (ResourceTracker.endContext id w)) = heap w.
Proof.
  unfold ResourceTracker.endContext.
  destruct (JSMap.get id (activeContexts w)) as [c|]; [|split; [left|]; reflexivity].
  destruct (JSMap.get id (metrics w)) as [m|]; [|split; [left|]; reflexivity].
  destruct (heap w !! c) as [ctx|]; [|split; [left|]; reflexivity].
  cbv zeta.
  destruct (JS.truthy (carbonBudget ctx) && JS.truthy (energy m) &&
            JS.gt (energy m) (carbonBudget ctx)); simpl; split; try reflexivity;
    right; reflexivity.
Qed.

(** An operation that neither starts nor ends [id] leaves its registry
    entry pointing at the same object. *)
Lemma step_keeps_entry (id : string) (c : ref) (op : Op) (w : World) :
  touches id op = false ->
  JSMap.get id (activeContexts w) = Some c ->
  JSMap.get id (activeContexts (step w op)) = Some c.
Proof.
  intros Ht Hget. destruct op as [c0|r f|id' c'|id' rt u|rt u|id']; simpl in *.
  - exact Hget.
  - exact Hget.
  - rewrite get_set_ne; [exact Hget|].
    intros ->. rewrite String.eqb_refl in Ht. discriminate.
  - destruct (trackResource_frame w id' rt u) as (Ha & _). rewrite Ha. exact Hget.
  - destruct (broadcast_frame rt u w) as [Ha _]. rewrite Ha. exact Hget.
  - destruct (endContext_frame id' w) as [[Ha|Ha] _]; rewrite Ha; [exact Hget|].
    rewrite get_delete_ne; [exact Hget|].
    intros ->. rewrite String.eqb_refl in Ht. discriminate.
Qed.

Lemma run_keeps_entry (id : string) (c : ref) (ops : list Op) (w : World) :
  forallb (fun op => negb (touches id op)) ops = true ->
  JSMap.get id (activeContexts w) = Some c ->
  JSMap.get id (activeContexts (run ops w)) = Some c.
Proof.
  revert w. induction ops as [|op ops IH]; intros w Hall Hget; simpl in *.
  - exact Hget.
  - apply andb_true_iff in Hall as [Hop Hall].
    apply IH; [exact Hall|].
    apply step_keeps_entry; [|exact Hget].
    apply negb_true_iff. exact Hop.
Qed.

End Aliasing.

(** C10.  [startContext] writes the clock reading into the [startTime] of
    the object the caller passed, in place: the store has no new object, no
    other object changes, and the registry holds the caller's reference.
    The entry keeps that reference through every later operation that
    neither ends nor restarts the id, so a later assignment by the caller to
    its object is what the registry sees. *)
Theorem startContext_aliases_callers_object
    (w : Runtime.World) (id : string) (c : Runtime.ref) (ctx : Runtime.SDGContext) :
  Runtime.heap w !! c = Some ctx ->
  let now := Runtime.clock w (Runtime.ticks w) in
  let w' := Runtime.ResourceTracker.startContext id c w in
  JSMap.get id (Runtime.activeContexts w') = Some c /\
  Runtime.heap w' !! c = Some (Runtime.set_startTime (Some now) ctx) /\
  length (Runtime.heap w') = length (Runtime.heap w) /\
  (forall r, r <> c -> Runtime.heap w' !! r = Runtime.heap w !! r) /\
  (forall ops,
     forallb (fun op => negb (Runtime.touches id op)) ops = true ->
     JSMap.get id (Runtime.activeContexts (Runtime.run ops w')) = Some c) /\
  (forall f,
     JSMap.get id (Runtime.activeContexts (Runtime.assignContext c f w')) = Some c /\
     Runtime.heap (Runtime.assignContext c f w') !! c
       = Some (f (Runtime.set_startTime (Some now) ctx))).
Proof.
  intros Hc now w'.
  destruct (startContext_effect w id c) as (Hh & Ha & _). fold w' in Hh, Ha.
  assert (Hget : JSMap.get id (Runtime.activeContexts w') = Some c)
    by (rewrite Ha; apply get_set_eq).
  assert (Hcell : Runtime.heap w' !! c = Some (Runtime.set_startTime (Some now) ctx))
    by (rewrite Hh, list_lookup_alter_eq, Hc; reflexivity).
  split; [exact Hget|]. split; [exact Hcell|].
  split; [rewrite Hh; apply length_alter|].
  split; [intros r Hr; rewrite Hh; apply list_lookup_alter_ne; congruence|].
  split; [intros ops Hops; apply run_keeps_entry; assumption|].
  intros f. split; [exact Hget|].
  unfold Runtime.assignContext. cbn [Runtime.heap Runtime.set_heap].
  rewrite list_lookup_alter_eq, Hcell. reflexivity.
Qed.

Lemma startContext_aliases_callers_object_witness :
  let w := snd (Runtime.newContext (Samples.context (Some 1)) Samples.initialWorld) in
  let w' := Runtime.ResourceTracker.startContext "c1" O w in
  JSMap.get "c1" (Runtime.activeContexts w') = Some O /\
  Runtime.startTime <$> Runtime.heap w' !! O = Some (Some (inject_Z 1000)) /\
  length (Runtime.heap w') = 1%nat.
Proof.
  intros w w'.
  destruct (startContext_aliases_callers_object w "c1" O (Samples.context (Some 1)) eq_refl)
    as (Hget & Hcell & Hlen & _).
  fold w' in Hget, Hcell, Hlen.
  split; [exact Hget|]. split; [rewrite Hcell; reflexivity | rewrite Hlen; reflexivity].
Defined.

(** The caller lowers the budget of its object after the context has
    started; [endContext] reads the lowered budget through the registry. *)
Example caller_assignment_is_seen :
  let w := snd (Runtime.newContext (Samples.context (Some 10)) Samples.initialWorld) in
  let ops_keep :=
    [Runtime.OpStart "c1" O;
     Runtime.OpTrack "c1" "work" (Core.set_energy (Some 2) Samples.noUsage);
     Runtime.OpEnd "c1"] in
  let ops_lower :=
    [Runtime.OpStart "c1" O;
     Runtime.OpAssign O (Runtime.set_carbonBudget (Some 1));
     Runtime.OpTrack "c1" "work" (Core.set_energy (Some 2) Samples.noUsage);
     Runtime.OpEnd "c1"] in
  map Runtime.TrackingEvent.type (Runtime.emitted (Runtime.run ops_keep w))
    = [Runtime.context_started; Runtime.resource_tracked; Runtime.context_ended] /\
  map Runtime.TrackingEvent.type (Runtime.emitted (Runtime.run ops_lower w))
    = [Runtime.context_started; Runtime.resource_tracked;
       Runtime.carbon_budget_exceeded; Runtime.context_ended].
Proof. split; vm_compute; reflexivity. Qed.

(** ** Reachable registries are well formed *)

Section WellFormed.
Import Core Runtime.

Lemma keys_delete_In {V : Type} (m : JSMap.t V) (k k' : string) :
  In k' (JSMap.keys (JSMap.delete k m)) -> In k' (JSMap.keys m).
Proof.
  induction m as [|[k0 v0] m IH]; simpl; [intros []|].
  destruct (String.eqb k k0); simpl.
  - intros H. right. apply IH. exact H.
  - intros [H|H]; [left; exact H | right; apply IH; exact H].
Qed.

Lemma keys_delete_NoDup {V : Type} (m : JSMap.t V) (k : string) :
  NoDup (JSMap.keys m) -> NoDup (JSMap.keys (JSMap.delete k m)).
Proof.
  induction m as [|[k0 v0] m IH]; simpl; [intros H; exact H|].
  intros H. apply NoDup_cons in H as [Hk H]. rewrite list_elem_of_In in Hk.
  destruct (String.eqb k k0); simpl; [apply IH; exact H|].
  apply NoDup_cons. split; [|apply IH; exact H].
  rewrite list_elem_of_In. intros I. apply Hk. apply (keys_delete_In m k). exact I.
Qed.

Lemma trackResource_wellFormed (id rt : string) (u : ResourceMetrics) (w : World) :
  Spec.wellFormed w -> Spec.wellFormed (ResourceTracker.trackResource id rt u w).
Proof.
  intros [Ha Hm]. unfold Spec.wellFormed, ResourceTracker.trackResource.
  destruct (JSMap.get id (metrics w)); simpl; split; try assumption.
  apply keys_set_NoDup. exact Hm.
Qed.

Lemma step_wellFormed (op : Op) (w : World) :
  Spec.wellFormed w -> Spec.wellFormed (step w op).
Proof.
  intros Hw. destruct op as [c0|r f|id c|id rt u|rt u|id]; simpl.
  - exact Hw.
  - exact Hw.
  - destruct Hw as [Ha Hm]. split; simpl; apply keys_set_NoDup; assumption.
  - apply trackResource_wellFormed. exact Hw.
  - unfold Runtime.trackResource.
    generalize (ResourceTracker.getActiveContexts w) as l. intros l.
    revert w Hw. induction l as [|[k r] l IH]; intros w Hw; simpl; [exact Hw|].
    apply IH. apply trackResource_wellFormed. exact Hw.
  - destruct Hw as [Ha Hm]. unfold ResourceTracker.endContext.
    destruct (JSMap.get id (activeContexts w)) as [c|]; [|split; assumption].
    destruct (JSMap.get id (metrics w)) as [m|]; [|split; assumption].
    destruct (heap w !! c) as [ctx|]; [|split; assumption].
    cbv zeta.
    destruct (JS.truthy (carbonBudget ctx) && JS.truthy (energy m) &&
              JS.gt (energy m) (carbonBudget ctx)); simpl;
      split; simpl; apply keys_delete_NoDup; assumption.
Qed.

(** Every registry a program can reach from a fresh process lists each id
    once, which is what the broadcast needs. *)
Lemma run_wellFormed (ops : list Op) (w : World) :
  Spec.wellFormed w -> Spec.wellFormed (run ops w).
Proof.
  revert w. induction ops as [|op ops IH]; intros w Hw; simpl; [exact Hw|].
  apply IH. apply step_wellFormed. exact Hw.
Qed.

Lemma initialWorld_wellFormed : Spec.wellFormed Samples.initialWorld.
Proof. split; apply NoDup_nil; exact I. Qed.

End WellFormed.

(** ** Emissions and energy *)

Section Emissions.
Import Core Runtime.

Lemma analyzeFunction_emissions (log10 : Q -> Q) (body : TsMorph.Node) :
  Spec.emissionsInvariant (ResourceAnalyzer.analyzeFunction log10 body).
Proof.
  destruct (analyzeFunction_fields log10 body)
    as (e & em & n & io & c & He & Hem & _ & _ & _ & _ & _ & _ & _ & _ & Hv).
  unfold Spec.emissionsInvariant. rewrite He, Hem. exact Hv.
Qed.

End Emissions.

(** C1, as the code has it.  Every metrics object [analyzeFunction] returns
    satisfies emissions = energy * 500, and so does the accumulator
    [startContext] creates.  [trackResource] does not keep the equation:
    it adds the energy of an update to the energy and the emissions of the
    update to the emissions, each on its own (an absent field counting as
    0), and derives neither from the other. *)
Theorem emissions_equation
    (log10 : Q -> Q) (body : TsMorph.Node)
    (w : Runtime.World) (id resourceType : string) (m usage : Core.ResourceMetrics) :
  Spec.emissionsInvariant (ResourceAnalyzer.analyzeFunction log10 body) /\
  Spec.emissionsInvariant Core.initialMetrics /\
  (Runtime.ResourceTracker.getCurrentMetrics id w = Some m ->
   exists m',
     Runtime.ResourceTracker.getCurrentMetrics id
       (Runtime.ResourceTracker.trackResource id resourceType usage w) = Some m' /\
     JS.the (Core.energy m') == JS.the (Core.energy m) + JS.the (Core.energy usage) /\
     JS.the (Core.emissions m')
       == JS.the (Core.emissions m) + JS.the (Core.emissions usage)).
Proof.
  split; [apply analyzeFunction_emissions|].
  split; [unfold Spec.emissionsInvariant; simpl; lra|].
  intros Hget. exists (Runtime.ResourceTracker.accumulate m usage).
  split.
  - unfold Runtime.ResourceTracker.getCurrentMetrics in *.
    apply trackResource_same. exact Hget.
  - split; [apply accumulate_energy | apply accumulate_emissions].
Qed.

(** An update that reports 0.8 kWh and 400 g on a fresh accumulator. *)
Lemma emissions_equation_witness :
  let w := Runtime.ResourceTracker.startContext "c1" O
             (snd (Runtime.newContext (Samples.context None) Samples.initialWorld)) in
  let usage := Core.set_emissions (Some 400)
                 (Core.set_energy (Some (8 # 10)) Samples.noUsage) in
  Spec.emissionsInvariant
    (ResourceAnalyzer.analyzeFunction Samples.log10 Samples.busyBody) /\
  exists m',
    Runtime.ResourceTracker.getCurrentMetrics "c1"
      (Runtime.ResourceTracker.trackResource "c1" "computation" usage w) = Some m' /\
    JS.the (Core.energy m') == 0 + (8 # 10) /\
    JS.the (Core.emissions m') == 0 + 400.
Proof.
  intros w usage.
  destruct (emissions_equation Samples.log10 Samples.busyBody w "c1" "computation"
              Core.initialMetrics usage) as (Hstatic & Hinit & Htrack).
  split; [exact Hstatic|].
  destruct (Htrack eq_refl) as (m' & Hget & He & Hem).
  exists m'. split; [exact Hget|]. split; [exact He | exact Hem].
Defined.

(** C1 as stated fails in the tracker: after one update [{energy: 0.2}] the
    accumulator has energy 0.2 and emissions 0, not 100. *)
Lemma trackResource_breaks_emissions_equation :
  let w := Runtime.ResourceTracker.startContext "c1" O
             (snd (Runtime.newContext (Samples.context None) Samples.initialWorld)) in
  let w' := Runtime.ResourceTracker.trackResource "c1" "work"
              (Core.set_energy (Some (2 # 10)) Samples.noUsage) w in
  exists m,
    Runtime.ResourceTracker.getCurrentMetrics "c1" w' = Some m /\
    JS.the (Core.energy m) == 2 # 10 /\
    JS.the (Core.emissions m) == 0 /\
    ~ Spec.emissionsInvariant m.
Proof.
  cbv zeta. eexists. split; [vm_compute; reflexivity|].
  split; [vm_compute; reflexivity|].
  split; [vm_compute; reflexivity|].
  vm_compute. intros H. discriminate H.
Qed.

(** ** Loop count against nesting depth *)

Section NestingDepth.
Import TsMorph.

Lemma Node_ind' (P : Node -> Prop) :
  (forall k t cs, Forall P cs -> P (mkNode k t cs)) -> forall n, P n.
Proof.
  intros H. fix IH 1. intros [k t cs]. apply H.
  induction cs as [|c cs IHcs]; constructor; [apply IH | exact IHcs].
Qed.

Lemma filter_length_app (p : Node -> bool) (l l' : list Node) :
  length (List.filter p (l ++ l')) =
  (length (List.filter p l) + length (List.filter p l'))%nat.
Proof. rewrite List.filter_app, length_app. reflexivity. Qed.

Lemma nestingDepth_le_loops (n : Node) :
  (Spec.nestingDepth n <= length (List.filter Spec.isLoop (preorder n)))%nat.
Proof.
  induction n as [k t cs IH] using Node_ind'.
  assert (Hcs : (list_max (map Spec.nestingDepth cs)
                 <= length (List.filter Spec.isLoop (flat_map preorder cs)))%nat).
  { induction IH as [|c cs Hc _ IHcs]; simpl; [lia|].
    rewrite filter_length_app. lia. }
  cbn [Spec.nestingDepth preorder List.filter].
  destruct (Spec.isLoop (mkNode k t cs)); cbn [length]; lia.
Qed.

(** The exponent [analyzeLoops] uses is never below the nesting depth. *)
Lemma maxNestingDepth_le_count (body : Node) :
  (Spec.maxNestingDepth body <= Spec.count Spec.isLoop body)%nat.
Proof.
  unfold Spec.maxNestingDepth, Spec.count, descendants.
  induction (getChildren body) as [|c cs IH]; simpl; [lia|].
  rewrite filter_length_app. pose proof (nestingDepth_le_loops c). lia.
Qed.

End NestingDepth.

(** ** Number formatting on sample values *)

Example toFixed_1_5 : JS.toFixed 3 (15 # 10) = "1.500"%string.
Proof. vm_compute. reflexivity. Qed.

Example toFixed_rounds_half_up : JS.toFixed 3 (12345 # 10000) = "1.235"%string.
Proof. vm_compute. reflexivity. Qed.

Example toFixed_small : JS.toFixed 3 (1 # 100) = "0.010"%string.
Proof. vm_compute. reflexivity. Qed.

Example toString_integer : JS.toString 1 = "1"%string.
Proof. vm_compute. reflexivity. Qed.

Example toString_fraction : JS.toString (25 # 100) = "0.25"%string.
Proof. vm_compute. reflexivity. Qed.

Example includes_member : JS.includes "window.fetch" "fetch" = true.
Proof. reflexivity. Qed.

Example log10_thousand : Samples.log10 1000 == 3.
Proof. vm_compute. reflexivity. Qed.

(** * Further properties of the runtime tracker *)

Section RegistryRoundTrips.
Context {V : Type}.
Implicit Types (m : JSMap.t V) (k : string) (v : V).

Lemma get_Some_keys m k v : JSMap.get k m = Some v -> In k (JSMap.keys m).
Proof.
  intros H. destruct (in_dec String.string_dec k (JSMap.keys m)) as [I|I]; [exact I|].
  apply get_None_keys in I. congruence.
Qed.

Lemma keys_delete_filter m k :
  JSMap.keys (JSMap.delete k m)
  = List.filter (fun k' => negb (String.eqb k k')) (JSMap.keys m).
Proof.
  induction m as [|[k0 v0] m IH]; simpl; [reflexivity|].
  destruct (String.eqb k k0); simpl; rewrite IH; reflexivity.
Qed.

Lemma delete_absent m k : ~ In k (JSMap.keys m) -> JSMap.delete k m = m.
Proof.
  induction m as [|[k0 v0] m IH]; simpl; [reflexivity|].
  intros H. destruct (String.eqb_spec k k0) as [->|Hne].
  - exfalso. apply H. left. reflexivity.
  - rewrite IH; [reflexivity|]. intros I. apply H. right. exact I.
Qed.


Lemma get_delete_Some m k k' v :
  JSMap.get k' (JSMap.delete k m) = Some v -> k <> k' /\ JSMap.get k' m = Some v.
Proof.
  intros H. destruct (String.eqb_spec k k') as [->|Hne].
  - rewrite get_delete_eq in H. discriminate.
  - split; [exact Hne|]. rewrite get_delete_ne in H; assumption.
Qed.

End RegistryRoundTrips.

(** The keys after [set] depend on the keys before only. *)
Lemma keys_set_congr {V W : Type} (m : JSMap.t V) (m' : JSMap.t W) (k : string)
    (v : V) (v' : W) :
  JSMap.keys m = JSMap.keys m' ->
  JSMap.keys (JSMap.set k v m) = JSMap.keys (JSMap.set k v' m').
Proof.
  intros H. destruct (in_dec String.string_dec k (JSMap.keys m)) as [I|I].
  - rewrite !keys_set_present; [exact H| rewrite <- H; exact I | exact I].
  - rewrite !keys_set_absent; [rewrite H; reflexivity | rewrite <- H; exact I | exact I].
Qed.

(** X1.  Ending a context twice: the first [endContext] returns the
    accumulator, the second returns [null] and changes nothing, not even the
    clock. *)
Theorem endContext_twice
    (w : Runtime.World) (id : string) (c : Runtime.ref) (m : Core.ResourceMetrics)
    (ctx : Runtime.SDGContext) :
  JSMap.get id (Runtime.activeContexts w) = Some c ->
  JSMap.get id (Runtime.metrics w) = Some m ->
  Runtime.heap w !! c = Some ctx ->
  let w' := snd (Runtime.ResourceTracker.endContext id w) in
  fst (Runtime.ResourceTracker.endContext id w) = Some m /\
  Runtime.ResourceTracker.endContext id w' = (None, w').
Proof.
  intros Ha Hm Hh w'.
  destruct (endContext_known w id c m ctx Ha Hm Hh) as (Hret & _ & Hac & _).
  split; [exact Hret|].
  apply endContext_unknown. left. fold w' in Hac. rewrite Hac. apply get_delete_eq.
Qed.

Lemma endContext_twice_witness :
  let w := Runtime.ResourceTracker.startContext "c1" O
             (snd (Runtime.newContext (Samples.context None) Samples.initialWorld)) in
  let w' := snd (Runtime.ResourceTracker.endContext "c1" w) in
  fst (Runtime.ResourceTracker.endContext "c1" w) = Some Core.initialMetrics /\
  fst (Runtime.ResourceTracker.endContext "c1" w') = None.
Proof.
  intros w w'.
  destruct (endContext_twice w "c1" O Core.initialMetrics
              (Runtime.set_startTime (Some (inject_Z 1000)) (Samples.context None))
              eq_refl eq_refl eq_refl) as [H1 H2].
  fold w' in H2. split; [exact H1 | rewrite H2; reflexivity].
Defined.



(** X3.  Starting a context under an id the registry already holds
    overwrites the entry like any other start: nothing is written to the
    console and the one event emitted is [context_started] for the new
    object.  The id now refers to the new object and its accumulator is the
    zero accumulator again, whatever had been accumulated; the id keeps its
    place in both maps and the entries of other ids are untouched. *)
Theorem startContext_overwrites_colliding_id
    (w : Runtime.World) (id : string) (c0 c : Runtime.ref) (m0 : Core.ResourceMetrics) :
  JSMap.get id (Runtime.activeContexts w) = Some c0 ->
  JSMap.get id (Runtime.metrics w) = Some m0 ->
  let w' := Runtime.ResourceTracker.startContext id c w in
  Runtime.console w' = Runtime.console w /\
  (exists timestamp,
     Runtime.emitted w' = Runtime.emitted w ++ [Spec.startedEvent id c timestamp]) /\
  JSMap.get id (Runtime.activeContexts w') = Some c /\
  Runtime.ResourceTracker.getCurrentMetrics id w' = Some Core.initialMetrics /\
  JSMap.keys (Runtime.activeContexts w') = JSMap.keys (Runtime.activeContexts w) /\
  JSMap.keys (Runtime.metrics w') = JSMap.keys (Runtime.metrics w) /\
  (forall id', id' <> id ->
     JSMap.get id' (Runtime.activeContexts w') = JSMap.get id' (Runtime.activeContexts w) /\
     Runtime.ResourceTracker.getCurrentMetrics id' w'
       = Runtime.ResourceTracker.getCurrentMetrics id' w).
Proof.
  intros Ha Hm w'.
  destruct (startContext_effect w id c) as (_ & Ha1 & Hm1 & He1 & Hc1 & _).
  fold w' in Ha1, Hm1, He1, Hc1.
  split; [exact Hc1|]. split; [eexists; exact He1|].
  unfold Runtime.ResourceTracker.getCurrentMetrics. rewrite Ha1, Hm1.
  split; [apply get_set_eq|]. split; [apply get_set_eq|].
  split; [apply keys_set_present; apply (get_Some_keys _ _ _ Ha)|].
  split; [apply keys_set_present; apply (get_Some_keys _ _ _ Hm)|].
  intros id' Hne. split; apply get_set_ne; congruence.
Qed.

Lemma startContext_overwrites_colliding_id_witness :
  let w0 := snd (Runtime.newContext (Samples.context None)
              (snd (Runtime.newContext (Samples.context None) Samples.initialWorld))) in
  let w := Runtime.ResourceTracker.trackResource "c1" "work"
             (Core.set_energy (Some 2) Samples.noUsage)
             (Runtime.ResourceTracker.startContext "c1" 0%nat w0) in
  let w' := Runtime.ResourceTracker.startContext "c1" 1%nat w in
  Runtime.console w' = Runtime.console w /\
  JSMap.get "c1" (Runtime.activeContexts w') = Some 1%nat /\
  Runtime.ResourceTracker.getCurrentMetrics "c1" w' = Some Core.initialMetrics.
Proof.
  intros w0 w w'.
  destruct (Runtime.ResourceTracker.getCurrentMetrics "c1" w) as [m0|] eqn:Hm0;
    [|vm_compute in Hm0; discriminate Hm0].
  destruct (startContext_overwrites_colliding_id w "c1" 0%nat 1%nat m0 eq_refl Hm0)
    as (Hc & _ & Ha & Hm & _).
  split; [exact Hc|]. split; [exact Ha | exact Hm].
Defined.

Section Synced.
Import Core Runtime.

Lemma keys_In_get {V : Type} (m : JSMap.t V) (k : string) :
  In k (JSMap.keys m) -> is_Some (JSMap.get k m).
Proof.
  intros I. destruct (JSMap.get k m) as [v|] eqn:E; [exists v; reflexivity|].
  apply get_None_keys in E. contradiction.
Qed.

Lemma trackResource_keys (id rt : string) (u : ResourceMetrics) (w : World) :
  JSMap.keys (metrics (ResourceTracker.trackResource id rt u w)) = JSMap.keys (metrics w).
Proof.
  unfold ResourceTracker.trackResource.
  destruct (JSMap.get id (metrics w)) as [m|] eqn:E; simpl; [|reflexivity].
  apply keys_set_present. apply (get_Some_keys _ _ _ E).
Qed.

Lemma trackResource_synced (id rt : string) (u : ResourceMetrics) (w : World) :
  Inv.synced w -> Inv.synced (ResourceTracker.trackResource id rt u w).
Proof.
  unfold Inv.synced. intros H.
  destruct (trackResource_frame w id rt u) as (Ha & _).
  rewrite Ha, trackResource_keys. exact H.
Qed.

Lemma step_synced (op : Op) (w : World) : Inv.synced w -> Inv.synced (step w op).
Proof.
  intros Hs. destruct op as [c0|r f|id c|id rt u|rt u|id]; simpl.
  - exact Hs.
  - exact Hs.
  - unfold Inv.synced in *. simpl. apply keys_set_congr. exact Hs.
  - apply trackResource_synced. exact Hs.
  - unfold Runtime.trackResource.
    generalize (ResourceTracker.getActiveContexts w) as l. intros l.
    revert w Hs. induction l as [|[k r] l IH]; intros w Hs; simpl; [exact Hs|].
    apply IH. apply trackResource_synced. exact Hs.
  - unfold Inv.synced in *. unfold ResourceTracker.endContext.
    destruct (JSMap.get id (activeContexts w)) as [c|]; [|exact Hs].
    destruct (JSMap.get id (metrics w)) as [m|]; [|exact Hs].
    destruct (heap w !! c) as [ctx|]; [|exact Hs].
    cbv zeta.
    destruct (JS.truthy (carbonBudget ctx) && JS.truthy (energy m) &&
              JS.gt (energy m) (carbonBudget ctx)); simpl;
      rewrite !keys_delete_filter, Hs; reflexivity.
Qed.


End Synced.

(** X4.  Whatever a program does with the tracker, starting from a registry
    whose two maps list the same ids in the same order (an empty registry
    for one), the maps [activeContexts] and [metrics] keep listing the same
    ids in the same order: an id has a context exactly when it has an
    accumulator. *)
Theorem registry_maps_stay_in_step (ops : list Runtime.Op) (w : Runtime.World) :
  Inv.synced w ->
  Inv.synced (Runtime.run ops w) /\
  (forall id,
     is_Some (JSMap.get id (Runtime.activeContexts (Runtime.run ops w))) <->
     is_Some (Runtime.ResourceTracker.getCurrentMetrics id (Runtime.run ops w))).
Proof.
  intros Hs.
  assert (H : Inv.synced (Runtime.run ops w)).
  { revert w Hs. induction ops as [|op ops IH]; intros w Hs; simpl; [exact Hs|].
    apply IH. apply step_synced. exact Hs. }
  split; [exact H|].
  intros id. unfold Runtime.ResourceTracker.getCurrentMetrics. split; intros [v Hv].
  - apply keys_In_get. rewrite <- H. apply (get_Some_keys _ _ _ Hv).
  - apply keys_In_get. rewrite H. apply (get_Some_keys _ _ _ Hv).
Qed.

Lemma registry_maps_stay_in_step_witness :
  let w := Runtime.run
             [Runtime.OpNew (Samples.context None);
              Runtime.OpStart "a" 0%nat;
              Runtime.OpStart "b" 0%nat;
              Runtime.OpTrack "a" "work" (Core.set_energy (Some 1) Samples.noUsage);
              Runtime.OpEnd "a"]
             Samples.initialWorld in
  JSMap.keys (Runtime.activeContexts w) = JSMap.keys (Runtime.metrics w).
Proof.
  intros w.
  exact (proj1 (registry_maps_stay_in_step _ Samples.initialWorld eq_refl)).
Defined.



Section Monotone.
Import Core Runtime.

Lemma max_ge_l (a b : Q) : a <= JS.max a b.
Proof. rewrite max_spec. apply Q.le_max_l. Qed.

Lemma trackResource_run_complexity (id : string) (us : list (string * ResourceMetrics))
    (w : World) (m : ResourceMetrics) :
  JSMap.get id (metrics w) = Some m ->
  exists m',
    JSMap.get id
      (metrics (fold_left (fun w '(rt, u) => ResourceTracker.trackResource id rt u w) us w))
    = Some m' /\
    computeComplexity m' = computeComplexity m.
Proof.
  revert w m. induction us as [|[rt u] us IH]; intros w m Hm; simpl.
  - exists m. split; [exact Hm | reflexivity].
  - destruct (IH _ _ (trackResource_same w id rt u m Hm)) as (m' & Hget & Hc).
    exists m'. split; [exact Hget|].
    rewrite Hc. apply accumulate_computeComplexity.
Qed.

End Monotone.

(** X6.  An update never lowers the peak memory of an accumulator and never
    touches its [computeComplexity], whatever the update contains; an
    additive field does not decrease when the update's figure for it is not
    negative.  So from [startContext] on, through any sequence of updates,
    the accumulator's [computeComplexity] stays 1. *)
Theorem accumulator_never_shrinks
    (w : Runtime.World) (id : string) (c : Runtime.ref)
    (us : list (string * Core.ResourceMetrics)) (m u : Core.ResourceMetrics) :
  0 <= JS.the (Core.memory m) ->
  (JS.the (Core.memory m) <= JS.the (Core.memory (Runtime.ResourceTracker.accumulate m u)) /\
   Core.computeComplexity (Runtime.ResourceTracker.accumulate m u)
     = Core.computeComplexity m /\
   (0 <= JS.the (Core.energy u) ->
    JS.the (Core.energy m) <= JS.the (Core.energy (Runtime.ResourceTracker.accumulate m u))) /\
   (0 <= JS.the (Core.emissions u) ->
    JS.the (Core.emissions m)
      <= JS.the (Core.emissions (Runtime.ResourceTracker.accumulate m u))) /\
   (0 <= JS.the (Core.networkCalls u) ->
    JS.the (Core.networkCalls m)
      <= JS.the (Core.networkCalls (Runtime.ResourceTracker.accumulate m u))) /\
   (0 <= JS.the (Core.ioOperations u) ->
    JS.the (Core.ioOperations m)
      <= JS.the (Core.ioOperations (Runtime.ResourceTracker.accumulate m u)))) /\
  exists m',
    Runtime.ResourceTracker.getCurrentMetrics id
      (fold_left (fun w '(rt, u) => Runtime.ResourceTracker.trackResource id rt u w) us
                 (Runtime.ResourceTracker.startContext id c w)) = Some m' /\
    Core.computeComplexity m' = Some 1.
Proof.
  intros Hmem. split.
  - destruct (accumulate_memory m u Hmem) as [Hmax _].
    split; [rewrite Hmax; apply max_ge_l|].
    split; [apply accumulate_computeComplexity|].
    split; [intros H; rewrite accumulate_energy; lra|].
    split; [intros H; rewrite accumulate_emissions; lra|].
    split; [intros H; rewrite accumulate_networkCalls; lra|].
    intros H; rewrite accumulate_ioOperations; lra.
  - destruct (startContext_effect w id c) as (_ & _ & Hm1 & _).
    destruct (trackResource_run_complexity id us
                (Runtime.ResourceTracker.startContext id c w) Core.initialMetrics)
      as (m' & Hget & Hc).
    { rewrite Hm1. apply get_set_eq. }
    exists m'. split; [exact Hget | exact Hc].
Qed.

Lemma accumulator_never_shrinks_witness :
  let m := Core.set_memory (Some 5) Core.initialMetrics in
  let u := {| Core.energy := None; Core.emissions := None; Core.memory := Some 3;
              Core.networkCalls := None; Core.ioOperations := None;
              Core.computeComplexity := Some 1000 |} in
  JS.the (Core.memory m) <= JS.the (Core.memory (Runtime.ResourceTracker.accumulate m u)) /\
  Core.computeComplexity (Runtime.ResourceTracker.accumulate m u) = Some 1.
Proof.
  intros m u.
  assert (Hm : 0 <= JS.the (Core.memory m)) by (vm_compute; discriminate).
  destruct (accumulator_never_shrinks Samples.initialWorld "c1" O [] m u Hm)
    as ((Hmem & Hc & _) & _).
  split; [exact Hmem | exact Hc].
Defined.

(** * Listeners *)

Section ListenerFacts.
Import Runtime Listeners.
Variable throwsOn : listenerRef -> TrackingEvent.t -> bool.

Lemma callListener_fold (event : TrackingEvent.t) (ls : list listenerRef) (b : Bus) :
  let b' := fold_left (callListener throwsOn event) ls b in
  listeners b' = listeners b /\
  delivered b' = delivered b ++ map (fun l => (l, event)) ls /\
  warnings b' = warnings b ++
    map (fun _ => "Error in tracking event listener:"%string)
        (List.filter (fun l => throwsOn l event) ls).
Proof.
  revert b. induction ls as [|l ls IH]; intros b; simpl.
  - rewrite !app_nil_r. repeat split.
  - destruct (IH (callListener throwsOn event b l)) as (Hl & Hd & Hw).
    rewrite Hl, Hd, Hw. unfold callListener.
    destruct (throwsOn l event); simpl; rewrite <- ?app_assoc; repeat split.
Qed.

Lemma inbox_app (l : listenerRef) (b : Bus) (ds : list (listenerRef * TrackingEvent.t)) :
  map snd (List.filter (fun d => Nat.eqb l (fst d)) (delivered b ++ ds))
  = inbox l b ++ map snd (List.filter (fun d => Nat.eqb l (fst d)) ds).
Proof. unfold inbox. rewrite List.filter_app, map_app. reflexivity. Qed.

(** Among the calls of one [emit], a listener of a duplicate-free set is
    called exactly once. *)
Lemma filter_one_delivery (l : listenerRef) (event : TrackingEvent.t)
    (ls : list listenerRef) :
  NoDup ls -> In l ls ->
  map snd (List.filter (fun d => Nat.eqb l (fst d)) (map (fun l' => (l', event)) ls))
  = [event].
Proof.
  induction ls as [|l0 ls IH]; intros Hnd Hin; [destruct Hin|].
  apply NoDup_cons in Hnd as [Hl0 Hnd]. rewrite list_elem_of_In in Hl0.
  simpl. destruct (Nat.eqb_spec l l0) as [->|Hne]; simpl.
  - f_equal. clear IH Hin. induction ls as [|l1 ls IH]; [reflexivity|].
    simpl. destruct (Nat.eqb_spec l0 l1) as [->|Hne].
    + exfalso. apply Hl0. left. reflexivity.
    + apply IH.
      * intros I. apply Hl0. right. exact I.
      * apply NoDup_cons in Hnd as [_ Hnd]. exact Hnd.
  - apply IH; [exact Hnd|]. destruct Hin as [E|I]; [congruence|exact I].
Qed.

Lemma filter_no_delivery (l : listenerRef) (event : TrackingEvent.t)
    (ls : list listenerRef) :
  ~ In l ls ->
  List.filter (fun d => Nat.eqb l (fst d)) (map (fun l' => (l', event)) ls) = [].
Proof.
  induction ls as [|l0 ls IH]; intros Hin; [reflexivity|].
  simpl. destruct (Nat.eqb_spec l l0) as [->|Hne].
  - exfalso. apply Hin. left. reflexivity.
  - apply IH. intros I. apply Hin. right. exact I.
Qed.

Lemma emit_effect (event : TrackingEvent.t) (b : Bus) :
  listeners (emit throwsOn event b) = listeners b /\
  delivered (emit throwsOn event b)
    = delivered b ++ map (fun l => (l, event)) (listeners b).
Proof.
  destruct (callListener_fold event (listeners b) b) as (Hl & Hd & _).
  split; [exact Hl | exact Hd].
Qed.

(** A registered listener receives the events of a trace one by one, in
    the order of emission. *)
Lemma emitAll_inbox (events : list TrackingEvent.t) (l : listenerRef) (b : Bus) :
  NoDup (listeners b) -> In l (listeners b) ->
  listeners (emitAll throwsOn events b) = listeners b /\
  inbox l (emitAll throwsOn events b) = inbox l b ++ events.
Proof.
  revert b. induction events as [|ev events IH]; intros b Hnd Hin; simpl.
  - rewrite app_nil_r. split; reflexivity.
  - destruct (emit_effect ev b) as [Hl Hd].
    destruct (IH (emit throwsOn ev b)) as [Hl' Hi']; [rewrite Hl; exact Hnd | rewrite Hl; exact Hin |].
    split; [rewrite Hl'; exact Hl|].
    rewrite Hi'. unfold inbox at 1. rewrite Hd, inbox_app.
    rewrite (filter_one_delivery l ev _ Hnd Hin), <- app_assoc. reflexivity.
Qed.

End ListenerFacts.

(** X7.  [emit] calls every listener of the set, in registration order,
    also after one of them has thrown: the calls made are exactly one per
    listener, and the console gets one warning per listener that threw. *)
Theorem emit_calls_every_listener
    (throwsOn : Listeners.listenerRef -> Runtime.TrackingEvent.t -> bool)
    (event : Runtime.TrackingEvent.t) (b : Listeners.Bus) :
  let b' := Listeners.emit throwsOn event b in
  Listeners.listeners b' = Listeners.listeners b /\
  Listeners.delivered b'
    = Listeners.delivered b ++ map (fun l => (l, event)) (Listeners.listeners b) /\
  length (Listeners.warnings b')
    = (length (Listeners.warnings b)
       + length (List.filter (fun l => throwsOn l event) (Listeners.listeners b)))%nat.
Proof.
  intros b'. destruct (callListener_fold throwsOn event (Listeners.listeners b) b)
    as (Hl & Hd & Hw).
  split; [exact Hl|]. split; [exact Hd|].
  unfold b', Listeners.emit. rewrite Hw, length_app, length_map. reflexivity.
Qed.

(** X8.  The listeners form a set: adding a listener twice is adding it
    once and leaves an earlier registration in its place; after
    [removeEventListener] the listener is not called by [emit]; a listener
    that is registered is called exactly once per [emit]. *)
Theorem listeners_are_a_set
    (throwsOn : Listeners.listenerRef -> Runtime.TrackingEvent.t -> bool)
    (event : Runtime.TrackingEvent.t) (l : Listeners.listenerRef) (b : Listeners.Bus) :
  NoDup (Listeners.listeners b) ->
  NoDup (Listeners.listeners (Listeners.addEventListener l b)) /\
  Listeners.addEventListener l (Listeners.addEventListener l b)
    = Listeners.addEventListener l b /\
  (In l (Listeners.listeners b) ->
   Listeners.listeners (Listeners.addEventListener l b) = Listeners.listeners b) /\
  Listeners.inbox l (Listeners.emit throwsOn event (Listeners.addEventListener l b))
    = Listeners.inbox l b ++ [event] /\
  Listeners.inbox l (Listeners.emit throwsOn event (Listeners.removeEventListener l b))
    = Listeners.inbox l b.
Proof.
  intros Hnd.
  assert (Hex : forall ls, existsb (Nat.eqb l) ls = true <-> In l ls).
  { intros ls. rewrite existsb_exists. split.
    - intros (x & Hx & E). apply Nat.eqb_eq in E. subst x. exact Hx.
    - intros I. exists l. split; [exact I | apply Nat.eqb_refl]. }
  assert (Hin : In l (Listeners.listeners (Listeners.addEventListener l b))).
  { simpl. destruct (existsb (Nat.eqb l) (Listeners.listeners b)) eqn:E.
    - apply Hex. exact E.
    - apply in_or_app. right. left. reflexivity. }
  assert (Hnd' : NoDup (Listeners.listeners (Listeners.addEventListener l b))).
  { simpl. destruct (existsb (Nat.eqb l) (Listeners.listeners b)) eqn:E; [exact Hnd|].
    apply NoDup_app. split; [exact Hnd|]. split; [|apply NoDup_singleton].
    intros x Hx Hx'. apply list_elem_of_In in Hx. apply list_elem_of_In in Hx'.
    destruct Hx' as [<-|[]]. apply Hex in Hx. congruence. }
  split; [exact Hnd'|]. split.
  { unfold Listeners.addEventListener at 1. simpl Listeners.delivered.
    simpl Listeners.warnings.
    apply Hex in Hin. rewrite Hin. reflexivity. }
  split.
  { intros I. simpl. apply Hex in I. rewrite I. reflexivity. }
  split.
  - destruct (emit_effect throwsOn event (Listeners.addEventListener l b)) as (_ & Hd).
    unfold Listeners.inbox at 1. rewrite Hd, inbox_app.
    rewrite (filter_one_delivery l event _ Hnd' Hin). reflexivity.
  - destruct (emit_effect throwsOn event (Listeners.removeEventListener l b))
      as (_ & Hd).
    unfold Listeners.inbox at 1. rewrite Hd, inbox_app.
    rewrite filter_no_delivery; [apply app_nil_r|].
    simpl. intros I. apply List.filter_In in I as [_ I].
    rewrite Nat.eqb_refl in I. discriminate.
Qed.

Lemma listeners_are_a_set_witness :
  Listeners.inbox 7%nat
    (Listeners.emit (fun _ _ => true) (Spec.startedEvent "c1" O 0)
       (Listeners.addEventListener 7%nat
          (Listeners.addEventListener 7%nat Listeners.emptyBus)))
  = [Spec.startedEvent "c1" O 0].
Proof.
  destruct (listeners_are_a_set (fun _ _ => true) (Spec.startedEvent "c1" O 0) 7%nat
              Listeners.emptyBus (NoDup_nil_2 (A:=nat))) as (_ & Hidem & _ & Hinbox & _).
  rewrite Hidem, Hinbox. reflexivity.
Defined.

(** X9.  A listener registered before a program runs is handed the events
    the tracker emits during the run one by one, in the order of emission,
    whatever the other listeners do. *)
Theorem listener_receives_the_trace_in_order
    (throwsOn : Listeners.listenerRef -> Runtime.TrackingEvent.t -> bool)
    (ops : list Runtime.Op) (w : Runtime.World)
    (l : Listeners.listenerRef) (b : Listeners.Bus) :
  NoDup (Listeners.listeners b) -> In l (Listeners.listeners b) ->
  Listeners.inbox l (Listeners.emitAll throwsOn (Runtime.emitted (Runtime.run ops w)) b)
  = Listeners.inbox l b ++ Runtime.emitted (Runtime.run ops w).
Proof.
  intros Hnd Hin.
  destruct (emitAll_inbox throwsOn (Runtime.emitted (Runtime.run ops w)) l b Hnd Hin)
    as [_ Hinbox].
  exact Hinbox.
Qed.

Lemma listener_receives_the_trace_in_order_witness :
  map Runtime.TrackingEvent.type
    (Listeners.inbox 2%nat
       (Listeners.emitAll (fun l _ => Nat.eqb l 1)
          (Runtime.emitted
             (Runtime.run [Runtime.OpNew (Samples.context None);
                           Runtime.OpStart "a" 0%nat; Runtime.OpEnd "a"]
                          Samples.initialWorld))
          (Listeners.addEventListener 2%nat
             (Listeners.addEventListener 1%nat Listeners.emptyBus))))
  = [Runtime.context_started; Runtime.context_ended].
Proof.
  rewrite (listener_receives_the_trace_in_order (fun l _ => Nat.eqb l 1)).
  - reflexivity.
  - apply NoDup_cons. split; [|apply NoDup_singleton].
    intros H. apply list_elem_of_In in H. destruct H as [H|[]]. discriminate H.
  - right. left. reflexivity.
Defined.

(** * The scoped helper and the fetch wrapper *)

Section ScopedFacts.
Import Core Runtime Scoped.

Lemma trackResource_refsValid (id rt : string) (u : ResourceMetrics) (w : World) :
  Inv.refsValid w -> Inv.refsValid (ResourceTracker.trackResource id rt u w).
Proof.
  unfold Inv.refsValid. intros H id' c.
  destruct (trackResource_frame w id rt u) as (Ha & Hh & _).
  rewrite Ha, Hh. apply H.
Qed.

(** In a consistent registry [endContext] leaves no trace of the id,
    whether it was registered or not. *)
Lemma endContext_clears (id : string) (w : World) :
  Inv.synced w -> Inv.refsValid w ->
  JSMap.get id (activeContexts (snd (ResourceTracker.endContext id w))) = None /\
  JSMap.get id (metrics (snd (ResourceTracker.endContext id w))) = None.
Proof.
  intros Hs Hv.
  destruct (JSMap.get id (activeContexts w)) as [c|] eqn:Ha.
  - destruct (keys_In_get (metrics w) id) as [m Hm].
    { rewrite <- Hs. apply (get_Some_keys _ _ _ Ha). }
    destruct (Hv id c Ha) as [ctx Hc].
    destruct (endContext_known w id c m ctx Ha Hm Hc) as (_ & _ & Hac & Hme & _).
    rewrite Hac, Hme. split; apply get_delete_eq.
  - rewrite endContext_unknown by (left; exact Ha). simpl. split; [exact Ha|].
    apply get_None_keys. rewrite <- Hs. apply get_None_keys. exact Ha.
Qed.

End ScopedFacts.

(** X10.  [withSDGContext] hands back what the work produced, a value or a
    failure alike, and in both cases the generated id is in neither map of
    the registry afterwards, provided the work left the registry
    consistent (its maps in step, its references pointing to objects). *)
Theorem withSDGContext_always_tears_down
    {T : Type} (random : string) (perf : Scoped.Performance) (context : Runtime.ref)
    (fn : Runtime.World -> option T * Runtime.World) (w : Runtime.World) :
  let id := fst (Scoped.newContextId random w) in
  let w1 := Runtime.ResourceTracker.startContext id context
              (snd (Scoped.newContextId random w)) in
  Inv.synced (snd (fn w1)) -> Inv.refsValid (snd (fn w1)) ->
  let r := Scoped.withSDGContext random perf context fn w in
  fst r = fst (fn w1) /\
  JSMap.get id (Runtime.activeContexts (snd r)) = None /\
  Runtime.ResourceTracker.getCurrentMetrics id (snd r) = None.
Proof.
  intros id w1 Hs Hv r. subst r. unfold Scoped.withSDGContext.
  unfold Runtime.ResourceTracker.getCurrentMetrics.
  destruct (Scoped.newContextId random w) as [id0 w0] eqn:Hid.
  simpl in id, w1. fold id. fold w1.
  destruct (fn w1) as [[result|] w2] eqn:Hfn; simpl in Hs, Hv.
  - pose proof (trackResource_synced id "execution" (Scoped.executionUsage perf) w2 Hs)
      as Hs'.
    pose proof (trackResource_refsValid id "execution" (Scoped.executionUsage perf) w2 Hv)
      as Hv'.
    destruct (endContext_clears id _ Hs' Hv') as [Ha Hm].
    destruct (Runtime.ResourceTracker.endContext id
                (Runtime.ResourceTracker.trackResource id "execution"
                   (Scoped.executionUsage perf) w2)) as [ret w3].
    simpl in *. repeat split; assumption.
  - destruct (endContext_clears id w2 Hs Hv) as [Ha Hm].
    destruct (Runtime.ResourceTracker.endContext id w2) as [ret w3].
    simpl in *. repeat split; assumption.
Qed.

Section Validity.
Import Core Runtime.

Lemma alter_is_Some {A : Type} (f : A -> A) (l : list A) (i j : nat) :
  is_Some (l !! j) -> is_Some (alter f i l !! j).
Proof.
  intros H. apply lookup_lt_is_Some. rewrite length_alter.
  apply lookup_lt_is_Some. exact H.
Qed.

Lemma startContext_refsValid (id : string) (c : ref) (w : World) :
  is_Some (heap w !! c) -> Inv.refsValid w ->
  Inv.refsValid (ResourceTracker.startContext id c w).
Proof.
  intros Hc Hv id' c'.
  destruct (startContext_effect w id c) as (Hh & Ha & _). rewrite Hh, Ha.
  intros Hget. apply alter_is_Some.
  destruct (String.eqb_spec id id') as [<-|Hne].
  - rewrite get_set_eq in Hget. injection Hget as <-. exact Hc.
  - rewrite get_set_ne in Hget by exact Hne. apply (Hv id' c' Hget).
Qed.

Lemma step_refsValid (op : Op) (w : World) :
  Inv.opOk w op = true -> Inv.refsValid w -> Inv.refsValid (step w op).
Proof.
  intros Hok Hv. destruct op as [c0|r f|id c|id rt u|rt u|id]; simpl in *.
  - intros id' c' Hget. destruct (Hv id' c' Hget) as [x Hx].
    exists x. apply lookup_app_l_Some. exact Hx.
  - intros id' c' Hget. apply alter_is_Some. apply (Hv id' c' Hget).
  - apply startContext_refsValid; [|exact Hv].
    apply lookup_lt_is_Some. apply Nat.ltb_lt. exact Hok.
  - apply trackResource_refsValid. exact Hv.
  - intros id' c'. destruct (broadcast_frame rt u w) as [Ha Hh]. rewrite Ha, Hh. apply Hv.
  - intros id' c' Hget. destruct (endContext_frame id w) as [[Ha|Ha] Hh];
      rewrite Ha in Hget; rewrite Hh.
    + apply (Hv id' c' Hget).
    + apply get_delete_Some in Hget as [_ Hget]. apply (Hv id' c' Hget).
Qed.

Lemma run_refsValid (ops : list Op) (w : World) :
  Inv.opsOk ops w = true -> Inv.refsValid w -> Inv.refsValid (run ops w).
Proof.
  revert w. induction ops as [|op ops IH]; intros w Hok Hv; simpl in *; [exact Hv|].
  apply andb_true_iff in Hok as [Hop Hok].
  apply IH; [exact Hok|]. apply step_refsValid; assumption.
Qed.

Lemma run_synced (ops : list Op) (w : World) : Inv.synced w -> Inv.synced (run ops w).
Proof.
  revert w. induction ops as [|op ops IH]; intros w Hs; simpl; [exact Hs|].
  apply IH. apply step_synced. exact Hs.
Qed.

End Validity.

Lemma withSDGContext_always_tears_down_witness :
  let fn := fun w : Runtime.World =>
              (@None nat,
               Runtime.trackResource "work" (Core.set_energy (Some 2) Samples.noUsage) w) in
  let perf := {| Scoped.nowBefore := 0; Scoped.usedJSHeapSizeBefore := None;
                 Scoped.nowAfter := 5; Scoped.usedJSHeapSizeAfter := None |} in
  let w := snd (Runtime.newContext (Samples.context (Some 1)) Samples.initialWorld) in
  let r := Scoped.withSDGContext "k3j2h1g0f" perf O fn w in
  fst r = None /\
  Runtime.activeContexts (snd r) = [] /\
  map Runtime.TrackingEvent.type (Runtime.emitted (snd r))
    = [Runtime.context_started; Runtime.resource_tracked;
       Runtime.carbon_budget_exceeded; Runtime.context_ended].
Proof.
  intros fn perf w r.
  assert (Hw : Inv.synced w /\ Inv.refsValid w).
  { split; [reflexivity|]. intros id c H. discriminate H. }
  destruct Hw as [Hs Hv].
  pose (w1 := Runtime.ResourceTracker.startContext (fst (Scoped.newContextId "k3j2h1g0f" w)) O
                (snd (Scoped.newContextId "k3j2h1g0f" w))).
  assert (Hs1 : Inv.synced (snd (fn w1))).
  { apply (run_synced [Runtime.OpBroadcast "work" (Core.set_energy (Some 2) Samples.noUsage)]).
    reflexivity. }
  assert (Hv1 : Inv.refsValid (snd (fn w1))).
  { apply (run_refsValid
             [Runtime.OpBroadcast "work" (Core.set_energy (Some 2) Samples.noUsage)]);
      [reflexivity|].
    apply startContext_refsValid; [eexists; reflexivity|].
    intros id c H. discriminate H. }
  destruct (withSDGContext_always_tears_down "k3j2h1g0f" perf O fn w Hs1 Hv1)
    as (Hout & _ & _).
  fold r in Hout. split; [rewrite Hout; reflexivity|].
  split; vm_compute; reflexivity.
Defined.

(** X11.  When the work leaves the context registered, the events
    [withSDGContext] adds after the work are, in this order: after work
    that returned, one [resource_tracked] event of resource type
    [execution] for the usage derived from the measured duration and heap
    growth; then [carbon_budget_exceeded] if the context's budget is
    exceeded by the final metrics; then [context_ended], always last.  The
    final metrics, which all three events report, include the execution
    usage after work that returned: their energy is the accumulated energy
    plus the duration times 0.000001.  After work that failed no usage is
    recorded and the final metrics are the accumulator as the work left
    it. *)
Theorem withSDGContext_records_execution_on_success_only
    {T : Type} (random : string) (perf : Scoped.Performance) (context : Runtime.ref)
    (fn : Runtime.World -> option T * Runtime.World) (w : Runtime.World)
    (outcome : option T) (w2 : Runtime.World)
    (c : Runtime.ref) (ctx : Runtime.SDGContext) (m : Core.ResourceMetrics) :
  let id := fst (Scoped.newContextId random w) in
  let w1 := Runtime.ResourceTracker.startContext id context
              (snd (Scoped.newContextId random w)) in
  fn w1 = (outcome, w2) ->
  JSMap.get id (Runtime.activeContexts w2) = Some c ->
  JSMap.get id (Runtime.metrics w2) = Some m ->
  Runtime.heap w2 !! c = Some ctx ->
  let mfinal := match outcome with
                | Some _ => Runtime.ResourceTracker.accumulate m (Scoped.executionUsage perf)
                | None => m
                end in
  let wf := snd (Scoped.withSDGContext random perf context fn w) in
  (exists duration t1 t2 t3,
     Runtime.emitted wf
     = Runtime.emitted w2
       ++ (match outcome with
           | Some _ => [Spec.trackedEvent id "execution" (Scoped.executionUsage perf)
                          mfinal t1]
           | None => []
           end)
       ++ (if Spec.contextBudgetExceeded ctx mfinal
           then [Spec.exceededEvent id c mfinal t2] else [])
       ++ [Spec.endedEvent id c mfinal duration t3]) /\
  (exists duration timestamp,
     last (Runtime.emitted wf) = Some (Spec.endedEvent id c mfinal duration timestamp)) /\
  (is_Some outcome ->
   JS.the (Core.energy mfinal)
   == JS.the (Core.energy m)
      + (Scoped.nowAfter perf - Scoped.nowBefore perf) * (1 # 1000000)).
Proof.
  intros id w1 Hfn Ha Hm Hh mfinal wf. subst wf. unfold Scoped.withSDGContext.
  destruct (Scoped.newContextId random w) as [id0 w0] eqn:Hid.
  simpl in id, w1. fold id. fold w1. rewrite Hfn.
  destruct outcome as [result|].
  - set (u := Scoped.executionUsage perf) in *.
    destruct (trackResource_known w2 id "execution" u m Hm) as (_ & Hev & _).
    destruct (trackResource_frame w2 id "execution" u) as (Ha3 & Hh3 & _).
    pose proof (trackResource_same w2 id "execution" u m Hm) as Hm3.
    set (w3 := Runtime.ResourceTracker.trackResource id "execution" u w2) in *.
    rewrite <- Ha3 in Ha. rewrite <- Hh3 in Hh.
    destruct (endContext_known w3 id c _ ctx Ha Hm3 Hh) as (_ & Hend & _).
    destruct (Runtime.ResourceTracker.endContext id w3) as [ret w4]. simpl in *.
    fold mfinal in Hend. split; [|split].
    + do 4 eexists. rewrite Hend, Hev, <- app_assoc. reflexivity.
    + do 2 eexists. rewrite Hend, !app_assoc. apply last_snoc.
    + intros _. unfold mfinal. rewrite accumulate_energy. reflexivity.
  - unfold mfinal.
    destruct (endContext_known w2 id c m ctx Ha Hm Hh) as (_ & Hend & _).
    destruct (Runtime.ResourceTracker.endContext id w2) as [ret w4]. simpl in *.
    split; [|split].
    + eexists. exists 0. do 2 eexists. rewrite Hend. reflexivity.
    + do 2 eexists. rewrite Hend, !app_assoc. apply last_snoc.
    + intros [x Hx]. discriminate Hx.
Qed.

Lemma withSDGContext_records_execution_on_success_only_witness :
  let fn := fun w : Runtime.World => (Some 7%nat, w) in
  let perf := {| Scoped.nowBefore := 0; Scoped.usedJSHeapSizeBefore := None;
                 Scoped.nowAfter := 2000000; Scoped.usedJSHeapSizeAfter := None |} in
  let w := snd (Runtime.newContext (Samples.context (Some 1)) Samples.initialWorld) in
  map (fun e => (Runtime.TrackingEvent.type e, Runtime.TrackingEvent.resourceType e))
      (Runtime.emitted (snd (Scoped.withSDGContext "k3j2h1g0f" perf O fn w)))
  = [(Runtime.context_started, None);
     (Runtime.resource_tracked, Some "execution"%string);
     (Runtime.carbon_budget_exceeded, None);
     (Runtime.context_ended, None)].
Proof.
  intros fn perf w.
  destruct (withSDGContext_records_execution_on_success_only "k3j2h1g0f" perf O fn w
              (Some 7%nat) _ O
              (Runtime.set_startTime (Some (inject_Z 1001)) (Samples.context (Some 1)))
              Core.initialMetrics eq_refl eq_refl eq_refl eq_refl)
    as ((duration & t1 & t2 & t3 & Hev) & _).
  rewrite Hev. vm_compute. reflexivity.
Defined.

(** X12.  When the wrapped fetch returns, [sdgFetch] passes the response on
    and charges every active context with one network call, the estimated
    energy (duration times 0.00001) and, as emissions, that estimate times
    500. *)
Theorem sdgFetch_success_charges_every_context
    {Response : Type} (startTime endTime : Q)
    (originalFetch : Runtime.World -> option Response * Runtime.World)
    (w w1 : Runtime.World) (response : Response) :
  originalFetch w = (Some response, w1) ->
  NoDup (JSMap.keys (Runtime.activeContexts w1)) ->
  let r := Scoped.sdgFetch startTime endTime originalFetch w in
  fst r = Some response /\
  forall id m,
    In id (JSMap.keys (Runtime.activeContexts w1)) ->
    Runtime.ResourceTracker.getCurrentMetrics id w1 = Some m ->
    exists m',
      Runtime.ResourceTracker.getCurrentMetrics id (snd r) = Some m' /\
      JS.the (Core.networkCalls m') == JS.the (Core.networkCalls m) + 1 /\
      JS.the (Core.energy m')
        == JS.the (Core.energy m) + (endTime - startTime) * (1 # 100000) /\
      JS.the (Core.emissions m')
        == JS.the (Core.emissions m) + (endTime - startTime) * (1 # 100000) * 500.
Proof.
  intros Hfetch Hnd r. subst r. unfold Scoped.sdgFetch. rewrite Hfetch. simpl.
  split; [reflexivity|]. intros id m Hid Hm.
  destruct (broadcast_fold (Runtime.activeContexts w1) "network"
              (Scoped.networkUsage (endTime - startTime)) w1 Hnd) as (Hin & _).
  exists (Runtime.ResourceTracker.accumulate m (Scoped.networkUsage (endTime - startTime))).
  split; [apply Hin; assumption|].
  split; [rewrite accumulate_networkCalls; reflexivity|].
  split; [rewrite accumulate_energy; reflexivity|].
  rewrite accumulate_emissions. reflexivity.
Qed.

Lemma sdgFetch_success_charges_every_context_witness :
  let w := Runtime.run [Runtime.OpNew (Samples.context None); Runtime.OpStart "a" 0%nat]
                       Samples.initialWorld in
  let r := Scoped.sdgFetch 0 300 (fun w => (Some 200%nat, w)) w in
  exists m',
    Runtime.ResourceTracker.getCurrentMetrics "a" (snd r) = Some m' /\
    JS.the (Core.networkCalls m') == 0 + 1 /\
    JS.the (Core.energy m') == 0 + (300 - 0) * (1 # 100000) /\
    JS.the (Core.emissions m') == 0 + (300 - 0) * (1 # 100000) * 500.
Proof.
  intros w r.
  assert (Hnd : NoDup (JSMap.keys (Runtime.activeContexts w))).
  { apply (NoDup_singleton "a"%string). }
  destruct (sdgFetch_success_charges_every_context 0 300 (fun w => (Some 200%nat, w))
              w w 200%nat eq_refl Hnd) as (_ & Hall).
  destruct (Hall "a"%string Core.initialMetrics (or_introl eq_refl) eq_refl)
    as (m' & Hget & Hn & He & Hem).
  exists m'. split; [exact Hget|]. split; [exact Hn|]. split; [exact He | exact Hem].
Defined.

(** X13.  When the wrapped fetch fails, [sdgFetch] fails too, after charging
    every active context with one network call and the estimated energy
    (duration times 0.00001) and no emissions: the emissions of every
    accumulator are what they were. *)
Theorem sdgFetch_failure_charges_energy_without_emissions
    {Response : Type} (startTime endTime : Q)
    (originalFetch : Runtime.World -> option Response * Runtime.World)
    (w w1 : Runtime.World) :
  originalFetch w = (None, w1) ->
  NoDup (JSMap.keys (Runtime.activeContexts w1)) ->
  let r := Scoped.sdgFetch startTime endTime originalFetch w in
  fst r = None /\
  forall id m,
    In id (JSMap.keys (Runtime.activeContexts w1)) ->
    Runtime.ResourceTracker.getCurrentMetrics id w1 = Some m ->
    exists m',
      Runtime.ResourceTracker.getCurrentMetrics id (snd r) = Some m' /\
      JS.the (Core.networkCalls m') == JS.the (Core.networkCalls m) + 1 /\
      JS.the (Core.energy m')
        == JS.the (Core.energy m) + (endTime - startTime) * (1 # 100000) /\
      Core.emissions m' = Core.emissions m.
Proof.
  intros Hfetch Hnd r. subst r. unfold Scoped.sdgFetch. rewrite Hfetch. simpl.
  split; [reflexivity|]. intros id m Hid Hm.
  destruct (broadcast_fold (Runtime.activeContexts w1) "network_error"
              (Scoped.networkErrorUsage (endTime - startTime)) w1 Hnd) as (Hin & _).
  exists (Runtime.ResourceTracker.accumulate m
            (Scoped.networkErrorUsage (endTime - startTime))).
  split; [apply Hin; assumption|].
  split; [rewrite accumulate_networkCalls; reflexivity|].
  split; [rewrite accumulate_energy; reflexivity|].
  unfold Runtime.ResourceTracker.accumulate, Scoped.networkErrorUsage. cbn.
  repeat match goal with
         | |- context [if ?b then _ else _] => destruct b; cbn
         end; reflexivity.
Qed.

Lemma sdgFetch_failure_charges_energy_without_emissions_witness :
  let w := Runtime.run [Runtime.OpNew (Samples.context None); Runtime.OpStart "a" 0%nat]
                       Samples.initialWorld in
  let r := Scoped.sdgFetch 0 300 (fun w => (@None nat, w)) w in
  exists m',
    Runtime.ResourceTracker.getCurrentMetrics "a" (snd r) = Some m' /\
    JS.the (Core.energy m') == 0 + (300 - 0) * (1 # 100000) /\
    Core.emissions m' = Some 0.
Proof.
  intros w r.
  assert (Hnd : NoDup (JSMap.keys (Runtime.activeContexts w))).
  { apply (NoDup_singleton "a"%string). }
  destruct (sdgFetch_failure_charges_energy_without_emissions 0 300
              (fun w => (@None nat, w)) w w eq_refl Hnd) as (_ & Hall).
  destruct (Hall "a"%string Core.initialMetrics (or_introl eq_refl) eq_refl)
    as (m' & Hget & _ & He & Hem).
  exists m'. split; [exact Hget|]. split; [exact He | exact Hem].
Defined.

(** * The annotation parser *)

Section TextFacts.
Import Stdlib.Strings.Ascii Text.

Lemma takeWhile_app (p : ascii -> bool) (ds rest : string) :
  takeWhile p ds = ds -> takeWhile p rest = EmptyString ->
  takeWhile p (ds +:+ rest) = ds /\ dropWhile p (ds +:+ rest) = rest.
Proof.
  intros Hds Hrest. induction ds as [|c ds IH]; simpl in *.
  - split; [exact Hrest|].
    destruct rest as [|c rest]; [reflexivity|]. simpl in *.
    destruct (p c); [discriminate|reflexivity].
  - destruct (p c); [|discriminate]. injection Hds as Hds.
    destruct (IH Hds) as [H1 H2]. rewrite H1. split; [reflexivity | exact H2].
Qed.

Lemma takeWhile_snoc (p : ascii -> bool) (ds : string) (c : ascii) :
  takeWhile p ds = ds -> p c = true ->
  takeWhile p (ds +:+ String c EmptyString) = ds +:+ String c EmptyString.
Proof.
  intros Hds Hc. induction ds as [|d ds IH]; simpl in *.
  - rewrite Hc. reflexivity.
  - destruct (p d); [|discriminate]. injection Hds as Hds. rewrite IH by exact Hds.
    reflexivity.
Qed.

Lemma digitsValue_snoc (acc : Z) (ds : string) (c : ascii) :
  digitsValue acc (ds +:+ String c EmptyString)
  = (10 * digitsValue acc ds + (Z.of_nat (nat_of_ascii c) - 48))%Z.
Proof.
  revert acc. induction ds as [|d ds IH]; intros acc; simpl; [reflexivity|apply IH].
Qed.

Lemma append_snoc (ds : string) (c : ascii) (s : string) :
  (ds +:+ String c EmptyString) +:+ s = ds +:+ String c s.
Proof.
  induction ds as [|d ds IH]; [reflexivity|].
  change (String d ((ds +:+ String c EmptyString) +:+ s) = String d (ds +:+ String c s)).
  f_equal. exact IH.
Qed.

Lemma pretty_N_char_digit (d : N) :
  (d < 10)%N ->
  isDigit (pretty_N_char d) = true /\
  (Z.of_nat (nat_of_ascii (pretty_N_char d)) - 48)%Z = Z.of_N d.
Proof.
  intros H.
  assert (d = 0 \/ d = 1 \/ d = 2 \/ d = 3 \/ d = 4 \/ d = 5 \/ d = 6 \/ d = 7
          \/ d = 8 \/ d = 9)%N as Hd by lia.
  repeat (destruct Hd as [->|Hd]; [split; reflexivity|]). subst d. split; reflexivity.
Qed.

(** The decimal numeral [pretty] prints is a run of digits whose value is
    the number. *)
Lemma pretty_N_go_digits (x : N) (s : string) :
  exists ds,
    pretty_N_go x s = ds +:+ s /\
    takeWhile isDigit ds = ds /\
    digitsValue 0 ds = Z.of_N x /\
    ((0 < x)%N -> ds <> EmptyString).
Proof.
  revert s. induction (N.lt_wf_0 x) as [x _ IH]. intros s.
  destruct (N.eq_dec x 0%N) as [->|Hx].
  - exists EmptyString. rewrite pretty_N_go_0. repeat split. intros H. lia.
  - assert (Hpos : (0 < x)%N) by lia.
    rewrite pretty_N_go_step by exact Hpos.
    destruct (IH (x `div` 10)%N (N.div_lt x 10%N Hpos eq_refl)
                 (String (pretty_N_char (x `mod` 10)) s))
      as (ds & Hgo & Hdig & Hval & _).
    destruct (pretty_N_char_digit (x `mod` 10)%N) as [Hd Hv].
    { apply N.mod_lt. discriminate. }
    exists (ds +:+ String (pretty_N_char (x `mod` 10)) EmptyString).
    rewrite append_snoc. split; [exact Hgo|].
    split; [apply takeWhile_snoc; assumption|].
    split.
    + rewrite digitsValue_snoc, Hval, Hv.
      pose proof (N.div_mod x 10%N) as Hdm. lia.
    + intros _. destruct ds; discriminate.
Qed.

Lemma pretty_N_digits (x : N) :
  takeWhile isDigit (pretty x) = pretty x /\
  digitsValue 0 (pretty x) = Z.of_N x /\
  pretty x <> EmptyString.
Proof.
  unfold pretty, pretty_N. destruct (decide (x = 0%N)) as [->|Hx].
  - repeat split. discriminate.
  - destruct (pretty_N_go_digits x EmptyString) as (ds & Hgo & Hdig & Hval & Hne).
    assert (Hds : ds +:+ EmptyString = ds).
    { clear. induction ds as [|c ds IH]; [reflexivity|].
      change (String c (ds +:+ EmptyString) = String c ds). f_equal. exact IH. }
    rewrite Hgo, Hds. repeat split; try assumption. apply Hne. lia.
Qed.

Lemma search_here {A : Type} (matchAt : string -> option A) (s : string) (a : A) :
  matchAt s = Some a -> search matchAt s = Some a.
Proof. intros H. destruct s; simpl; rewrite H; reflexivity. Qed.

Lemma isEmpty_false (s : string) : s <> EmptyString -> isEmpty s = false.
Proof. destruct s; [contradiction|reflexivity]. Qed.

Lemma digitsValue_nonneg (s : string) (acc : Z) :
  (0 <= acc)%Z -> (0 <= digitsValue acc (takeWhile isDigit s))%Z.
Proof.
  revert acc. induction s as [|c s IH]; intros acc Hacc; simpl; [exact Hacc|].
  destruct (isDigit c) eqn:E; simpl; [|exact Hacc].
  apply IH. unfold isDigit in E. apply andb_true_iff in E as [E1 E2].
  apply Nat.leb_le in E1. lia.
Qed.

Lemma parseFloat_nonneg (s : string) : 0 <= parseFloat s.
Proof.
  unfold parseFloat.
  assert (Hw : 0 <= inject_Z (digitsValue 0 (takeWhile isDigit s))).
  { change 0 with (inject_Z 0). rewrite <- Zle_Qle. apply digitsValue_nonneg. lia. }
  destruct (dropWhile isDigit s) as [|c rest]; [exact Hw|].
  destruct (Stdlib.Strings.Ascii.ascii_dec c "."%char) as [->|Hne].
  - assert (Hf : 0 <= inject_Z (digitsValue 0 (takeWhile isDigit rest))).
    { change 0 with (inject_Z 0). rewrite <- Zle_Qle. apply digitsValue_nonneg. lia. }
    assert (Hp : 0 < inject_Z (10 ^ Z.of_nat (String.length (takeWhile isDigit rest)))).
    { change 0 with (inject_Z 0). rewrite <- Zlt_Qlt. apply Z.pow_pos_nonneg; lia. }
    assert (Hq : 0 <= inject_Z (digitsValue 0 (takeWhile isDigit rest))
                      / inject_Z (10 ^ Z.of_nat (String.length (takeWhile isDigit rest)))).
    { apply Qle_shift_div_l; [exact Hp|]. lra. }
    lra.
  - destruct c as [[] [] [] [] [] [] [] []]; try exact Hw. contradiction.
Qed.

End TextFacts.

Section ParserFacts.
Import Core SDGAnnotationParser.

Lemma parse_fold (jsDocs : list JSDoc) (acc : list Annotation) :
  fold_left (fun annotations jsDoc => annotations ++ parseJSDoc jsDoc) jsDocs acc
  = acc ++ flat_map parseJSDoc jsDocs.
Proof.
  revert acc. induction jsDocs as [|d ds IH]; intros acc; simpl.
  - rewrite app_nil_r. reflexivity.
  - rewrite IH, <- app_assoc. reflexivity.
Qed.

Lemma parseJSDoc_length (jsDoc : JSDoc) : (length (parseJSDoc jsDoc) <= 1)%nat.
Proof.
  unfold parseJSDoc. destruct (p_goal (fold_left parseTag jsDoc emptyAnnotation)); simpl; lia.
Qed.

(** What one tag does to the goal under construction. *)
Lemma parseTag_goal (cur : PartialAnnotation) (tag : JSDocTag) :
  p_goal (parseTag cur tag)
  = match ParserSpec.namesGoal tag with
    | Some g => Some g
    | None => p_goal cur
    end.
Proof.
  unfold parseTag, ParserSpec.namesGoal.
  destruct (String.eqb (getTagName tag) "sdg").
  - destruct (matchGoal (getCommentText tag)) as [key|]; [|reflexivity].
    destruct (goalOfKey key); reflexivity.
  - destruct (String.eqb (getTagName tag) "carbonBudget").
    { destruct (matchBudget (getCommentText tag)); reflexivity. }
    destruct (String.eqb (getTagName tag) "impact").
    { destruct (matchImpact (getCommentText tag)) as [[? ?]|]; reflexivity. }
    destruct (String.eqb (getTagName tag) "description"); [reflexivity|].
    destruct (String.eqb (getTagName tag) "tags"); reflexivity.
Qed.

Lemma parseTags_goal (tags : list JSDocTag) (cur : PartialAnnotation) :
  (p_goal (fold_left parseTag tags cur) = None <->
   p_goal cur = None /\ forall tag, In tag tags -> ParserSpec.namesGoal tag = None) /\
  (forall g, p_goal (fold_left parseTag tags cur) = Some g ->
     p_goal cur = Some g \/ exists tag, In tag tags /\ ParserSpec.namesGoal tag = Some g).
Proof.
  revert cur. induction tags as [|t tags IH]; intros cur; simpl.
  - split.
    + split; [intros H; split; [exact H | intros tag []] | intros [H _]; exact H].
    + intros g H. left. exact H.
  - destruct (IH (parseTag cur t)) as [Hnone Hsome]. rewrite parseTag_goal in Hnone, Hsome.
    split.
    + rewrite Hnone. destruct (ParserSpec.namesGoal t) as [g|] eqn:Et.
      * split; [intros [H _]; discriminate H|].
        intros [_ H]. specialize (H t (or_introl eq_refl)). congruence.
      * split.
        -- intros [H1 H2]. split; [exact H1|]. intros tag [<-|I]; [exact Et | apply H2, I].
        -- intros [H1 H2]. split; [exact H1|]. intros tag I. apply H2. right. exact I.
    + intros g Hg. destruct (Hsome g Hg) as [H|(tag & I & Htag)].
      * destruct (ParserSpec.namesGoal t) as [g'|] eqn:Et.
        -- right. exists t. split; [left; reflexivity|]. congruence.
        -- left. exact H.
      * right. exists tag. split; [right; exact I | exact Htag].
Qed.

End ParserFacts.

(** X14.  [parseSDGAnnotations] treats the blocks one by one and keeps
    their order: the annotations of a concatenation are the annotations of
    the parts, concatenated; no block gives more than one annotation, so
    there are at most as many annotations as blocks, and none for no
    block. *)
Theorem parseSDGAnnotations_blockwise (docs1 docs2 : list SDGAnnotationParser.JSDoc) :
  SDGAnnotationParser.parseSDGAnnotations (docs1 ++ docs2)
    = SDGAnnotationParser.parseSDGAnnotations docs1
      ++ SDGAnnotationParser.parseSDGAnnotations docs2 /\
  SDGAnnotationParser.parseSDGAnnotations [] = [] /\
  (length (SDGAnnotationParser.parseSDGAnnotations docs1) <= length docs1)%nat.
Proof.
  unfold SDGAnnotationParser.parseSDGAnnotations. rewrite !parse_fold. simpl.
  split; [apply flat_map_app|]. split; [reflexivity|].
  induction docs1 as [|d ds IH]; simpl; [lia|].
  rewrite length_app. pose proof (parseJSDoc_length d). lia.
Qed.

(** X15.  A block gives an annotation exactly when one of its [sdg] tags
    names a goal of the enum; the annotation's goal is then a goal named by
    one of the block's tags, and tags of any other name, known or not,
    never decide whether there is an annotation. *)
Theorem parseJSDoc_needs_recognised_goal (jsDoc : SDGAnnotationParser.JSDoc) :
  (SDGAnnotationParser.parseJSDoc jsDoc = [] <->
   forall tag, In tag jsDoc -> ParserSpec.namesGoal tag = None) /\
  (forall a, In a (SDGAnnotationParser.parseJSDoc jsDoc) ->
     exists tag, In tag jsDoc /\
       SDGAnnotationParser.getTagName tag = "sdg"%string /\
       ParserSpec.namesGoal tag = Some (SDGAnnotationParser.goal a)).
Proof.
  destruct (parseTags_goal jsDoc SDGAnnotationParser.emptyAnnotation) as [Hnone Hsome].
  unfold SDGAnnotationParser.parseJSDoc.
  destruct (SDGAnnotationParser.p_goal
              (fold_left SDGAnnotationParser.parseTag jsDoc
                 SDGAnnotationParser.emptyAnnotation)) as [g|] eqn:Eg.
  - split.
    + split; [intros H; discriminate H|].
      intros H. exfalso. destruct (Hsome g eq_refl) as [H0|(tag & I & Htag)].
      * discriminate H0.
      * rewrite (H tag I) in Htag. discriminate Htag.
    + intros a [<-|[]]. simpl. destruct (Hsome g eq_refl) as [H0|(tag & I & Htag)].
      * discriminate H0.
      * exists tag. split; [exact I|]. split; [|exact Htag].
        unfold ParserSpec.namesGoal in Htag.
        destruct (String.eqb_spec (SDGAnnotationParser.getTagName tag) "sdg");
          [assumption | discriminate Htag].
  - split.
    + split; [intros _; apply Hnone; reflexivity | reflexivity].
    + intros a [].
Qed.

Section BudgetFacts.
Import Stdlib.Strings.Ascii Text Core SDGAnnotationParser.

Lemma parseTag_budget_nonneg (cur : PartialAnnotation) (tag : JSDocTag) :
  (forall b, p_carbonBudget cur = Some b -> 0 <= b) ->
  forall b, p_carbonBudget (parseTag cur tag) = Some b -> 0 <= b.
Proof.
  intros Hcur b. unfold parseTag.
  destruct (String.eqb (getTagName tag) "sdg").
  { destruct (matchGoal (getCommentText tag)) as [key|]; [|apply Hcur].
    destruct (goalOfKey key); apply Hcur. }
  destruct (String.eqb (getTagName tag) "carbonBudget").
  { destruct (matchBudget (getCommentText tag)) as [number|]; [|apply Hcur].
    simpl. intros H. injection H as <-. apply parseFloat_nonneg. }
  destruct (String.eqb (getTagName tag) "impact").
  { destruct (matchImpact (getCommentText tag)) as [[? ?]|]; apply Hcur. }
  destruct (String.eqb (getTagName tag) "description"); [apply Hcur|].
  destruct (String.eqb (getTagName tag) "tags"); apply Hcur.
Qed.

Lemma parseTags_budget_nonneg (tags : list JSDocTag) (cur : PartialAnnotation) :
  (forall b, p_carbonBudget cur = Some b -> 0 <= b) ->
  forall b, p_carbonBudget (fold_left parseTag tags cur) = Some b -> 0 <= b.
Proof.
  revert cur. induction tags as [|t tags IH]; intros cur Hcur; simpl; [exact Hcur|].
  apply IH. apply parseTag_budget_nonneg. exact Hcur.
Qed.

Lemma dropWhile_all (p : ascii -> bool) (s : string) :
  takeWhile p s = s -> dropWhile p s = EmptyString.
Proof.
  induction s as [|c s IH]; simpl; [reflexivity|].
  destruct (p c); [|discriminate]. intros H. injection H as H. apply IH. exact H.
Qed.

(** Blanks followed by the unit: no digit and no point in front, and the
    unit is found after the blanks. *)
Lemma blanks_then_unit (ws : string) :
  takeWhile isSpace ws = ws ->
  takeWhile isDigit (ws +:+ "kWh") = EmptyString /\
  match ws +:+ "kWh" with
  | String "."%char _ => False
  | _ => True
  end /\
  stripPrefix "kWh" (dropWhile isSpace (ws +:+ "kWh")) = Some EmptyString.
Proof.
  intros Hws. split; [|split].
  - destruct ws as [|c ws]; [reflexivity|]. simpl in *.
    destruct (isSpace c) eqn:E; [|discriminate].
    destruct c as [[] [] [] [] [] [] [] []]; try discriminate E; reflexivity.
  - destruct ws as [|c ws]; [exact I|]. simpl in *.
    destruct (isSpace c) eqn:E; [|discriminate].
    destruct c as [[] [] [] [] [] [] [] []]; try discriminate E; exact I.
  - destruct (takeWhile_app isSpace ws "kWh" Hws eq_refl) as [_ Hd].
    rewrite Hd. reflexivity.
Qed.

Lemma matchBudgetAt_natural (n : N) (ws : string) :
  takeWhile isSpace ws = ws ->
  matchBudgetAt (pretty n +:+ ws +:+ "kWh") = Some (pretty n).
Proof.
  intros Hws. destruct (pretty_N_digits n) as (Hdig & _ & Hne).
  destruct (blanks_then_unit ws Hws) as (Hno & Hpoint & Hunit).
  destruct (takeWhile_app isDigit (pretty n) (ws +:+ "kWh") Hdig Hno) as [Ht Hd].
  unfold matchBudgetAt. rewrite Ht, Hd, (isEmpty_false _ Hne).
  destruct (ws +:+ "kWh") as [|c rest] eqn:E.
  - simpl in Hunit. discriminate Hunit.
  - destruct (ascii_dec c "."%char) as [->|Hc]; [contradiction|].
    assert (Hsame : (let '(number, rest0) :=
                       match String c rest with
                       | String "."%char rest' =>
                           let fraction := takeWhile isDigit rest' in
                           if isEmpty fraction then (pretty n, String c rest)
                           else (pretty n +:+ "." +:+ fraction, dropWhile isDigit rest')
                       | _ => (pretty n, String c rest)
                       end in
                     match stripPrefix "kWh" (dropWhile isSpace rest0) with
                     | Some _ => Some number
                     | None => None
                     end) = Some (pretty n)).
    { destruct c as [[] [] [] [] [] [] [] []]; try (rewrite Hunit; reflexivity).
      contradiction Hc. reflexivity. }
    exact Hsame.
Qed.

Lemma parseFloat_natural (n : N) : Text.parseFloat (pretty n) = inject_Z (Z.of_N n).
Proof.
  destruct (pretty_N_digits n) as (Hdig & Hval & _).
  unfold parseFloat. rewrite (dropWhile_all _ _ Hdig), Hdig, Hval. reflexivity.
Qed.

End BudgetFacts.

(** X16.  A carbon budget extracted by the parser is never negative. *)
Theorem parsed_carbonBudget_is_nonnegative
    (jsDocs : list SDGAnnotationParser.JSDoc) (a : SDGAnnotationParser.Annotation) (b : Q) :
  In a (SDGAnnotationParser.parseSDGAnnotations jsDocs) ->
  SDGAnnotationParser.carbonBudget a = Some b ->
  0 <= b.
Proof.
  unfold SDGAnnotationParser.parseSDGAnnotations. rewrite parse_fold. simpl.
  intros Hin Hb. apply in_flat_map in Hin as (jsDoc & _ & Ha).
  unfold SDGAnnotationParser.parseJSDoc in Ha.
  destruct (SDGAnnotationParser.p_goal
              (fold_left SDGAnnotationParser.parseTag jsDoc
                 SDGAnnotationParser.emptyAnnotation)); [|destruct Ha].
  destruct Ha as [<-|[]]. simpl in Hb.
  apply (parseTags_budget_nonneg jsDoc SDGAnnotationParser.emptyAnnotation);
    [|exact Hb].
  intros b0 H0. discriminate H0.
Qed.

Lemma parsed_carbonBudget_is_nonnegative_witness :
  0 <= 15 # 10.
Proof.
  apply (parsed_carbonBudget_is_nonnegative
           [[ParserSpec.tag "sdg" "Goal13 ClimateAction";
             ParserSpec.tag "carbonBudget" "1.5kWh"]]
           {| SDGAnnotationParser.goal := Core.Goal13_ClimateAction;
              SDGAnnotationParser.carbonBudget := Some (15 # 10);
              SDGAnnotationParser.impact := None;
              SDGAnnotationParser.description := None;
              SDGAnnotationParser.tags := None |}).
  - left. vm_compute. reflexivity.
  - reflexivity.
Defined.

(** X17.  A [carbonBudget] tag that writes a natural number up to 2^53
    (the range in which every natural number is a double, so that
    [parseFloat] returns the number written), optional white space and
    [kWh] sets the budget to that number, whatever tags came before it in
    the block. *)
Theorem carbonBudget_tag_reads_natural_numbers
    (tags : list SDGAnnotationParser.JSDocTag) (n : N) (ws : string) :
  (n <= 2 ^ 53)%N ->
  Text.takeWhile Text.isSpace ws = ws ->
  SDGAnnotationParser.p_carbonBudget
    (fold_left SDGAnnotationParser.parseTag
       (tags ++ [ParserSpec.tag "carbonBudget" (pretty n +:+ ws +:+ "kWh")])
       SDGAnnotationParser.emptyAnnotation)
  = Some (inject_Z (Z.of_N n)).
Proof.
  intros _ Hws. rewrite fold_left_app. simpl.
  unfold SDGAnnotationParser.parseTag at 1. simpl.
  rewrite (search_here _ _ _ (matchBudgetAt_natural n ws Hws)). simpl.
  rewrite parseFloat_natural. reflexivity.
Qed.

Lemma carbonBudget_tag_reads_natural_numbers_witness :
  SDGAnnotationParser.p_carbonBudget
    (fold_left SDGAnnotationParser.parseTag
       [ParserSpec.tag "sdg" "Goal7 AffordableEnergy";
        ParserSpec.tag "carbonBudget" "12  kWh"]
       SDGAnnotationParser.emptyAnnotation)
  = Some 12.
Proof.
  refine (carbonBudget_tag_reads_natural_numbers
            [ParserSpec.tag "sdg" "Goal7 AffordableEnergy"] 12%N "  " _ eq_refl).
  vm_compute. discriminate.
Defined.

Section GoalNumbers.
Import Stdlib.Strings.Ascii Text Core SDGAnnotationParser.

Lemma matchGoalAt_numbered (n : N) (rest : string) :
  takeWhile isDigit rest = EmptyString ->
  matchGoalAt ("Goal" +:+ pretty n +:+ rest) = Some ("Goal" +:+ pretty n).
Proof.
  intros Hrest. destruct (pretty_N_digits n) as (Hdig & _ & Hne).
  destruct (takeWhile_app isDigit (pretty n) rest Hdig Hrest) as [Ht _].
  unfold matchGoalAt.
  change (stripPrefix "Goal" ("Goal" +:+ pretty n +:+ rest)) with (Some (pretty n +:+ rest)).
  cbv beta iota zeta. rewrite Ht, (isEmpty_false _ Hne). reflexivity.
Qed.

Ltac other_number n :=
  repeat match goal with
         | |- context [String.eqb ?a ?b] =>
             destruct (String.eqb_spec a b) as [E|_];
             [ exfalso; simpl in E; injection E as E;
               change (EmptyString +:+ pretty n) with (pretty n) in E;
               match type of E with
               | _ = ?k =>
                   let k' := eval vm_compute in (digitsValue 0 k) in
                   change k with (pretty (Z.to_N k')) in E;
                   apply (inj pretty) in E; lia
               end
             | ]
         end.

Lemma goalOfKey_out_of_range (n : N) :
  (n = 0 \/ 17 < n)%N -> goalOfKey ("Goal" +:+ pretty n) = None.
Proof.
  intros Hn. unfold goalOfKey. other_number n. reflexivity.
Qed.

Lemma goalOfKey_in_range (n : N) :
  (1 <= n <= 17)%N -> is_Some (goalOfKey ("Goal" +:+ pretty n)).
Proof.
  intros Hn.
  assert (n = 1 \/ n = 2 \/ n = 3 \/ n = 4 \/ n = 5 \/ n = 6 \/ n = 7 \/ n = 8 \/ n = 9
          \/ n = 10 \/ n = 11 \/ n = 12 \/ n = 13 \/ n = 14 \/ n = 15 \/ n = 16
          \/ n = 17)%N as H by lia.
  repeat (destruct H as [->|H]; [eexists; vm_compute; reflexivity|]).
  subst n. eexists. vm_compute. reflexivity.
Qed.

End GoalNumbers.

(** X18.  An [sdg] tag whose comment starts with [Goal] and the decimal
    numeral of [n] names a goal exactly when [n] is between 1 and 17; a
    block whose only [sdg] tag has any other number gives no annotation. *)
Theorem sdg_tag_recognises_goals_1_to_17 (n : N) (rest : string) :
  Text.takeWhile Text.isDigit rest = EmptyString ->
  (is_Some (ParserSpec.namesGoal (ParserSpec.tag "sdg" ("Goal" +:+ pretty n +:+ rest)))
   <-> (1 <= n <= 17)%N) /\
  (SDGAnnotationParser.parseJSDoc [ParserSpec.tag "sdg" ("Goal" +:+ pretty n +:+ rest)] = []
   <-> ~ (1 <= n <= 17)%N).
Proof.
  intros Hrest.
  assert (Hnames : ParserSpec.namesGoal (ParserSpec.tag "sdg" ("Goal" +:+ pretty n +:+ rest))
                   = SDGAnnotationParser.goalOfKey ("Goal" +:+ pretty n)).
  { unfold ParserSpec.namesGoal, ParserSpec.tag, SDGAnnotationParser.matchGoal.
    cbn [SDGAnnotationParser.getTagName SDGAnnotationParser.getCommentText].
    change (String.eqb "sdg" "sdg") with true. cbv iota.
    rewrite (search_here _ _ _ (matchGoalAt_numbered n rest Hrest)). reflexivity. }
  assert (Hiff : is_Some (SDGAnnotationParser.goalOfKey ("Goal" +:+ pretty n))
                 <-> (1 <= n <= 17)%N).
  { split.
    - intros [g Hg]. destruct (N.eq_dec n 0%N) as [->|H0].
      + vm_compute in Hg. discriminate Hg.
      + destruct (N.le_gt_cases n 17%N) as [Hle|Hgt]; [lia|].
        rewrite goalOfKey_out_of_range in Hg by (right; exact Hgt). discriminate Hg.
    - apply goalOfKey_in_range. }
  split; [rewrite Hnames; exact Hiff|].
  unfold SDGAnnotationParser.parseJSDoc. cbn [fold_left].
  rewrite parseTag_goal, Hnames. cbn [SDGAnnotationParser.p_goal
    SDGAnnotationParser.emptyAnnotation].
  destruct (SDGAnnotationParser.goalOfKey ("Goal" +:+ pretty n)) as [g|] eqn:Eg.
  - split; [intros H; discriminate H|].
    intros H. exfalso. apply H. apply Hiff. exists g. reflexivity.
  - split; [|reflexivity]. intros _ H. apply Hiff in H. destruct H as [g Hg]. discriminate Hg.
Qed.

Lemma sdg_tag_recognises_goals_1_to_17_witness :
  ParserSpec.namesGoal (ParserSpec.tag "sdg" "Goal13 ClimateAction")
    = Some Core.Goal13_ClimateAction /\
  SDGAnnotationParser.parseJSDoc [ParserSpec.tag "sdg" "Goal18 Unknown"] = [].
Proof.
  split; [reflexivity|].
  destruct (sdg_tag_recognises_goals_1_to_17 18%N " Unknown" eq_refl) as [_ H].
  apply H. lia.
Defined.

Section TagsFacts.
Import Stdlib.Strings.Ascii Text.

Lemma split_nonempty (s : string) : split s <> [].
Proof.
  induction s as [|c s IH]; simpl; [discriminate|].
  destruct (Stdlib.Strings.Ascii.eqb c ","%char); [discriminate|].
  destruct (split s); [contradiction|discriminate].
Qed.

Lemma join_cons (piece : string) (pieces : list string) :
  pieces <> [] -> join (piece :: pieces) = piece +:+ "," +:+ join pieces.
Proof. destruct pieces; [contradiction|reflexivity]. Qed.

(** Joining the pieces with commas gives the text back. *)
Lemma join_split (s : string) : join (split s) = s.
Proof.
  induction s as [|c s IH]; [reflexivity|]. simpl split.
  destruct (Stdlib.Strings.Ascii.eqb_spec c ","%char) as [->|Hc].
  - rewrite join_cons by apply split_nonempty. rewrite IH. reflexivity.
  - destruct (split s) as [|piece pieces] eqn:E; [destruct (split_nonempty s E)|].
    destruct pieces as [|p2 ps].
    + simpl in *. rewrite IH. reflexivity.
    + rewrite join_cons in IH by discriminate. rewrite join_cons by discriminate.
      rewrite <- IH. reflexivity.
Qed.

Lemma trimEnd_idem (s : string) : trimEnd (trimEnd s) = trimEnd s.
Proof.
  induction s as [|c s IH]; [reflexivity|]. simpl.
  destruct (isSpace c && isEmpty (trimEnd s)) eqn:E; [reflexivity|].
  simpl. rewrite IH, E. reflexivity.
Qed.

(** A text that does not start with a blank keeps its start under
    [trimEnd]. *)
Lemma dropWhile_trimEnd (s : string) :
  dropWhile isSpace s = s -> dropWhile isSpace (trimEnd s) = trimEnd s.
Proof.
  destruct s as [|c s]; [reflexivity|]. simpl.
  destruct (isSpace c) eqn:E.
  - intros H. exfalso.
    assert (Hlen : (String.length (dropWhile isSpace s) <= String.length s)%nat).
    { clear. induction s as [|d s IH]; simpl; [lia|]. destruct (isSpace d); simpl; lia. }
    rewrite H in Hlen. simpl in Hlen. lia.
  - intros _. simpl. rewrite E. reflexivity.
Qed.

Lemma dropWhile_idem (p : ascii -> bool) (s : string) :
  dropWhile p (dropWhile p s) = dropWhile p s.
Proof.
  induction s as [|c s IH]; [reflexivity|]. simpl.
  destruct (p c) eqn:E; [exact IH|]. simpl. rewrite E. reflexivity.
Qed.

Lemma trim_idem (s : string) : trim (trim s) = trim s.
Proof.
  unfold trim. rewrite dropWhile_trimEnd by apply dropWhile_idem. apply trimEnd_idem.
Qed.

(** A text without comma is one piece. *)
Lemma split_one (piece : string) : commas piece = O -> split piece = [piece].
Proof.
  induction piece as [|c piece IH]; [reflexivity|]. simpl.
  destruct (Stdlib.Strings.Ascii.eqb c ","%char); [discriminate|].
  intros H. rewrite (IH H). reflexivity.
Qed.

(** The first comma after a text without comma ends the first piece. *)
Lemma split_at_comma (piece rest : string) :
  commas piece = O -> split (piece +:+ "," +:+ rest) = piece :: split rest.
Proof.
  induction piece as [|c piece IH]; [reflexivity|]. intros H. simpl in H.
  destruct (Stdlib.Strings.Ascii.eqb c ","%char) eqn:E; [discriminate|].
  change (String c piece +:+ "," +:+ rest)
    with (String c (piece +:+ "," +:+ rest)).
  cbn [split]. rewrite E, (IH H). reflexivity.
Qed.

(** Cutting what was joined gives the pieces back, when no piece holds a
    comma. *)
Lemma split_join (pieces : list string) :
  pieces <> [] -> List.Forall (fun piece => commas piece = O) pieces ->
  split (join pieces) = pieces.
Proof.
  induction pieces as [|piece pieces IH]; [contradiction|].
  intros _ Hall. inversion Hall as [|? ? Hp Hps]; subst.
  destruct pieces as [|p2 ps].
  - simpl. apply split_one. exact Hp.
  - rewrite join_cons by discriminate. rewrite (split_at_comma _ _ Hp).
    rewrite IH; [reflexivity | discriminate | exact Hps].
Qed.

Lemma split_no_comma (s : string) :
  List.Forall (fun piece => commas piece = O) (split s).
Proof.
  induction s as [|c s IH]; simpl.
  - constructor; [reflexivity | constructor].
  - destruct (Stdlib.Strings.Ascii.eqb c ","%char) eqn:E.
    + constructor; [reflexivity | exact IH].
    + destruct (split s) as [|piece pieces]; [constructor; [simpl; rewrite E; reflexivity | constructor]|].
      inversion IH as [|? ? Hp Hps]; subst.
      constructor; [simpl; rewrite E; exact Hp | exact Hps].
Qed.

Lemma split_length (s : string) : length (split s) = S (commas s).
Proof.
  induction s as [|c s IH]; [reflexivity|]. simpl.
  destruct (Stdlib.Strings.Ascii.eqb c ","%char).
  - simpl. rewrite IH. reflexivity.
  - destruct (split s) as [|piece pieces]; simpl in *; [discriminate IH | exact IH].
Qed.

End TagsFacts.

(** X19.  A [tags] tag is cut at every comma and each piece is trimmed.
    The pieces, joined with commas again, give the comment back; no piece
    holds a comma, so there is one more piece than the comment has commas,
    and these are the only pieces with that property; no stored tag keeps
    white space at either end (trimming it again changes nothing). *)
Theorem tags_are_split_at_commas_and_trimmed
    (cur : SDGAnnotationParser.PartialAnnotation) (comment : string) :
  exists pieces,
    SDGAnnotationParser.p_tags
      (SDGAnnotationParser.parseTag cur (ParserSpec.tag "tags" comment))
      = Some (map Text.trim pieces) /\
    Text.join pieces = comment /\
    List.Forall (fun piece => Text.commas piece = O) pieces /\
    length pieces = S (Text.commas comment) /\
    (forall pieces',
       pieces' <> [] -> List.Forall (fun piece => Text.commas piece = O) pieces' ->
       Text.join pieces' = comment -> pieces' = pieces) /\
    (forall t, In t (map Text.trim pieces) -> Text.trim t = t).
Proof.
  exists (Text.split comment). split; [reflexivity|].
  split; [apply join_split|]. split; [apply split_no_comma|].
  split; [apply split_length|]. split.
  - intros pieces' Hne Hall <-. symmetry. apply split_join; assumption.
  - intros t Ht. apply in_map_iff in Ht as (piece & <- & _). apply trim_idem.
Qed.

(** ** The analysis of a source file *)

Section AnalysisFacts.
Import Core SDGAnnotationParser Analysis.
Variable log10 : Q -> Q.

Lemma calculateScore_bounds (metrics : ResourceMetrics)
    (violations : list Violation) (annotations : list Core.SDGAnnotation) :
  (0 <= SDGCompiler.calculateScore metrics violations annotations <= 100)%Z.
Proof. unfold SDGCompiler.calculateScore. lia. Qed.

Lemma analyzeDeclaration_sound annotationMap name path node startLine :
  sound path (analyzeDeclaration log10 annotationMap name path node startLine).
Proof.
  unfold sound, analyzeDeclaration. cbn.
  split; [reflexivity|]. split; [apply calculateScore_bounds|].
  split; [apply analyzeFunction_emissions | reflexivity].
Qed.

Lemma push_fold {A B : Type} (f : A -> list B) (l : list A) (acc : list B) :
  fold_left (fun results x => results ++ f x) l acc = acc ++ flat_map f l.
Proof.
  revert acc. induction l as [|x l IH]; intros acc; simpl.
  - now rewrite app_nil_r.
  - rewrite IH, <- app_assoc. reflexivity.
Qed.

Lemma push_each_fold {A B : Type} (f : A -> B) (l : list A) (acc : list B) :
  fold_left (fun results x => results ++ [f x]) l acc = acc ++ map f l.
Proof.
  revert acc. induction l as [|x l IH]; intros acc; simpl.
  - now rewrite app_nil_r.
  - rewrite IH, <- app_assoc. reflexivity.
Qed.

Lemma analyzeSourceFile_unfold (sourceFile : SourceFile) :
  analyzeSourceFile log10 sourceFile =
  functionResults log10 (extractFromSourceFile sourceFile) sourceFile ++
  methodResults log10 (extractFromSourceFile sourceFile) sourceFile.
Proof.
  unfold analyzeSourceFile, functionResults, methodResults.
  set (annotationMap := extractFromSourceFile sourceFile).
  assert (Hm : forall classes acc,
    fold_left (fun results cls =>
      fold_left (fun results method =>
        results ++ [analyzeDeclaration log10 annotationMap (qualifiedName cls method)
                      (getFilePath sourceFile) (method_getNode method)
                      (method_getStartLineNumber method)])
        (getMethods cls) results) classes acc =
    acc ++ flat_map (fun cls =>
      map (fun method =>
        analyzeDeclaration log10 annotationMap (qualifiedName cls method)
          (getFilePath sourceFile) (method_getNode method)
          (method_getStartLineNumber method)) (getMethods cls)) classes).
  { induction classes as [|cls classes IH]; intros acc; simpl.
    - now rewrite app_nil_r.
    - rewrite IH, push_each_fold, <- app_assoc. reflexivity. }
  rewrite Hm. f_equal.
  assert (Hf : forall funcs acc,
    fold_left (fun results func =>
      match getName func with
      | Some name =>
          if Text.isEmpty name then results
          else results ++ [analyzeDeclaration log10 annotationMap name
                             (getFilePath sourceFile) (getNode func)
                             (getStartLineNumber func)]
      | None => results
      end) funcs acc =
    acc ++ flat_map (fun func =>
      match getName func with
      | Some name =>
          if Text.isEmpty name then []
          else [analyzeDeclaration log10 annotationMap name (getFilePath sourceFile)
                  (getNode func) (getStartLineNumber func)]
      | None => []
      end) funcs).
  { induction funcs as [|func funcs IH]; intros acc; simpl.
    - now rewrite app_nil_r.
    - rewrite IH. destruct (getName func) as [name|].
      + destruct (Text.isEmpty name); [reflexivity|].
        rewrite <- app_assoc. reflexivity.
      + reflexivity. }
  rewrite Hf. reflexivity.
Qed.

Lemma functionResults_names annotationMap sourceFile :
  map functionName (functionResults log10 annotationMap sourceFile) = functionNames sourceFile.
Proof.
  unfold functionResults, functionNames.
  induction (getFunctions sourceFile) as [|func funcs IH]; simpl; [reflexivity|].
  rewrite map_app, IH. f_equal.
  destruct (getName func) as [name|]; [|reflexivity].
  destruct (Text.isEmpty name); reflexivity.
Qed.

Lemma methodResults_names annotationMap sourceFile :
  map functionName (methodResults log10 annotationMap sourceFile) = methodNames sourceFile.
Proof.
  unfold methodResults, methodNames.
  induction (getClasses sourceFile) as [|cls classes IH]; simpl; [reflexivity|].
  rewrite map_app, IH. f_equal. rewrite map_map. reflexivity.
Qed.

Lemma functionResults_sound annotationMap sourceFile :
  Forall (sound (getFilePath sourceFile)) (functionResults log10 annotationMap sourceFile).
Proof.
  unfold functionResults.
  induction (getFunctions sourceFile) as [|func funcs IH]; simpl; [constructor|].
  apply Forall_app. split; [|exact IH].
  destruct (getName func) as [name|]; [|constructor].
  destruct (Text.isEmpty name); [constructor|].
  constructor; [apply analyzeDeclaration_sound | constructor].
Qed.

Lemma methodResults_sound annotationMap sourceFile :
  Forall (sound (getFilePath sourceFile)) (methodResults log10 annotationMap sourceFile).
Proof.
  unfold methodResults.
  induction (getClasses sourceFile) as [|cls classes IH]; simpl; [constructor|].
  apply Forall_app. split; [|exact IH].
  induction (getMethods cls) as [|method methods IHm]; simpl; constructor;
    [apply analyzeDeclaration_sound | exact IHm].
Qed.

Lemma analyzeSourceFile_sound (sourceFile : SourceFile) :
  Forall (sound (getFilePath sourceFile)) (analyzeSourceFile log10 sourceFile).
Proof.
  rewrite analyzeSourceFile_unfold. apply Forall_app.
  split; [apply functionResults_sound | apply methodResults_sound].
Qed.

Lemma analyzeAll_unfold (sourceFiles : list SourceFile) :
  analyzeAll log10 sourceFiles = flat_map (analyzeSourceFile log10) sourceFiles.
Proof. unfold analyzeAll. rewrite push_fold. reflexivity. Qed.

End AnalysisFacts.

(** X20.  [analyzeSourceFile] returns one result for each function with a
    name, then one for each method of each class, in the order of the
    file, under the function's name or [Class.method]; variable
    declarations, arrow functions included, get no result.  Every result
    carries the path of the file, a score from 0 to 100, estimated
    emissions of 500 times the estimated energy, and the violations the
    detector finds for its metrics and annotations. *)
Theorem analyzeSourceFile_reports_functions_and_methods
    (log10 : Q -> Q) (sourceFile : Analysis.SourceFile) :
  map Analysis.functionName (Analysis.analyzeSourceFile log10 sourceFile) =
    Analysis.functionNames sourceFile ++ Analysis.methodNames sourceFile /\
  Forall (Analysis.sound (Analysis.getFilePath sourceFile))
         (Analysis.analyzeSourceFile log10 sourceFile).
Proof.
  split; [|apply analyzeSourceFile_sound].
  rewrite analyzeSourceFile_unfold, map_app,
    functionResults_names, methodResults_names. reflexivity.
Qed.

(** ** The annotation map of a source file *)

Section ExtractFacts.
Import Core SDGAnnotationParser Analysis.


Lemma flat_fold {A B S : Type} (step : S -> B -> S) (f : A -> list B)
    (l : list A) (s : S) :
  fold_left (fun s x => fold_left step (f x) s) l s = fold_left step (flat_map f l) s.
Proof.
  revert s. induction l as [|x l IH]; intros s; simpl; [reflexivity|].
  rewrite fold_left_app. apply IH.
Qed.

Lemma fold_ext {A S : Type} (f g : S -> A -> S) (l : list A) (s : S) :
  (forall s x, f s x = g s x) -> fold_left f l s = fold_left g l s.
Proof.
  intros H. revert s. induction l as [|x l IH]; intros s; simpl; [reflexivity|].
  rewrite H. apply IH.
Qed.

(** The step of the three loops on one declaration. *)
Local Abbreviation enter :=
  (fun (annotationMap : JSMap.t (list Annotation)) (e : string * list Annotation) =>
     setIfAny (fst e) (snd e) annotationMap).

Lemma functions_loop (sourceFile : SourceFile) m :
  fold_left (fun annotationMap func =>
    match getName func with
    | Some name =>
        if Text.isEmpty name then annotationMap
        else setIfAny name (parseSDGAnnotations (getJsDocs func)) annotationMap
    | None => annotationMap
    end) (getFunctions sourceFile) m =
  fold_left enter (functionEntries sourceFile) m.
Proof.
  unfold functionEntries. rewrite <- flat_fold. apply fold_ext.
  intros m' func. destruct (getName func) as [name|]; [|reflexivity].
  destruct (Text.isEmpty name); reflexivity.
Qed.

Lemma methods_loop (sourceFile : SourceFile) m :
  fold_left (fun annotationMap cls =>
    fold_left (fun annotationMap method =>
      setIfAny (qualifiedName cls method)
               (parseSDGAnnotations (method_getJsDocs method)) annotationMap)
      (getMethods cls) annotationMap) (getClasses sourceFile) m =
  fold_left enter (methodEntries sourceFile) m.
Proof.
  unfold methodEntries. rewrite <- flat_fold. apply fold_ext.
  intros m' cls. revert m'.
  induction (getMethods cls) as [|method methods IH]; intros m'; simpl; [reflexivity|].
  apply IH.
Qed.

Lemma variables_loop (sourceFile : SourceFile) m :
  fold_left (fun annotationMap varDecl =>
    match getInitializer varDecl with
    | Some initializer =>
        if isArrowFunction initializer
        then setIfAny (variable_getName varDecl)
               (parseSDGAnnotations (initializer_getJsDocs initializer)) annotationMap
        else annotationMap
    | None => annotationMap
    end) (getVariableDeclarations sourceFile) m =
  fold_left enter (arrowEntries sourceFile) m.
Proof.
  unfold arrowEntries. rewrite <- flat_fold. apply fold_ext.
  intros m' varDecl. destruct (getInitializer varDecl) as [i|]; [|reflexivity].
  destruct (isArrowFunction i); reflexivity.
Qed.

Lemma extractFromSourceFile_declared (sourceFile : SourceFile) :
  extractFromSourceFile sourceFile = fold_left enter (declared sourceFile) JSMap.empty.
Proof.
  unfold extractFromSourceFile, declared.
  rewrite !fold_left_app, functions_loop, methods_loop, variables_loop. reflexivity.
Qed.

Lemma declared_names (sourceFile : SourceFile) :
  map fst (declared sourceFile) =
  functionNames sourceFile ++ methodNames sourceFile ++ arrowNames sourceFile.
Proof.
  unfold declared, functionEntries, methodEntries, arrowEntries,
    functionNames, methodNames, arrowNames.
  rewrite !map_app. f_equal; [|f_equal].
  - induction (getFunctions sourceFile) as [|func funcs IH]; simpl; [reflexivity|].
    rewrite map_app, IH. f_equal. destruct (getName func) as [name|]; [|reflexivity].
    destruct (Text.isEmpty name); reflexivity.
  - induction (getClasses sourceFile) as [|cls classes IH]; simpl; [reflexivity|].
    rewrite map_app, IH. f_equal. rewrite map_map. reflexivity.
  - induction (getVariableDeclarations sourceFile) as [|v vs IH]; simpl; [reflexivity|].
    rewrite map_app, IH. f_equal. destruct (getInitializer v) as [i|]; [|reflexivity].
    destruct (isArrowFunction i); reflexivity.
Qed.

Lemma get_enter_other (es : list (string * list Annotation)) m k :
  ~ In k (map fst es) -> JSMap.get k (fold_left enter es m) = JSMap.get k m.
Proof.
  revert m. induction es as [|[k' a'] es IH]; intros m Hk; simpl; [reflexivity|].
  rewrite IH by (intros H; apply Hk; right; exact H).
  unfold setIfAny. cbn [fst snd]. destruct (0 <? length a')%nat; [|reflexivity].
  apply get_set_ne. intros ->. apply Hk. left. reflexivity.
Qed.

Lemma get_enter_own (es : list (string * list Annotation)) m k a :
  List.NoDup (map fst es) -> In (k, a) es ->
  JSMap.get k (fold_left enter es m) =
  if (0 <? length a)%nat then Some a else JSMap.get k m.
Proof.
  revert m. induction es as [|[k' a'] es IH]; intros m Hnd Hin; [destruct Hin|].
  simpl in Hnd. inversion Hnd as [|? ? Hk' Hnd']; subst.
  destruct Hin as [E|Hin].
  - inversion E; subst. simpl. rewrite get_enter_other by exact Hk'.
    unfold setIfAny. cbn [fst snd]. destruct (0 <? length a)%nat; [|reflexivity].
    apply get_set_eq.
  - simpl. rewrite (IH _ Hnd' Hin). destruct (0 <? length a)%nat; [reflexivity|].
    unfold setIfAny. cbn [fst snd]. destruct (0 <? length a')%nat; [|reflexivity].
    apply get_set_ne. intros ->. apply Hk'.
    apply (in_map fst) in Hin. exact Hin.
Qed.

(** Under names that are all different, the map gives each declaration its
    own annotations, and nothing for a declaration without any. *)
Lemma own_annotations (sourceFile : SourceFile) k a :
  List.NoDup (map fst (declared sourceFile)) -> In (k, a) (declared sourceFile) ->
  match JSMap.get k (extractFromSourceFile sourceFile) with
  | Some annotations => annotations
  | None => []
  end = a.
Proof.
  intros Hnd Hin. rewrite extractFromSourceFile_declared, (get_enter_own _ _ _ _ Hnd Hin).
  destruct a as [|x a]; reflexivity.
Qed.

Lemma functionResults_own (log10 : Q -> Q) annotationMap (sourceFile : SourceFile) :
  (forall k a, In (k, a) (functionEntries sourceFile) ->
     match JSMap.get k annotationMap with Some x => x | None => [] end = a) ->
  map (fun r => (functionName r, sdgAnnotations r))
      (functionResults log10 annotationMap sourceFile) = functionEntries sourceFile.
Proof.
  unfold functionResults, functionEntries.
  induction (getFunctions sourceFile) as [|func funcs IH]; intros H; simpl; [reflexivity|].
  rewrite map_app, IH by (intros k a Hin; apply H; simpl; apply in_or_app; right; exact Hin).
  f_equal. destruct (getName func) as [name|] eqn:En; [|reflexivity].
  destruct (Text.isEmpty name) eqn:Ee; [reflexivity|].
  cbn. f_equal. f_equal. apply H. simpl. rewrite En, Ee. left. reflexivity.
Qed.

Lemma methodResults_own (log10 : Q -> Q) annotationMap (sourceFile : SourceFile) :
  (forall k a, In (k, a) (methodEntries sourceFile) ->
     match JSMap.get k annotationMap with Some x => x | None => [] end = a) ->
  map (fun r => (functionName r, sdgAnnotations r))
      (methodResults log10 annotationMap sourceFile) = methodEntries sourceFile.
Proof.
  unfold methodResults, methodEntries.
  induction (getClasses sourceFile) as [|cls classes IH]; intros H; simpl; [reflexivity|].
  rewrite map_app, IH by (intros k a Hin; apply H; simpl; apply in_or_app; right; exact Hin).
  f_equal.
  assert (Hc : forall k a,
    In (k, a) (map (fun method =>
      (qualifiedName cls method, parseSDGAnnotations (method_getJsDocs method)))
      (getMethods cls)) ->
    match JSMap.get k annotationMap with Some x => x | None => [] end = a).
  { intros k a Hin. apply H. simpl. apply in_or_app. left. exact Hin. }
  clear H IH. induction (getMethods cls) as [|method methods IHm]; simpl; [reflexivity|].
  rewrite IHm by (intros k a Hin; apply Hc; right; exact Hin).
  f_equal. cbn. f_equal. apply Hc. left. reflexivity.
Qed.

End ExtractFacts.

(** X21.  In a file whose functions, methods ([Class.method]) and arrow
    functions all have different names, every result of
    [analyzeSourceFile] carries exactly the annotations parsed from the
    JSDoc blocks of its own declaration: the empty list for a declaration
    without annotation, and never the annotations of another one. *)
Theorem analyzeSourceFile_attaches_own_annotations
    (log10 : Q -> Q) (sourceFile : Analysis.SourceFile) :
  List.NoDup (Analysis.functionNames sourceFile ++ Analysis.methodNames sourceFile ++
              Analysis.arrowNames sourceFile) ->
  map (fun r => (Analysis.functionName r, Analysis.sdgAnnotations r))
      (Analysis.analyzeSourceFile log10 sourceFile) =
  Analysis.functionEntries sourceFile ++ Analysis.methodEntries sourceFile.
Proof.
  intros Hnd. rewrite <- declared_names in Hnd.
  rewrite analyzeSourceFile_unfold, map_app. f_equal.
  - apply functionResults_own. intros k a Hin.
    apply own_annotations; [exact Hnd|].
    unfold Analysis.declared. apply in_or_app. left. exact Hin.
  - apply methodResults_own. intros k a Hin.
    apply own_annotations; [exact Hnd|].
    unfold Analysis.declared. apply in_or_app. right. apply in_or_app. left. exact Hin.
Qed.

Lemma analyzeSourceFile_attaches_own_annotations_witness :
  map (fun r => (Analysis.functionName r, Analysis.sdgAnnotations r))
      (Analysis.analyzeSourceFile Samples.log10 AnalysisSamples.file) =
  [("fetchData"%string,
    [ {| SDGAnnotationParser.goal := Core.Goal13_ClimateAction;
         SDGAnnotationParser.carbonBudget := Some 2;
         SDGAnnotationParser.impact := None;
         SDGAnnotationParser.description := None;
         SDGAnnotationParser.tags := None |} ]);
   ("Store.save"%string, [])].
Proof.
  refine (eq_trans (analyzeSourceFile_attaches_own_annotations Samples.log10
                      AnalysisSamples.file _) _).
  - change (List.NoDup ["fetchData"%string; "Store.save"%string; "render"%string]).
    repeat constructor; simpl; intuition discriminate.
  - vm_compute. reflexivity.
Defined.

(** ** The summary of a report *)

Section SummaryFacts.
Import Analysis Reporter.

Lemma score_fold (results : list SDGAnalysisResult) (acc : Z) :
  fold_left (fun sum r => (sum + score r)%Z) results acc =
  (acc + fold_right Z.add 0%Z (map score results))%Z.
Proof.
  revert acc. induction results as [|r results IH]; intros acc; simpl; [lia|].
  rewrite IH. lia.
Qed.


Lemma scores_sum_bounds (results : list SDGAnalysisResult) :
  Forall (fun r => (0 <= score r <= 100)%Z) results ->
  (0 <= fold_right Z.add 0%Z (map score results)
     <= 100 * Z.of_nat (length results))%Z.
Proof.
  induction 1 as [|r results Hr _ IH]; simpl; [lia|]. lia.
Qed.

(** [sum / count || 0] is the quotient, and 0 over no result. *)
Lemma averageScore_value (results : list SDGAnalysisResult) :
  averageScore (generateSummary results) ==
  match results with
  | [] => 0
  | _ :: _ => inject_Z (fold_right Z.add 0%Z (map score results))
              / inject_Z (Z.of_nat (length results))
  end.
Proof.
  unfold generateSummary. cbn [averageScore]. rewrite or_else_0, score_fold.
  destruct results as [|r results]; [reflexivity|].
  cbn [length divide JS.the]. reflexivity.
Qed.

Lemma averageScore_bounds (results : list SDGAnalysisResult) :
  Forall (fun r => (0 <= score r <= 100)%Z) results ->
  0 <= averageScore (generateSummary results) <= 100.
Proof.
  intros H. rewrite averageScore_value.
  destruct results as [|r results]; [split; lra|].
  pose proof (scores_sum_bounds _ H) as [Hlo Hhi].
  set (sum := fold_right Z.add 0%Z (map score (r :: results))) in *.
  set (n := Z.of_nat (length (r :: results))) in *.
  assert (Hn : (0 < n)%Z) by (subst n; cbn [length]; lia).
  assert (Hq : 0 < inject_Z n) by (unfold Qlt, inject_Z; simpl; lia).
  assert (Hs0 : 0 <= inject_Z sum) by (unfold Qle, inject_Z; simpl; lia).
  assert (Hs1 : inject_Z sum <= 100 * inject_Z n).
  { unfold Qle, inject_Z. simpl. lia. }
  split.
  - apply Qle_shift_div_l; [exact Hq|]. lra.
  - apply Qle_shift_div_r; [exact Hq|]. exact Hs1.
Qed.

Lemma annotated_le_total (results : list SDGAnalysisResult) :
  (annotatedFunctions (generateSummary results)
   <= totalFunctions (generateSummary results))%nat.
Proof. unfold generateSummary. cbn. apply filter_length_le. Qed.

End SummaryFacts.



(** X23.  For the results [analyzeAll] returns over any list of source
    files: there is one result per named function and per method of every
    file, in file order; the summary's count of annotated functions does
    not exceed its total; and its average score lies between 0 and 100. *)
Theorem analyzeAll_summary_in_range
    (log10 : Q -> Q) (sourceFiles : list Analysis.SourceFile) :
  let results := Analysis.analyzeAll log10 sourceFiles in
  let summary := Reporter.generateSummary results in
  map Analysis.functionName results =
    flat_map (fun sourceFile =>
      Analysis.functionNames sourceFile ++ Analysis.methodNames sourceFile) sourceFiles /\
  (Reporter.annotatedFunctions summary <= Reporter.totalFunctions summary)%nat /\
  0 <= Reporter.averageScore summary <= 100.
Proof.
  intros results summary. subst summary results.
  rewrite analyzeAll_unfold. split; [|split].
  - induction sourceFiles as [|sourceFile sourceFiles IH]; simpl; [reflexivity|].
    rewrite map_app, IH, analyzeSourceFile_unfold, map_app,
      functionResults_names, methodResults_names. reflexivity.
  - apply annotated_le_total.
  - apply averageScore_bounds.
    induction sourceFiles as [|sourceFile sourceFiles IH]; simpl; [constructor|].
    apply Forall_app. split; [|exact IH].
    eapply List.Forall_impl; [|apply analyzeSourceFile_sound].
    intros r (_ & Hs & _). exact Hs.
Qed.

(** ** The lint rule on loops *)

Section LoopRuleFacts.
Import LoopRule.
Variables arrayMethodCall propertyAccess constDeclaration : string -> bool.

Local Abbreviation walk := (traverse arrayMethodCall propertyAccess constDeclaration).
Local Abbreviation nestedOnly := (List.filter isNestedLoopsReport).

Lemma ESNode_ind' (P : ESNode -> Prop) :
  (forall type text children, Forall P children -> P (mkESNode type text children)) ->
  forall n, P n.
Proof.
  intros H. fix IH 1. intros [type text children]. apply H.
  induction children as [|c cs IHcs]; constructor; [apply IH | exact IHcs].
Qed.

Lemma checkLoop_effect (node : ESNode) (st : RuleState) :
  loopDepth (checkLoop arrayMethodCall propertyAccess constDeclaration node st)
    = loopDepth st /\
  nestedOnly (reports (checkLoop arrayMethodCall propertyAccess constDeclaration node st))
    = nestedOnly (reports st)
      ++ (if (1 <? loopDepth st)%Z then [(node, nestedLoops)] else []).
Proof.
  unfold checkLoop.
  destruct (1 <? loopDepth st)%Z;
    destruct (arrayMethodCall (getText node));
    destruct (propertyAccess (getText node) && negb (constDeclaration (getText node)));
    cbn [report loopDepth reports]; rewrite ?List.filter_app; cbn;
    rewrite ?app_nil_r; split; reflexivity.
Qed.

(** The walk of a tree that lies inside [enclosing] loops, started with
    the counter at [enclosing]. *)
Lemma traverse_effect (node : ESNode) :
  forall (enclosing : nat) (st : RuleState),
  loopDepth st = Z.of_nat enclosing ->
  loopDepth (walk node st) = loopDepth st /\
  nestedOnly (reports (walk node st)) =
    nestedOnly (reports st)
    ++ map (fun n => (n, nestedLoops)) (nestedLoopsFrom enclosing node).
Proof.
  induction node as [type text children IH] using ESNode_ind'.
  intros enclosing st Hd.
  assert (Hchildren : forall (e : nat) (st0 : RuleState),
    loopDepth st0 = Z.of_nat e ->
    loopDepth (fold_left (fun st child => walk child st) children st0) = loopDepth st0 /\
    nestedOnly (reports (fold_left (fun st child => walk child st) children st0)) =
      nestedOnly (reports st0)
      ++ map (fun n => (n, nestedLoops)) (flat_map (nestedLoopsFrom e) children)).
  { intros e. induction IH as [|c cs Hc _ IHcs]; intros st0 H0; simpl.
    - rewrite app_nil_r. split; reflexivity.
    - destruct (Hc e st0 H0) as [Hd1 Hr1].
      destruct (IHcs (walk c st0)) as [Hd2 Hr2]; [rewrite Hd1; exact H0|].
      split; [rewrite Hd2; exact Hd1|].
      rewrite Hr2, Hr1, map_app, app_assoc. reflexivity. }
  cbn [traverse nestedLoopsFrom]. unfold onEnter, onExit. cbn [getType].
  destruct (isLoopType type).
  - destruct (checkLoop_effect (mkESNode type text children) (enterLoop st)) as [Hd1 Hr1].
    cbn [enterLoop loopDepth reports] in Hd1, Hr1.
    destruct (Hchildren (S enclosing)
                (checkLoop arrayMethodCall propertyAccess constDeclaration
                   (mkESNode type text children) (enterLoop st))) as [Hd2 Hr2].
    { rewrite Hd1, Hd. lia. }
    cbn [exitLoop loopDepth reports]. split; [rewrite Hd2, Hd1; lia|].
    rewrite Hr2, Hr1, map_app, app_assoc. f_equal. f_equal.
    rewrite Hd. destruct enclosing as [|e].
    + reflexivity.
    + replace (1 <? Z.of_nat (S e) + 1)%Z with true by (symmetry; apply Z.ltb_lt; lia).
      reflexivity.
  - apply Hchildren. exact Hd.
Qed.

End LoopRuleFacts.

(** X24.  Over any tree the rule avoid-inefficient-loops leaves its loop
    counter where it started, and reports [nestedLoops] for exactly the
    for, while, for-in and for-of statements that have such a statement
    around them, each once, in the order of the walk: loops side by side
    are not reported.  This holds whatever the rule's three text tests
    answer. *)
Theorem nestedLoops_reported_for_loops_inside_loops
    (arrayMethodCall propertyAccess constDeclaration : string -> bool)
    (program : LoopRule.ESNode) :
  let final := LoopRule.traverse arrayMethodCall propertyAccess constDeclaration program
                 {| LoopRule.loopDepth := 0; LoopRule.reports := [] |} in
  LoopRule.loopDepth final = 0%Z /\
  List.filter LoopRule.isNestedLoopsReport (LoopRule.reports final) =
    map (fun n => (n, LoopRule.nestedLoops)) (LoopRule.nestedLoopsOf program).
Proof.
  intros final. subst final.
  destruct (traverse_effect arrayMethodCall propertyAccess constDeclaration program 0%nat
              {| LoopRule.loopDepth := 0; LoopRule.reports := [] |} eq_refl) as [Hd Hr].
  split; [exact Hd | exact Hr].
Qed.
